(** * Sage's Oracle: retrieval, chunking and answer synthesis

    A shallow embedding of the Python sources

      - [backend/core/rag_engine.py]  (class [RAGEngine])
      - [backend/utils/chunking.py]   (class [TextChunker])
      - [backend/etl/pipeline.py]     (class [ETLPipeline])
      - [backend/api/main.py]         (handler [list_sources])

    Modelling conventions.

    - Python [int] is [Z]; list positions produced by [numpy.argsort] are
      [nat].
    - Python [float] values (similarity scores, the temperature) are exact
      rationals [Q]: only their order and their position in lists matter
      below, never a rounding error, and NaN is left out.
    - A raised exception is the [Err] case of [result].
    - A dict used as an open-ended map (chunk metadata) is a
      [gmap string json]; the raw records of the rules API are records whose
      fields are [option]s, [None] standing for an absent key.
    - The embedding matrix is a numpy array with its shape: two axes
      [(N, D)], or one axis, as the array of shape [(0,)] that the index
      build writes for an empty corpus.
    - The sentence embedding model loaded by the engine is a field of the
      engine.  The other external services are parameters of a [Section]:
      the embedding model of the pipeline, the tokenizer, Python's [str] on
      an arbitrary JSON value, and the HTTP call to the generation model. *)

From Stdlib Require Import ZArith QArith Qround Qabs Lia Lqa Ascii String.
From Stdlib Require Import Sorting.Sorted Sorting.Permutation.
From stdpp Require Import base option list sorting strings pretty gmap.

Local Open Scope string_scope.
Local Open Scope list_scope.
Local Open Scope Z_scope.

(** ** Python values and exceptions *)

Set Warnings "-register-all".

Inductive json : Type :=
| JNull
| JBool (b : bool)
| JInt (z : Z)
| JReal (q : Q)
| JStr (s : string)
| JList (l : list json)
| JDict (l : list (string * json)).

Inductive pyerr : Type :=
| IndexError
| KeyError (key : string)
| ValueError (msg : string).

Inductive result (A : Type) : Type :=
| Ok (a : A)
| Err (e : pyerr).
Arguments Ok {A} a.
Arguments Err {A} e.

Definition bind {A B} (m : result A) (k : A -> result B) : result B :=
  match m with
  | Ok a => k a
  | Err e => Err e
  end.

Notation "'do' x <- m ; k" := (bind m (fun x => k))
  (at level 10, x pattern, m at level 100, k at level 200).

(** A [for] loop that appends one value per element and stops at the first
    exception. *)
Fixpoint mapM {A B} (f : A -> result B) (l : list A) : result (list B) :=
  match l with
  | [] => Ok []
  | x :: l' => do y <- f x; do ys <- mapM f l'; Ok (y :: ys)
  end.

Definition is_ok {A} (r : result A) : Prop :=
  match r with Ok _ => True | Err _ => False end.

(** ** Python sequence primitives *)

(** A slice bound [i] on a sequence of length [len]: a negative bound counts
    from the end, and the bound is clamped to [0..len]. *)
Definition slice_bound (len i : Z) : Z :=
  if i <? 0 then Z.max 0 (i + len) else Z.min i len.

(** [l[start:stop]], either bound possibly omitted. *)
Definition py_slice {A} (l : list A) (start stop : option Z) : list A :=
  let len := Z.of_nat (length l) in
  let lo := from_option (slice_bound len) 0 start in
  let hi := from_option (slice_bound len) len stop in
  take (Z.to_nat (hi - lo)) (drop (Z.to_nat lo) l).

(** [l[idx]] for a non-negative index. *)
Definition py_getitem {A} (l : list A) (idx : nat) : result A :=
  match l !! idx with
  | Some x => Ok x
  | None => Err IndexError
  end.

(** [range(0, stop, step)]: CPython computes the number of items first and
    then yields [k * step]; a zero step raises [ValueError], a negative one
    yields nothing here because [0 <= stop]. *)
Definition range_len (stop step : Z) : nat :=
  if 0 <? step then Z.to_nat ((stop + step - 1) / step) else 0%nat.

Definition py_range (stop step : Z) : result (list Z) :=
  if step =? 0 then Err (ValueError "range() arg 3 must not be zero")
  else Ok (map (fun k => Z.of_nat k * step) (seq 0 (range_len stop step))).

(** [sep.join(parts)] *)
Fixpoint join (sep : string) (parts : list string) : string :=
  match parts with
  | [] => ""
  | [p] => p
  | p :: ps => p +:+ sep +:+ join sep ps
  end.

Definition nl : string := String "010"%char "".
Definition dquote : string := String "034"%char "".

(** ** Data model *)

(** A chunk as stored in [all_chunks.json]: [{text, metadata, token_count}]. *)
Record Chunk : Type := mkChunk {
  chunk_text : string;
  chunk_metadata : gmap string json;
  chunk_token_count : Z
}.

(** One entry of [metadata.json]: [{id, metadata, token_count}]. *)
Record MetaEntry : Type := mkMetaEntry {
  meta_id : Z;
  meta_metadata : gmap string json;
  meta_token_count : Z
}.

(** A numpy array of floats with one or two axes, of shape
    [(len values,)] or [(len rows, width)], every row having [width]
    entries.  [embeddings.npy] holds what
    [SentenceTransformer.encode] returned for the chunk texts: an array of
    shape [(N, D)] for [N >= 1] texts, and the array of shape [(0,)] for no
    text at all. *)
Inductive ndarray : Type :=
| Array1 (values : list Q)
| Array2 (width : nat) (rows : list (list Q)).

(** [len(a)] *)
Definition array_len (a : ndarray) : nat :=
  match a with
  | Array1 values => length values
  | Array2 _ rows => length rows
  end.

(** [a.shape[-1]] *)
Definition last_axis (a : ndarray) : nat :=
  match a with
  | Array1 values => length values
  | Array2 width _ => width
  end.

(** The rows of an array with two axes; an array with one axis has none. *)
Definition array_rows (a : ndarray) : list (list Q) :=
  match a with
  | Array1 _ => []
  | Array2 _ rows => rows
  end.

(** [numpy.asarray] of a list of rows of one length, which is how [encode]
    builds the array it returns: the empty list gives the array of shape
    [(0,)]. *)
Definition np_asarray (rows : list (list Q)) : ndarray :=
  match rows with
  | [] => Array1 []
  | row :: _ => Array2 (length row) rows
  end.

(** The state of a [RAGEngine] after [__init__].  [embedding_model] is the
    loaded sentence embedding model, as the function
    [fun query => self.embedding_model.encode([query])[0]]. *)
Record RAGEngine : Type := mkEngine {
  chunks : list Chunk;
  embeddings : ndarray;
  metadata : list MetaEntry;
  embedding_model : string -> list Q;
  llm_url : string;
  llm_model : string
}.

(** ** Retrieval: [RAGEngine.retrieve] *)

(** The value of [numpy.dot(a, v)] for a vector [v]: a scalar when [a] has
    one axis, a vector with one entry per row when [a] has two. *)
Inductive similarity_array : Type :=
| Scalar (x : Q)
| Vector (xs : list Q).

Definition dot (row v : list Q) : Q :=
  foldr Qplus 0%Q (zip_with Qmult row v).

(** [numpy.dot(a, v)]: the last axis of [a] must have the length of [v],
    otherwise numpy raises [ValueError]; this holds for an array without
    rows too, whose shape is [(0, D)] or [(0,)]. *)
Definition np_dot (a : ndarray) (v : list Q) : result similarity_array :=
  if Nat.eqb (last_axis a) (length v)
  then Ok (match a with
           | Array1 values => Scalar (dot values v)
           | Array2 _ rows => Vector (map (fun row => dot row v) rows)
           end)
  else Err (ValueError "shapes not aligned").

(** [numpy.argsort]: the positions of [a] in ascending order of value.
    Equal values are kept in position order here; numpy's default sort may
    order them differently, and the lemmas about [retrieve] below only use
    [argsort_contract], which every ascending argsort satisfies. *)
Fixpoint insert_by (p : nat * Q) (l : list (nat * Q)) : list (nat * Q) :=
  match l with
  | [] => [p]
  | q :: l' => if Qle_bool (snd p) (snd q) then p :: l else q :: insert_by p l'
  end.

Definition enumerate {A} (l : list A) : list (nat * A) :=
  zip (seq 0 (length l)) l.

Definition argsort (a : list Q) : list nat :=
  map fst (foldr insert_by [] (enumerate a)).

(** [numpy.argsort] of the similarities; a scalar is sorted as the array of
    its one value. *)
Definition np_argsort (similarities : similarity_array) : list nat :=
  match similarities with
  | Scalar x => argsort [x]
  | Vector xs => argsort xs
  end.

(** [similarities[idx]]: a scalar cannot be indexed. *)
Definition np_item (similarities : similarity_array) (idx : nat) : result Q :=
  match similarities with
  | Scalar _ => Err IndexError
  | Vector xs => py_getitem xs idx
  end.

(** The entry of a vector of scores at a position it has. *)
Definition score_at (similarities : list Q) (idx : nat) : Q :=
  nth idx similarities 0%Q.

Definition retrieve (self : RAGEngine) (query : string) (top_k : Z)
  : result (list (Chunk * Q)) :=
  let query_embedding := embedding_model self query in
  do similarities <- np_dot (embeddings self) query_embedding;
  let top_indices :=
    rev (py_slice (np_argsort similarities) (Some (- top_k)) None) in
  mapM (fun idx =>
          do chunk <- py_getitem (chunks self) idx;
          do score <- np_item similarities idx;
          Ok (chunk, score))
       top_indices.

(** [RAGEngine.__init__]: the three snapshot files are read in turn, then
    the sentence embedding model is loaded; each of the four steps either
    yields its value or raises, and the values are stored as they come.
    The progress messages printed in between are left out. *)
Definition RAGEngine_init
    (chunks_file : result (list Chunk))
    (embeddings_file : result ndarray)
    (metadata_file : result (list MetaEntry))
    (sentence_transformer : result (string -> list Q))
    (url model : string) : result RAGEngine :=
  do cs <- chunks_file;
  do es <- embeddings_file;
  do ms <- metadata_file;
  do model_loaded <- sentence_transformer;
  Ok (mkEngine cs es ms model_loaded url model).

(** ** Chunking: [TextChunker] *)

(** [dict.get(key, default)] on a record field that may be absent. *)
Definition get {A} (field : option A) (dflt : A) : A := default dflt field.

(** The value [dict.get(key)] stores in a metadata dict: [None] when the key
    is absent. *)
Definition get_json {A} (inj : A -> json) (field : option A) : json :=
  from_option inj JNull field.

(** Truth value of [dict.get(key)] for a list-valued key: absent and empty
    are both false. *)
Definition truthy {A} (field : option (list A)) : bool :=
  match field with
  | Some (_ :: _) => true
  | _ => false
  end.

(** [f"{z:+d}"] *)
Definition format_signed (z : Z) : string :=
  if z <? 0 then pretty z else "+" +:+ pretty z.

(** [str.upper] on ASCII letters. *)
Definition upper_ascii (c : ascii) : ascii :=
  let n := nat_of_ascii c in
  if (97 <=? n)%nat && (n <=? 122)%nat then ascii_of_nat (n - 32) else c.

Fixpoint upper (s : string) : string :=
  match s with
  | EmptyString => EmptyString
  | String c s' => String (upper_ascii c) (upper s')
  end.

(** Raw records of the rules API.  Every key may be missing. *)
Record School : Type := mkSchool { school_name : option string }.

Record Spell : Type := mkSpell {
  spell_name : option string;
  spell_level : option Z;
  spell_school : option School;
  spell_casting_time : option string;
  spell_range : option string;
  spell_duration : option string;
  spell_components : option (list string);
  spell_desc : option (list string);
  spell_higher_level : option (list string);
  spell_url : option string
}.

Record ArmorClass : Type := mkArmorClass { ac_value : option json }.

(** A special ability or an action of a monster. *)
Record Feature : Type := mkFeature {
  feature_name : option string;
  feature_desc : option string
}.

Record Monster : Type := mkMonster {
  monster_name : option string;
  monster_size : option string;
  monster_type : option string;
  monster_alignment : option string;
  monster_armor_class : option (list ArmorClass);
  monster_hit_points : option json;
  monster_speed : option json;
  monster_challenge_rating : option json;
  (** the integer entries of the record, looked up by ability name *)
  monster_scores : gmap string Z;
  monster_special_abilities : option (list Feature);
  monster_actions : option (list Feature);
  monster_url : option string
}.

Record Rule : Type := mkRule {
  rule_name : option string;
  rule_desc : option string;
  rule_url : option string
}.

(** [title] and [full_text] of [chunk_rule_section]. *)
Definition rule_title (rule_data : Rule) : string :=
  get (rule_name rule_data) "Unknown Rule".

Definition rule_full_text (rule_data : Rule) : string :=
  let title := rule_title rule_data in
  let desc := get (rule_desc rule_data) "" in
  "# " +:+ title +:+ nl +:+ nl +:+ desc.

Definition abilities : list string :=
  ["strength"; "dexterity"; "constitution"; "intelligence"; "wisdom"; "charisma"].

Definition api_base : string := "https://www.dnd5eapi.co".

Section Chunker.
(** The tokenizer [self.encoding] (tiktoken). *)
Variable token : Type.
Variable encoding_encode : string -> list token.
Variable encoding_decode : list token -> string.
(** Python's [str] on floats, lists and dicts. *)
Variable repr_other : json -> string.

(** [str(v)], as an f-string field renders it. *)
Definition py_str (v : json) : string :=
  match v with
  | JNull => "None"
  | JBool true => "True"
  | JBool false => "False"
  | JInt z => pretty z
  | JStr s => s
  | _ => repr_other v
  end.

Definition str_opt (field : option string) : string :=
  py_str (get_json JStr field).

Definition count_tokens (text : string) : Z :=
  Z.of_nat (length (encoding_encode text)).

Definition spell_desc_parts (spell_data : Spell) : list string :=
  let desc_parts :=
    [ "# " +:+ get (spell_name spell_data) "Unknown Spell";
      "**Level:** " +:+ pretty (get (spell_level spell_data) 0);
      "**School:** " +:+
        get (school_name (get (spell_school spell_data) (mkSchool None))) "Unknown";
      "**Casting Time:** " +:+ get (spell_casting_time spell_data) "Unknown";
      "**Range:** " +:+ get (spell_range spell_data) "Unknown";
      "**Duration:** " +:+ get (spell_duration spell_data) "Unknown" ] in
  let components :=
    if truthy (spell_components spell_data)
    then get (spell_components spell_data) [] else [] in
  let desc_parts := desc_parts ++ ["**Components:** " +:+ join ", " components] in
  let desc_parts :=
    if truthy (spell_desc spell_data)
    then desc_parts ++ [nl +:+ "**Description:**"] ++ get (spell_desc spell_data) []
    else desc_parts in
  let desc_parts :=
    if truthy (spell_higher_level spell_data)
    then desc_parts ++ [nl +:+ "**At Higher Levels:**"]
                    ++ get (spell_higher_level spell_data) []
    else desc_parts in
  desc_parts.

Definition chunk_spell (spell_data : Spell) : Chunk :=
  let full_text := join nl (spell_desc_parts spell_data) in
  {| chunk_text := full_text;
     chunk_metadata := list_to_map
       [ ("type", JStr "spell");
         ("name", get_json JStr (spell_name spell_data));
         ("level", get_json JInt (spell_level spell_data));
         ("school", get_json JStr
            (school_name (get (spell_school spell_data) (mkSchool None))));
         ("source", JStr "SRD 5e");
         ("url", JStr (api_base +:+ get (spell_url spell_data) "")) ];
     chunk_token_count := count_tokens full_text |}.

Definition ability_line (monster_data : Monster) (ability : string) : string :=
  let score := get (monster_scores monster_data !! ability) 10 in
  let modifier := (score - 10) / 2 in
  "- " +:+ upper ability +:+ ": " +:+ pretty score
       +:+ " (" +:+ format_signed modifier +:+ ")".

Definition feature_line (f : Feature) : string :=
  "- **" +:+ str_opt (feature_name f) +:+ ":** " +:+ str_opt (feature_desc f).

Definition monster_desc_parts (monster_data : Monster) : result (list string) :=
  do ac <- py_getitem (get (monster_armor_class monster_data) [mkArmorClass None]) 0;
  let desc_parts :=
    [ "# " +:+ get (monster_name monster_data) "Unknown Monster";
      "*" +:+ get (monster_size monster_data) "" +:+ " "
          +:+ get (monster_type monster_data) "" +:+ ", "
          +:+ get (monster_alignment monster_data) "" +:+ "*";
      nl +:+ "**Armor Class:** " +:+ py_str (get (ac_value ac) (JStr "N/A"));
      "**Hit Points:** " +:+ py_str (get (monster_hit_points monster_data) (JStr "N/A"));
      "**Speed:** " +:+ py_str (get (monster_speed monster_data) (JDict []));
      "**Challenge Rating:** "
        +:+ py_str (get (monster_challenge_rating monster_data) (JStr "N/A"));
      nl +:+ "**Ability Scores:**" ] in
  let desc_parts := desc_parts ++ map (ability_line monster_data) abilities in
  let desc_parts :=
    if truthy (monster_special_abilities monster_data)
    then desc_parts ++ [nl +:+ "**Special Abilities:**"]
           ++ map feature_line (get (monster_special_abilities monster_data) [])
    else desc_parts in
  let desc_parts :=
    if truthy (monster_actions monster_data)
    then desc_parts ++ [nl +:+ "**Actions:**"]
           ++ map feature_line (get (monster_actions monster_data) [])
    else desc_parts in
  Ok desc_parts.

Definition chunk_monster (monster_data : Monster) : result Chunk :=
  do desc_parts <- monster_desc_parts monster_data;
  let full_text := join nl desc_parts in
  Ok {| chunk_text := full_text;
        chunk_metadata := list_to_map
          [ ("type", JStr "monster");
            ("name", get_json JStr (monster_name monster_data));
            ("cr", get_json id (monster_challenge_rating monster_data));
            ("monster_type", get_json JStr (monster_type monster_data));
            ("size", get_json JStr (monster_size monster_data));
            ("source", JStr "SRD 5e");
            ("url", JStr (api_base +:+ get (monster_url monster_data) "")) ];
        chunk_token_count := count_tokens full_text |}.

(** The chunk built in one pass of the windowing loop, for start [i] when
    [index] chunks have been appended so far. *)
Definition window (rule_data : Rule) (title : string) (tokens : list token)
    (max_tokens : Z) (index : nat) (i : Z) : Chunk :=
  let chunk_tokens := py_slice tokens (Some i) (Some (i + max_tokens)) in
  let chunk_text := encoding_decode chunk_tokens in
  {| chunk_text := chunk_text;
     chunk_metadata := list_to_map
       [ ("type", JStr "rule");
         ("section", JStr title);
         ("chunk_index", JInt (Z.of_nat index));
         ("source", JStr "SRD 5e");
         ("url", JStr (api_base +:+ get (rule_url rule_data) "")) ];
     chunk_token_count := Z.of_nat (length chunk_tokens) |}.

(** One pass of the loop: [chunks.append(...)] with [len(chunks)] as
    [chunk_index]. *)
Definition window_chunk (rule_data : Rule) (title : string) (tokens : list token)
    (max_tokens : Z) (chunks : list Chunk) (i : Z) : list Chunk :=
  chunks ++ [window rule_data title tokens max_tokens (length chunks) i].

Definition chunk_rule_section (rule_data : Rule) (max_tokens overlap : Z)
  : result (list Chunk) :=
  let title := rule_title rule_data in
  let full_text := rule_full_text rule_data in
  let token_count := count_tokens full_text in
  if token_count <=? max_tokens then
    Ok [ {| chunk_text := full_text;
            chunk_metadata := list_to_map
              [ ("type", JStr "rule");
                ("section", JStr title);
                ("source", JStr "SRD 5e");
                ("url", JStr (api_base +:+ get (rule_url rule_data) "")) ];
            chunk_token_count := token_count |} ]
  else
    let tokens := encoding_encode full_text in
    do starts <- py_range (Z.of_nat (length tokens)) (max_tokens - overlap);
    Ok (fold_left (window_chunk rule_data title tokens max_tokens) starts []).
End Chunker.

Arguments count_tokens {token} encoding_encode text.
Arguments chunk_spell {token} encoding_encode spell_data.
Arguments chunk_monster {token} encoding_encode repr_other monster_data.
Arguments window {token} encoding_decode rule_data title tokens max_tokens index i.
Arguments window_chunk {token} encoding_decode rule_data title tokens max_tokens chunks i.
Arguments chunk_rule_section {token} encoding_encode encoding_decode
  rule_data max_tokens overlap.

(** ** Index build: [ETLPipeline.step_3_generate_embeddings] *)

Section Pipeline.
(** [self.embedding_model.encode(texts, batch_size=32)]: one row per text. *)
Variable model_encode : list string -> list (list Q).

(** The two artifacts written to [embeddings.npy] and [metadata.json]. *)
Definition step_3_generate_embeddings (chunks : list Chunk)
  : list (list Q) * list MetaEntry :=
  let texts := map chunk_text chunks in
  let embeddings := model_encode texts in
  let metadata :=
    map (fun '(i, chunk) =>
           {| meta_id := Z.of_nat i;
              meta_metadata := chunk_metadata chunk;
              meta_token_count := chunk_token_count chunk |})
        (enumerate chunks) in
  (embeddings, metadata).
End Pipeline.

(** ** Answer synthesis: [RAGEngine.generate_answer] *)

(** [metadata[key]] *)
Definition py_lookup (d : gmap string json) (key : string) : result json :=
  match d !! key with
  | Some v => Ok v
  | None => Err (KeyError key)
  end.

(** [metadata.get(key, default)] *)
Definition py_get (d : gmap string json) (key : string) (dflt : json) : json :=
  default dflt (d !! key).

(** [round(score, 3)] on an exact rational: nearest multiple of 1/1000,
    ties to the even one. *)
Definition round_half_even (q : Q) : Z :=
  let n := Qfloor q in
  match Qcompare (q - inject_Z n) (1 # 2) with
  | Lt => n
  | Gt => n + 1
  | Eq => if Z.even n then n else n + 1
  end.

Definition py_round3 (score : Q) : Q :=
  Qmake (round_half_even (score * 1000)) 1000.

(** [str.strip()] for the ASCII range. *)
Definition is_space (c : ascii) : bool :=
  let n := nat_of_ascii c in
  ((9 <=? n)%nat && (n <=? 13)%nat) || ((28 <=? n)%nat && (n <=? 32)%nat).

Fixpoint lstrip (s : string) : string :=
  match s with
  | String c s' => if is_space c then lstrip s' else s
  | EmptyString => EmptyString
  end.

Definition strip (s : string) : string :=
  String.rev (lstrip (String.rev (lstrip s))).

Record Source : Type := mkSource {
  doc_id : Z;
  source_type : json;
  source_name : json;
  source_source : json;
  source_url : json;
  relevance_score : Q
}.

Record AnswerResponse : Type := mkAnswerResponse {
  answer : string;
  sources : list Source;
  context_used : Z
}.

(** The request body sent to the generation service. *)
Record Payload : Type := mkPayload {
  payload_model : string;
  payload_prompt : string;
  payload_stream : bool;
  payload_temperature : Q;
  payload_num_predict : Z
}.

(** What [requests.post(...)], [raise_for_status()] and [response.json()]
    come to: a JSON object, of which only the key [response] is read, or a
    [requests.exceptions.RequestException] (connection error, timeout, HTTP
    error status) carrying its message. *)
Inductive http_outcome : Type :=
| HttpReply (response : option string)
| RequestException (msg : string).

Definition _build_prompt (query context : string) : string :=
  "You are Sage, a knowledgeable assistant for Dungeons & Dragons 5th Edition rules." +:+ nl +:+
  nl +:+
  "Your role is to answer questions about D&D rules, spells, and monsters using ONLY the information provided in the documents below." +:+ nl +:+
  nl +:+
  "IMPORTANT RULES:" +:+ nl +:+
  "1. Base your answer STRICTLY on the provided documents" +:+ nl +:+
  "2. If the answer is not in the documents, say " +:+ dquote +:+
    "I don't have that information in my current knowledge base" +:+ dquote +:+ nl +:+
  "3. Cite document numbers when making specific claims (e.g., " +:+ dquote +:+
    "According to Document 1..." +:+ dquote +:+ ")" +:+ nl +:+
  "4. Be concise but complete" +:+ nl +:+
  "5. Use clear, accessible language" +:+ nl +:+
  nl +:+
  "DOCUMENTS:" +:+ nl +:+
  context +:+ nl +:+
  nl +:+
  "QUESTION: " +:+ query +:+ nl +:+
  nl +:+
  "ANSWER:".

(** The body of the loop over [enumerate(context_chunks, 1)]: the three lines
    added to [context_parts] and the entry added to [sources]. *)
Definition context_entry (entry : nat * (Chunk * Q)) : result (list string * Source) :=
  let '(i, (chunk, score)) := entry in
  let parts := ["[Documento " +:+ pretty i +:+ "]"; chunk_text chunk; ""] in
  let metadata := chunk_metadata chunk in
  do type <- py_lookup metadata "type";
  let name := py_get metadata "name" (JStr "Unknown") in
  do source <- py_lookup metadata "source";
  let url := py_get metadata "url" (JStr "") in
  Ok (parts,
      {| doc_id := Z.of_nat i;
         source_type := type;
         source_name := name;
         source_source := source;
         source_url := url;
         relevance_score := py_round3 score |}).

(** The whole loop: [context_parts] and [sources] once every chunk has been
    visited, or the first [KeyError]. *)
Definition build_context (context_chunks : list (Chunk * Q))
  : result (list string * list Source) :=
  do entries <- mapM context_entry
                  (zip (seq 1 (length context_chunks)) context_chunks);
  Ok (concat (map fst entries), map snd entries).

(** The request body built by [_call_llm]. *)
Definition llm_payload (self : RAGEngine) (prompt : string) (temperature : Q) : Payload :=
  {| payload_model := llm_model self;
     payload_prompt := prompt;
     payload_stream := false;
     payload_temperature := temperature;
     payload_num_predict := 500 |}.

Section Synthesizer.
(** [requests.post(url, json=payload, timeout=60)] and the decoding of its
    reply. *)
Variable requests_post : string -> Payload -> Z -> http_outcome.

Definition _call_llm (self : RAGEngine) (prompt : string) (temperature : Q) : string :=
  let payload := llm_payload self prompt temperature in
  match requests_post (llm_url self) payload 60 with
  | HttpReply result => strip (get result "")
  | RequestException e => "Error calling LLM: " +:+ e
  end.

Definition generate_answer (self : RAGEngine) (query : string)
    (context_chunks : list (Chunk * Q)) (temperature : Q) : result AnswerResponse :=
  do (context_parts, sources) <- build_context context_chunks;
  let context := join nl context_parts in
  let prompt := _build_prompt query context in
  let answer := _call_llm self prompt temperature in
  Ok {| answer := answer;
        sources := sources;
        context_used := Z.of_nat (length context_chunks) |}.
End Synthesizer.

(** ** The whole question: [RAGEngine.ask] *)

Section Ask.
Variable requests_post : string -> Payload -> Z -> http_outcome.

(** [generate_answer] is called without a temperature, so with its default
    0.3. *)
Definition ask (self : RAGEngine) (query : string) (top_k : Z)
  : result AnswerResponse :=
  do retrieved_chunks <- retrieve self query top_k;
  do result <- generate_answer requests_post self query retrieved_chunks (3 # 10);
  Ok result.
End Ask.

(** ** Corpus build: [ETLPipeline.step_2_process_and_chunk] *)

(** What a pipeline run leaves on disk for the engine: [all_chunks.json],
    [embeddings.npy] and [metadata.json]. *)
Record Artifacts : Type := mkArtifacts {
  all_chunks_json : list Chunk;
  embeddings_npy : ndarray;
  metadata_json : list MetaEntry
}.

Section CorpusBuilder.
Variable token : Type.
Variable encoding_encode : string -> list token.
Variable encoding_decode : list token -> string.
Variable repr_other : json -> string.
Variable model_encode : list string -> list (list Q).

(** Each raw file is [None] when it does not exist, and is then skipped;
    rule sections are chunked with the default [max_tokens = 512] and
    [overlap = 50].  An exception of a chunker ends the step before
    anything is written. *)
Definition step_2_process_and_chunk
    (spells_file : option (list Spell)) (monsters_file : option (list Monster))
    (rules_file : option (list Rule)) : result (list Chunk) :=
  let all_chunks := [] in
  let all_chunks :=
    match spells_file with
    | Some spells => all_chunks ++ map (chunk_spell encoding_encode) spells
    | None => all_chunks
    end in
  do all_chunks <-
    match monsters_file with
    | Some monsters =>
        do monster_chunks <- mapM (chunk_monster encoding_encode repr_other) monsters;
        Ok (all_chunks ++ monster_chunks)
    | None => Ok all_chunks
    end;
  do all_chunks <-
    match rules_file with
    | Some rules =>
        do rule_chunks <-
          mapM (fun rule =>
                  chunk_rule_section encoding_encode encoding_decode rule 512 50)
               rules;
        Ok (all_chunks ++ concat rule_chunks)
    | None => Ok all_chunks
    end;
  Ok all_chunks.

(** [run_full_pipeline] once the raw files are there and the embedding
    model of the pipeline is loaded: chunking, then the index build on the
    chunks just made.  The array saved as
    [embeddings.npy] is the one [encode] returned, [numpy.asarray] of its
    rows. *)
Definition run_full_pipeline
    (spells_file : option (list Spell)) (monsters_file : option (list Monster))
    (rules_file : option (list Rule)) : result Artifacts :=
  do chunks <- step_2_process_and_chunk spells_file monsters_file rules_file;
  let index := step_3_generate_embeddings model_encode chunks in
  Ok {| all_chunks_json := chunks;
        embeddings_npy := np_asarray (fst index);
        metadata_json := snd index |}.
End CorpusBuilder.

Arguments step_2_process_and_chunk {token} encoding_encode encoding_decode repr_other
  spells_file monsters_file rules_file.
Arguments run_full_pipeline {token} encoding_encode encoding_decode repr_other
  model_encode spells_file monsters_file rules_file.

(** Engine start from the artifacts of a pipeline run: the three files are
    read back as they were written, and the embedding model is loaded. *)
Definition load_engine (artifacts : Artifacts)
    (sentence_transformer : result (string -> list Q)) (url model : string)
  : result RAGEngine :=
  RAGEngine_init (Ok (all_chunks_json artifacts)) (Ok (embeddings_npy artifacts))
                 (Ok (metadata_json artifacts)) sentence_transformer url model.

(** ** HTTP layer: [list_sources] of [backend/api/main.py] *)

(** A handler returns a body (status 200), raises an [HTTPException], or
    lets another exception escape. *)
Inductive http_response (A : Type) : Type :=
| Http200 (body : A)
| HTTPException (status_code : Z) (detail : string)
| Unhandled (e : pyerr).
Arguments Http200 {A} body.
Arguments HTTPException {A} status_code detail.
Arguments Unhandled {A} e.

Record SourceListing : Type := mkSourceListing {
  listing_type : string;
  listing_count : Z;
  listing_sources : list (gmap string json)
}.

(** [value == doc_type] for a JSON value and a string. *)
Definition json_eq_str (value : json) (s : string) : bool :=
  match value with
  | JStr t => String.eqb t s
  | _ => false
  end.

(** The global [rag_engine] is [None] until startup has built the engine. *)
Definition list_sources (rag_engine : option RAGEngine) (doc_type : string)
  : http_response SourceListing :=
  match rag_engine with
  | None => HTTPException 503 "RAG Engine not initialized"
  | Some engine =>
      match mapM (fun chunk =>
                    do type <- py_lookup (chunk_metadata chunk) "type";
                    Ok (if json_eq_str type doc_type
                        then [chunk_metadata chunk] else []))
                 (chunks engine) with
      | Ok kept =>
          let filtered := concat kept in
          Http200 {| listing_type := doc_type;
                     listing_count := Z.of_nat (length filtered);
                     listing_sources := filtered |}
      | Err e => Unhandled e
      end
  end.

(** ** Small instances used to run the definitions

    A tokenizer with one token per character, a renderer that prints a
    placeholder for floats and containers, a generation service that always
    times out, and a one-dimensional embedding model. *)

Definition char_encode (s : string) : list ascii := list_ascii_of_string s.
Definition char_decode (l : list ascii) : string := string_of_list_ascii l.
Definition repr_placeholder (_ : json) : string := "?".
Definition post_timeout (_ : string) (_ : Payload) (_ : Z) : http_outcome :=
  RequestException "Read timed out. (read timeout=60)".
Definition unit_query (_ : string) : list Q := [1%Q].
Definition length_embed (texts : list string) : list (list Q) :=
  map (fun t => [inject_Z (Z.of_nat (String.length t))]) texts.

Fixpoint repeat_string (s : string) (n : nat) : string :=
  match n with
  | O => ""
  | S n' => s +:+ repeat_string s n'
  end.

Definition plain_chunk (text : string) : Chunk :=
  {| chunk_text := text;
     chunk_metadata := list_to_map [("type", JStr "rule"); ("source", JStr "SRD 5e")];
     chunk_token_count := 1 |}.

(** Five chunks whose one-dimensional embeddings are the scores themselves. *)
Definition five_chunks : list Chunk :=
  map plain_chunk ["c0"; "c1"; "c2"; "c3"; "c4"].

Definition five_engine : RAGEngine :=
  {| chunks := five_chunks;
     embeddings := Array2 1 [[9 # 10]; [1 # 10]; [5 # 10]; [7 # 10]; [2 # 10]]%Q;
     metadata := [];
     embedding_model := unit_query;
     llm_url := "http://localhost:11434/api/generate";
     llm_model := "phi3:mini" |}.


(** Three rows for one chunk. *)
Definition misaligned_engine : RAGEngine :=
  {| chunks := [plain_chunk "only"];
     embeddings := Array2 1 [[1 # 1]; [2 # 1]; [3 # 1]]%Q;
     metadata := [];
     embedding_model := unit_query;
     llm_url := "";
     llm_model := "" |}.

(** Five chunks, two rows. *)
Definition surplus_engine : RAGEngine :=
  {| chunks := five_chunks;
     embeddings := Array2 1 [[1 # 2]; [1 # 3]]%Q;
     metadata := [];
     embedding_model := unit_query;
     llm_url := "";
     llm_model := "" |}.

(** The five chunks, with a model whose vectors have two entries. *)
Definition wide_query_engine : RAGEngine :=
  {| chunks := five_chunks;
     embeddings := embeddings five_engine;
     metadata := [];
     embedding_model := fun _ => [1 # 1; 0 # 1]%Q;
     llm_url := "";
     llm_model := "" |}.

(** The spell of [main()] in [chunking.py]; it has no [higher_level]. *)
Definition test_spell : Spell :=
  {| spell_name := Some "Fireball";
     spell_level := Some 3;
     spell_school := Some (mkSchool (Some "Evocation"));
     spell_casting_time := Some "1 action";
     spell_range := Some "150 feet";
     spell_duration := Some "Instantaneous";
     spell_components := Some ["V"; "S"; "M"];
     spell_desc := Some ["A bright streak flashes from your pointing finger to a point you choose within range..."];
     spell_higher_level := None;
     spell_url := Some "/api/spells/fireball" |}.

(** A monster with two low scores and four missing ones. *)
Definition test_monster : Monster :=
  {| monster_name := Some "Goblin";
     monster_size := Some "Small";
     monster_type := Some "humanoid";
     monster_alignment := Some "neutral evil";
     monster_armor_class := Some [mkArmorClass (Some (JInt 15))];
     monster_hit_points := Some (JInt 7);
     monster_speed := None;
     monster_challenge_rating := None;
     monster_scores := list_to_map [("strength", 9); ("wisdom", 7)];
     monster_special_abilities := None;
     monster_actions := None;
     monster_url := None |}.

(** A rule section whose full text has [n + 5] characters. *)
Definition test_rule (n : nat) : Rule :=
  {| rule_name := Some "a";
     rule_desc := Some (repeat_string "x" n);
     rule_url := None |}.

(** Only whitespace, in the sense of [is_space]. *)
Fixpoint all_space (s : string) : bool :=
  match s with
  | EmptyString => true
  | String c s' => is_space c && all_space s'
  end.

(** The spell of [main()] with a section on higher levels, and a record
    with no field at all. *)
Definition upcast_spell : Spell :=
  {| spell_name := Some "Fireball";
     spell_level := Some 3;
     spell_school := Some (mkSchool (Some "Evocation"));
     spell_casting_time := Some "1 action";
     spell_range := Some "150 feet";
     spell_duration := Some "Instantaneous";
     spell_components := Some ["V"; "S"; "M"];
     spell_desc := Some ["A bright streak flashes."];
     spell_higher_level := Some ["The damage increases by 1d6."];
     spell_url := Some "/api/spells/fireball" |}.

Definition blank_spell : Spell :=
  mkSpell None None None None None None None None None None.

(** A monster whose [armor_class] is an empty list. *)
Definition unarmored_monster : Monster :=
  {| monster_name := Some "Ooze";
     monster_size := None;
     monster_type := None;
     monster_alignment := None;
     monster_armor_class := Some [];
     monster_hit_points := None;
     monster_speed := None;
     monster_challenge_rating := None;
     monster_scores := ∅;
     monster_special_abilities := None;
     monster_actions := None;
     monster_url := None |}.

(** A monster with one action that has no description. *)
Definition biting_monster : Monster :=
  {| monster_name := Some "Wolf";
     monster_size := None;
     monster_type := None;
     monster_alignment := None;
     monster_armor_class := None;
     monster_hit_points := None;
     monster_speed := None;
     monster_challenge_rating := None;
     monster_scores := ∅;
     monster_special_abilities := None;
     monster_actions := Some [mkFeature (Some "Bite") None];
     monster_url := None |}.

(** A generation service that answers, with blanks around the text. *)
Definition post_reply (_ : string) (_ : Payload) (_ : Z) : http_outcome :=
  HttpReply (Some "  Fireball deals 8d6 fire damage. ").

(** The artifacts of a run that finds no raw file. *)
Definition empty_run : result Artifacts :=
  run_full_pipeline char_encode char_decode repr_placeholder length_embed
    None None None.

(** The artifacts of a run on one spell, one monster and one short rule. *)
Definition small_run : result Artifacts :=
  run_full_pipeline char_encode char_decode repr_placeholder length_embed
    (Some [test_spell]) (Some [test_monster]) (Some [test_rule 3]).

(** ** Properties named by the specification *)

(** Each score is at least the next one. *)
Definition descending (scores : list Q) : Prop :=
  StronglySorted (fun a b => (b <= a)%Q) scores.

(** Each score is greater than the next one. *)
Definition strictly_descending (scores : list Q) : Prop :=
  StronglySorted (fun a b => (b < a)%Q) scores.

(** No two rows have the same score. *)
Definition distinct_scores (similarities : list Q) : Prop :=
  forall i j : nat,
    (i < length similarities)%nat -> (j < length similarities)%nat ->
    i <> j -> ~ (score_at similarities i == score_at similarities j)%Q.

(** What [numpy.argsort] guarantees whatever its sorting algorithm: a
    reordering of all positions, ascending by value. *)
Definition argsort_contract (a : list Q) (order : list nat) : Prop :=
  Permutation order (seq 0 (length a)) /\
  StronglySorted (fun i j => (score_at a i <= score_at a j)%Q) order.

(** [part] occurs in [text]. *)
Definition contains (text part : string) : Prop :=
  exists pre post, text = pre +:+ part +:+ post.

(** Every chunk but the last has exactly [max_tokens] tokens. *)
Definition only_last_shorter (max_tokens : Z) (cs : list Chunk) : Prop :=
  forall (k : nat) (c : Chunk),
    (S k < length cs)%nat -> cs !! k = Some c -> chunk_token_count c = max_tokens.

(** The metadata of a ranked chunk has the two keys read without default. *)
Definition has_provenance (entry : Chunk * Q) : Prop :=
  is_Some (chunk_metadata (fst entry) !! "type") /\
  is_Some (chunk_metadata (fst entry) !! "source").

(** A chunk as the chunker tags it: one of the three kinds, from the SRD,
    with a URL under the API's address. *)
Definition srd_chunk (c : Chunk) : Prop :=
  (chunk_metadata c !! "type" = Some (JStr "spell") \/
   chunk_metadata c !! "type" = Some (JStr "monster") \/
   chunk_metadata c !! "type" = Some (JStr "rule")) /\
  chunk_metadata c !! "source" = Some (JStr "SRD 5e") /\
  exists path, chunk_metadata c !! "url" = Some (JStr (api_base +:+ path)).

(** * Lemmas *)

(** ** The error monad *)

Lemma mapM_length {A B} (f : A -> result B) (l : list A) (r : list B) :
  mapM f l = Ok r -> length r = length l.
Proof.
  revert r. induction l as [|x l IH]; simpl; intros r H.
  - injection H as <-. reflexivity.
  - destruct (f x) as [y|e]; simpl in H; [|discriminate].
    destruct (mapM f l) as [ys|e]; simpl in H; [|discriminate].
    injection H as <-. simpl. f_equal. apply IH. reflexivity.
Qed.

(** The loop raises as soon as one element does. *)
Lemma mapM_err {A B} (f : A -> result B) (l : list A) (P : pyerr -> Prop) :
  (forall x e, f x = Err e -> P e) ->
  Exists (fun x => ~ is_ok (f x)) l ->
  exists e, mapM f l = Err e /\ P e.
Proof.
  intros HP. induction 1 as [x l Hx|x l _ IH]; simpl.
  - destruct (f x) as [y|e] eqn:E; [exfalso; apply Hx; exact I|].
    exists e. split; [reflexivity|]. eapply HP, E.
  - destruct (f x) as [y|e] eqn:E; simpl.
    + destruct IH as (e & -> & He). exists e. split; [reflexivity|exact He].
    + exists e. split; [reflexivity|]. eapply HP, E.
Qed.

(** ** Slices and ranges *)

Lemma py_slice_from {A} (l : list A) (start : Z) :
  py_slice l (Some start) None =
  drop (Z.to_nat (slice_bound (Z.of_nat (length l)) start)) l.
Proof.
  unfold py_slice. simpl.
  set (len := Z.of_nat (length l)).
  set (lo := slice_bound len start).
  apply take_ge. rewrite length_drop.
  assert (0 <= lo <= len) as Hlo.
  { subst lo. unfold slice_bound. destruct (start <? 0) eqn:E; lia. }
  lia.
Qed.

(** [l[-k:]] keeps the last [min k len] items for [k >= 1] ... *)
Lemma py_slice_last_length {A} (l : list A) (k : Z) :
  1 <= k ->
  length (py_slice l (Some (- k)) None) = Z.to_nat (Z.min k (Z.of_nat (length l))).
Proof.
  intros Hk. rewrite py_slice_from, length_drop. unfold slice_bound.
  destruct (- k <? 0) eqn:E; lia.
Qed.

(** ... and drops the first [-k] items for [k <= 0]: all of them are kept
    when [k = 0]. *)
Lemma py_slice_nonpos_length {A} (l : list A) (k : Z) :
  k <= 0 ->
  length (py_slice l (Some (- k)) None) = Z.to_nat (Z.of_nat (length l) + k).
Proof.
  intros Hk. rewrite py_slice_from, length_drop. unfold slice_bound.
  destruct (- k <? 0) eqn:E; lia.
Qed.

(** A window [l[i:i+m]] that starts inside the list. *)
Lemma py_slice_window {A} (l : list A) (i m : Z) :
  0 <= i <= Z.of_nat (length l) -> 0 <= m ->
  py_slice l (Some i) (Some (i + m)) = take (Z.to_nat m) (drop (Z.to_nat i) l).
Proof.
  intros Hi Hm. unfold py_slice. simpl. unfold slice_bound.
  destruct (i <? 0) eqn:E1; [lia|]. destruct (i + m <? 0) eqn:E2; [lia|].
  rewrite (Z.min_l i) by lia.
  destruct (Z.le_ge_cases (i + m) (Z.of_nat (length l))) as [H|H].
  - rewrite (Z.min_l (i + m)) by lia. f_equal. lia.
  - rewrite (Z.min_r (i + m)) by lia.
    rewrite !take_ge; [reflexivity| |]; rewrite length_drop; lia.
Qed.

Lemma py_slice_window_length {A} (l : list A) (i m : Z) :
  0 <= i <= Z.of_nat (length l) -> 0 <= m ->
  Z.of_nat (length (py_slice l (Some i) (Some (i + m)))) =
  Z.min m (Z.of_nat (length l) - i).
Proof.
  intros Hi Hm. rewrite py_slice_window by assumption.
  rewrite length_take, length_drop. lia.
Qed.

(** ** Sorted lists *)

Lemma StronglySorted_rev {A} (R : relation A) (l : list A) :
  StronglySorted R l -> StronglySorted (flip R) (rev l).
Proof.
  induction 1 as [|x l _ IH Hx]; simpl; [constructor|].
  apply StronglySorted_app_2; [|exact IH|repeat constructor].
  intros x1 x2 H1 H2. apply list_elem_of_singleton in H2 as ->.
  rewrite Forall_forall in Hx. apply Hx.
  apply list_elem_of_In in H1. apply list_elem_of_In, in_rev, H1.
Qed.

Lemma StronglySorted_drop {A} (R : relation A) (n : nat) (l : list A) :
  StronglySorted R l -> StronglySorted R (drop n l).
Proof.
  intros H. rewrite <- (take_drop n l) in H.
  eapply StronglySorted_app_1_r, H.
Qed.

(** A sorted list without repetition is strictly sorted as soon as distinct
    members are never related both ways. *)
Lemma StronglySorted_strict {A} (R S : relation A) (l : list A) :
  (forall x y, x ∈ l -> y ∈ l -> x <> y -> R x y -> S x y) ->
  NoDup l -> StronglySorted R l -> StronglySorted S l.
Proof.
  intros HRS Hnd Hs. induction Hs as [|x l Hs IH Hx]; [constructor|].
  apply NoDup_cons in Hnd as [Hx' Hnd].
  constructor.
  - apply IH; [|exact Hnd].
    intros a b Ha Hb. apply HRS; apply list_elem_of_further; assumption.
  - rewrite Forall_forall in *. intros y Hy. apply HRS.
    + apply list_elem_of_here.
    + apply list_elem_of_further, Hy.
    + intros ->. apply Hx', Hy.
    + apply Hx, Hy.
Qed.

(** ** [argsort] *)

Lemma insert_by_perm (p : nat * Q) (l : list (nat * Q)) :
  Permutation (insert_by p l) (p :: l).
Proof.
  induction l as [|q l IH]; simpl; [reflexivity|].
  destruct (Qle_bool (snd p) (snd q)); [reflexivity|].
  rewrite IH. apply perm_swap.
Qed.

Lemma insert_by_sorted (p : nat * Q) (l : list (nat * Q)) :
  StronglySorted (fun x y => (snd x <= snd y)%Q) l ->
  StronglySorted (fun x y => (snd x <= snd y)%Q) (insert_by p l).
Proof.
  induction 1 as [|q l Hs IH Hq]; simpl; [repeat constructor|].
  destruct (Qle_bool (snd p) (snd q)) eqn:E.
  - apply Qle_bool_iff in E. constructor; [constructor; assumption|].
    constructor; [exact E|].
    eapply Forall_impl; [exact Hq|]. simpl. intros r Hr.
    eapply Qle_trans; eassumption.
  - assert (snd q <= snd p)%Q as Hle.
    { destruct (Qlt_le_dec (snd q) (snd p)) as [H|H]; [apply Qlt_le_weak, H|].
      apply Qle_bool_iff in H. congruence. }
    constructor; [exact IH|].
    eapply Permutation_Forall; [symmetry; apply insert_by_perm|].
    constructor; assumption.
Qed.

Lemma enumerate_fst {A} (l : list A) :
  map fst (enumerate l) = seq 0 (length l).
Proof. unfold enumerate. apply fst_zip. rewrite length_seq. reflexivity. Qed.

Lemma enumerate_lookup {A} (l : list A) (i : nat) (x : A) :
  l !! i = Some x -> enumerate l !! i = Some (i, x).
Proof.
  intros H. unfold enumerate, zip. apply lookup_zip_with_Some.
  exists i, x. split; [reflexivity|]. split; [|exact H].
  apply lookup_seq. split; [reflexivity|]. eapply lookup_lt_Some, H.
Qed.

Lemma enumerate_scores (a : list Q) :
  Forall (fun p => snd p = score_at a (fst p)) (enumerate a).
Proof.
  apply Forall_lookup. intros i [j v] H.
  unfold enumerate, zip in H. apply lookup_zip_with_Some in H.
  destruct H as (x & y & [= -> ->] & Hx & Hy).
  apply lookup_seq in Hx as [-> _]. simpl.
  unfold score_at. symmetry. apply nth_lookup_Some, Hy.
Qed.

Lemma sorted_pairs_perm (l : list (nat * Q)) :
  Permutation (foldr insert_by [] l) l.
Proof.
  induction l as [|p l IH]; simpl; [reflexivity|].
  rewrite insert_by_perm, IH. reflexivity.
Qed.

Lemma sorted_pairs_sorted (l : list (nat * Q)) :
  StronglySorted (fun x y => (snd x <= snd y)%Q) (foldr insert_by [] l).
Proof.
  induction l as [|p l IH]; simpl; [constructor|].
  apply insert_by_sorted, IH.
Qed.

Lemma StronglySorted_map_on {A B} (P : A -> Prop) (R : relation A) (R' : relation B)
    (f : A -> B) (l : list A) :
  (forall x y, P x -> P y -> R x y -> R' (f x) (f y)) ->
  Forall P l -> StronglySorted R l -> StronglySorted R' (map f l).
Proof.
  intros HR HP Hs. induction Hs as [|x l _ IH Hx]; simpl; [constructor|].
  apply Forall_cons in HP as [Px Pl].
  constructor; [apply IH, Pl|].
  apply Forall_map. rewrite Forall_forall in *.
  intros y Hy. apply HR; auto.
Qed.

(** The model of [numpy.argsort] returns all positions, in ascending order
    of value. *)
Lemma argsort_spec (a : list Q) : argsort_contract a (argsort a).
Proof.
  unfold argsort_contract, argsort. split.
  - rewrite sorted_pairs_perm, enumerate_fst. reflexivity.
  - eapply (StronglySorted_map_on (fun p => snd p = score_at a (fst p)));
      [| |apply sorted_pairs_sorted].
    + intros x y Hx Hy H. rewrite <- Hx, <- Hy. exact H.
    + eapply Permutation_Forall; [symmetry; apply sorted_pairs_perm|].
      apply enumerate_scores.
Qed.

Lemma mapM_Forall2 {A B} (f : A -> result B) (l : list A) :
  Forall (fun x => is_ok (f x)) l ->
  exists r, mapM f l = Ok r /\ Forall2 (fun x y => f x = Ok y) l r.
Proof.
  induction 1 as [|x l Hx _ (r & Hr & IH)]; simpl.
  - exists []. split; [reflexivity|constructor].
  - destruct (f x) as [y|e] eqn:E; [|destruct Hx].
    exists (y :: r). rewrite Hr. split; [reflexivity|].
    constructor; assumption.
Qed.

(** ** [retrieve] *)

Lemma np_dot_length (a : ndarray) (v similarities : list Q) :
  np_dot a v = Ok (Vector similarities) -> length similarities = array_len a.
Proof.
  unfold np_dot. destruct (Nat.eqb _ _); [|discriminate].
  destruct a as [values|width rows]; [discriminate|].
  intros [= <-]. apply length_map.
Qed.

(** [numpy.dot] gives a vector of scores exactly for a matrix with two axes
    whose width is the length of the vector: one score per row, none for a
    matrix of shape [(0, D)]. *)
Lemma np_dot_vector (a : ndarray) (v similarities : list Q) :
  np_dot a v = Ok (Vector similarities) <->
  exists rows, a = Array2 (length v) rows /\
               similarities = map (fun row => dot row v) rows.
Proof.
  unfold np_dot. split.
  - destruct (Nat.eqb_spec (last_axis a) (length v)) as [Heq|_]; [|discriminate].
    destruct a as [values|width rows]; [discriminate|].
    simpl in Heq. subst width. intros [= <-]. exists rows. split; reflexivity.
  - intros (rows & -> & ->). simpl. rewrite Nat.eqb_refl. reflexivity.
Qed.

Lemma score_at_lookup (similarities : list Q) (idx : nat) (score : Q) :
  similarities !! idx = Some score -> score_at similarities idx = score.
Proof.
  unfold score_at. revert idx.
  induction similarities as [|x xs IH]; intros [|idx]; simpl; try discriminate.
  - intros [= ->]. reflexivity.
  - apply IH.
Qed.

(** The body of the loop of [retrieve] at a position that has a chunk and a
    score. *)
Lemma retrieve_step (cs : list Chunk) (similarities : list Q) (idx : nat)
    (r : Chunk * Q) :
  (do chunk <- py_getitem cs idx;
   do score <- np_item (Vector similarities) idx;
   Ok (chunk, score)) = Ok r ->
  cs !! idx = Some (fst r) /\ snd r = score_at similarities idx.
Proof.
  unfold np_item, py_getitem.
  destruct (cs !! idx) as [c|]; simpl; [|discriminate].
  destruct (similarities !! idx) as [x|] eqn:E; simpl; [|discriminate].
  intros [= <-]. simpl. split; [reflexivity|].
  symmetry. apply score_at_lookup, E.
Qed.

Lemma retrieve_step_ok (cs : list Chunk) (similarities : list Q) (idx : nat) :
  (idx < length cs)%nat -> (idx < length similarities)%nat ->
  is_ok (do chunk <- py_getitem cs idx;
         do score <- np_item (Vector similarities) idx;
         Ok (chunk, score)).
Proof.
  intros Hc Hs. unfold np_item, py_getitem.
  destruct (lookup_lt_is_Some_2 cs idx Hc) as [c ->].
  destruct (lookup_lt_is_Some_2 similarities idx Hs) as [x ->].
  exact I.
Qed.

(** The positions selected by [argsort(a)[start:][::-1]], for any argsort. *)
Lemma top_indices_facts (a : list Q) (order : list nat) (start : Z) :
  argsort_contract a order ->
  Forall (fun i => (i < length a)%nat) (rev (py_slice order (Some start) None)) /\
  NoDup (rev (py_slice order (Some start) None)) /\
  StronglySorted (fun i j => (score_at a j <= score_at a i)%Q)
                 (rev (py_slice order (Some start) None)).
Proof.
  intros [Hperm Hsorted]. rewrite py_slice_from.
  set (n := Z.to_nat _). split; [|split].
  - apply Forall_rev, Forall_drop.
    eapply Permutation_Forall; [symmetry; exact Hperm|].
    apply Forall_seq. intros i Hi. lia.
  - apply NoDup_ListNoDup, List.NoDup_rev, NoDup_ListNoDup.
    apply (sublist_NoDup _ order); [|apply sublist_drop].
    rewrite Hperm. apply NoDup_seq.
  - apply (StronglySorted_rev (fun i j => (score_at a i <= score_at a j)%Q)).
    apply StronglySorted_drop, Hsorted.
Qed.

(** On an index with as many chunks as rows, [retrieve] raises nothing,
    whatever [top_k]: it pairs each selected position with its chunk and
    its score. *)
Lemma retrieve_selected (self : RAGEngine) (query : string) (top_k : Z)
    (similarities : list Q) :
  length (chunks self) = array_len (embeddings self) ->
  np_dot (embeddings self) (embedding_model self query) = Ok (Vector similarities) ->
  exists results,
    retrieve self query top_k = Ok results /\
    Forall2 (fun i r => chunks self !! i = Some (fst r) /\
                        snd r = score_at similarities i)
            (rev (py_slice (argsort similarities) (Some (- top_k)) None))
            results.
Proof.
  intros Hlen Hdot. unfold retrieve. rewrite Hdot. simpl.
  pose proof (np_dot_length _ _ _ Hdot) as Hn.
  destruct (top_indices_facts similarities (argsort similarities) (- top_k)
              (argsort_spec similarities)) as (Hlt & _ & _).
  set (top := rev _) in *.
  destruct (mapM_Forall2
    (fun idx => do chunk <- py_getitem (chunks self) idx;
                do score <- np_item (Vector similarities) idx;
                Ok (chunk, score)) top) as (r & Hr & H2).
  { eapply Forall_impl; [exact Hlt|]. intros i Hi. cbv beta in Hi.
    apply retrieve_step_ok; [lia|exact Hi]. }
  exists r. split; [exact Hr|].
  eapply Forall2_impl; [exact H2|]. intros i r0.
  apply retrieve_step.
Qed.

Lemma selected_scores (cs : list Chunk) (similarities : list Q) (top : list nat)
    (results : list (Chunk * Q)) :
  Forall2 (fun i r => cs !! i = Some (fst r) /\ snd r = score_at similarities i)
          top results ->
  map snd results = map (score_at similarities) top.
Proof.
  induction 1 as [|i r top results [_ Hs] _ IH]; simpl; [reflexivity|].
  rewrite Hs, IH. reflexivity.
Qed.


(** The scores of the result, in any case: descending, and strictly so
    when no two rows score the same. *)
Lemma retrieve_descending (self : RAGEngine) (query : string) (top_k : Z)
    (similarities : list Q) (results : list (Chunk * Q)) :
  Forall2 (fun i r => chunks self !! i = Some (fst r) /\
                      snd r = score_at similarities i)
          (rev (py_slice (argsort similarities) (Some (- top_k)) None))
          results ->
  descending (map snd results) /\
  (distinct_scores similarities -> strictly_descending (map snd results)).
Proof.
  intros H2. rewrite (selected_scores _ _ _ _ H2).
  destruct (top_indices_facts similarities (argsort similarities) (- top_k)
              (argsort_spec similarities)) as (Hlt & Hnd & Hs).
  set (top := rev _) in *. split.
  - unfold descending.
    eapply (StronglySorted_fmap _ _ _ top); [|exact Hs].
    intros i j Hij. exact Hij.
  - intros Hdist. unfold strictly_descending.
    eapply (StronglySorted_fmap _
              (fun i j => (score_at similarities j < score_at similarities i)%Q));
      [intros i j Hij; exact Hij|].
    eapply StronglySorted_strict; [|exact Hnd|exact Hs].
    simpl. intros i j Hi Hj Hne Hle.
    rewrite Forall_forall in Hlt.
    apply Qle_lteq in Hle as [Hlt'|Heq]; [exact Hlt'|].
    exfalso. eapply (Hdist j i); eauto.
Qed.

Lemma argsort_length (a : list Q) : length (argsort a) = length a.
Proof.
  destruct (argsort_spec a) as [Hperm _].
  rewrite (Permutation_length Hperm). apply length_seq.
Qed.

Lemma selected_from_index (cs : list Chunk) (similarities : list Q) (top : list nat)
    (results : list (Chunk * Q)) :
  Forall2 (fun i r => cs !! i = Some (fst r) /\ snd r = score_at similarities i)
          top results ->
  Forall (fun r => exists i : nat,
            cs !! i = Some (fst r) /\ snd r = score_at similarities i) results.
Proof.
  induction 1 as [|i r top results Hr _ IH]; constructor; [|exact IH].
  exists i. exact Hr.
Qed.

(** * Retrieval *)




(** C7, as stated, fails: [top_k = 0] is not rejected, the whole corpus is
    ranked and returned. *)
Lemma retrieve_zero_not_rejected :
  exists results,
    retrieve five_engine "q" 0 = Ok results /\
    map snd results = [9 # 10; 7 # 10; 5 # 10; 2 # 10; 1 # 10]%Q.
Proof. eexists. split; [vm_compute; reflexivity|reflexivity]. Qed.

(** For [top_k <= 0] the slice [[-top_k:]] drops the [-top_k] lowest scores
    instead of keeping the [top_k] highest: [max(N + top_k, 0)] pairs come
    back, all N of them for [top_k = 0]. *)
Lemma retrieve_nonpositive_length (self : RAGEngine)
    (query : string) (top_k : Z) (similarities : list Q)
    (results : list (Chunk * Q)) :
  length (chunks self) = array_len (embeddings self) ->
  np_dot (embeddings self) (embedding_model self query) = Ok (Vector similarities) ->
  top_k <= 0 ->
  retrieve self query top_k = Ok results ->
  length results = Z.to_nat (Z.of_nat (length (chunks self)) + top_k).
Proof.
  intros Hlen Hdot Hk Hres.
  destruct (retrieve_selected self query top_k similarities Hlen Hdot)
    as (results' & Hres' & H2).
  rewrite Hres in Hres'. injection Hres' as <-.
  pose proof (np_dot_length _ _ _ Hdot) as Hn.
  rewrite <- (Forall2_length _ _ _ H2), length_rev.
  rewrite py_slice_nonpos_length by exact Hk.
  rewrite argsort_length, Hn, Hlen. reflexivity.
Qed.

(** C7 (amended): [retrieve] does not validate [top_k].  A call with
    [top_k <= 0] on a loaded index of N chunks whose embedding matrix has
    shape (N, D), D being the length of the query vector, is not rejected:
    the similarities are computed and ranked as for any other call, and a
    list of at most N pairs, each a chunk of the index with its own score,
    is returned in descending order of score, without error. *)
Theorem retrieve_nonpositive_top_k (self : RAGEngine)
    (query : string) (top_k : Z) (similarities : list Q) :
  length (chunks self) = array_len (embeddings self) ->
  np_dot (embeddings self) (embedding_model self query) = Ok (Vector similarities) ->
  top_k <= 0 ->
  exists results,
    retrieve self query top_k = Ok results /\
    (length results <= length (chunks self))%nat /\
    Forall (fun r => exists i : nat,
              chunks self !! i = Some (fst r) /\ snd r = score_at similarities i)
           results /\
    descending (map snd results).
Proof.
  intros Hlen Hdot Hk.
  destruct (retrieve_selected self query top_k similarities Hlen Hdot)
    as (results & Hres & H2).
  exists results. split; [exact Hres|]. split; [|split].
  - rewrite (retrieve_nonpositive_length self query top_k similarities
               results Hlen Hdot Hk Hres).
    lia.
  - eapply selected_from_index, H2.
  - destruct (retrieve_descending self query top_k similarities results H2)
      as [Hdesc _].
    exact Hdesc.
Qed.

Lemma retrieve_nonpositive_top_k_witness :
  exists results,
    retrieve five_engine "q" (-2) = Ok results /\
    (length results <= 5)%nat /\
    descending (map snd results).
Proof.
  destruct (retrieve_nonpositive_top_k five_engine "q" (-2)
              [9 # 10; 1 # 10; 5 # 10; 7 # 10; 2 # 10]%Q)
    as (results & Hres & Hlen & _ & Hdesc).
  - reflexivity.
  - reflexivity.
  - lia.
  - exists results. split; [exact Hres|]. split; [exact Hlen|exact Hdesc].
Defined.

(** * Engine load *)

(** C2, as stated, fails: one chunk, three rows and no metadata entry load
    into an engine without any error. *)
Lemma init_accepts_misaligned :
  exists self,
    RAGEngine_init (Ok [plain_chunk "only"])
                   (Ok (Array2 1 [[1 # 1]; [2 # 1]; [3 # 1]]%Q))
                   (Ok []) (Ok unit_query) "" "" = Ok self /\
    length (chunks self) = 1%nat /\
    array_len (embeddings self) = 3%nat /\
    length (metadata self) = 0%nat.
Proof. eexists. split; [reflexivity|]. repeat split. Qed.

(** C2 (amended): at engine load time no length check is made.  Whatever the
    lengths of the chunk collection, of the embedding matrix and of the
    metadata sequence, the engine is constructed from them as they are; load
    fails exactly when one of the three files cannot be read or the
    sentence embedding model cannot be loaded, and then with the exception
    of the first of these four steps that failed. *)
Theorem init_no_length_check (url model : string) :
  (forall (cs : list Chunk) (es : ndarray) (ms : list MetaEntry)
          (encoder : string -> list Q),
     RAGEngine_init (Ok cs) (Ok es) (Ok ms) (Ok encoder) url model =
     Ok {| chunks := cs; embeddings := es; metadata := ms;
           embedding_model := encoder;
           llm_url := url; llm_model := model |}) /\
  (forall cf ef mf st,
     is_ok (RAGEngine_init cf ef mf st url model) <->
     is_ok cf /\ is_ok ef /\ is_ok mf /\ is_ok st) /\
  (forall cf ef mf st e,
     RAGEngine_init cf ef mf st url model = Err e <->
     cf = Err e \/
     is_ok cf /\ (ef = Err e \/
     is_ok ef /\ (mf = Err e \/
     is_ok mf /\ st = Err e))).
Proof.
  split; [reflexivity|]. split.
  - intros [cs|e1] [es|e2] [ms|e3] [encoder|e4]; simpl; tauto.
  - intros [cs|e1] [es|e2] [ms|e3] [encoder|e4] e; simpl;
      intuition (try discriminate; try congruence; try contradiction).
Qed.

(** X3: what a mismatch left undetected at load time leads to: with more
    rows than chunks, asking for as many results as there are rows raises
    [IndexError] in [retrieve]. *)
Lemma retrieve_misaligned_index_error (self : RAGEngine)
    (query : string) (top_k : Z) (similarities : list Q) :
  (length (chunks self) < array_len (embeddings self))%nat ->
  np_dot (embeddings self) (embedding_model self query) = Ok (Vector similarities) ->
  Z.of_nat (array_len (embeddings self)) <= top_k ->
  retrieve self query top_k = Err IndexError.
Proof.
  intros Hlt Hdot Hk. unfold retrieve. rewrite Hdot. simpl.
  pose proof (np_dot_length _ _ _ Hdot) as Hn.
  destruct (argsort_spec similarities) as [Hperm _].
  rewrite py_slice_from, argsort_length.
  replace (Z.to_nat (slice_bound _ _)) with 0%nat
    by (unfold slice_bound; destruct (- top_k <? 0); lia).
  rewrite drop_0.
  match goal with |- mapM ?f ?l = _ =>
    destruct (mapM_err f l (fun e => e = IndexError)) as (e & -> & ->)
  end; [| |reflexivity].
  - intros idx e. unfold py_getitem.
    destruct (chunks self !! idx); simpl; [|congruence].
    destruct (similarities !! idx); simpl; congruence.
  - apply Exists_exists. exists (length (chunks self)). split.
    + apply list_elem_of_In. rewrite <- in_rev. apply list_elem_of_In.
      rewrite Hperm. apply elem_of_seq. lia.
    + unfold py_getitem. rewrite lookup_ge_None_2 by lia. simpl. tauto.
Qed.

(** * Chunking of long-form rule sections *)

Lemma range_len_bound (stop step : Z) (k : nat) :
  0 < step -> (k < range_len stop step)%nat -> Z.of_nat k * step < stop.
Proof.
  intros Hstep Hk. unfold range_len in Hk.
  destruct (0 <? step) eqn:E; [|lia].
  assert (Z.of_nat k + 1 <= (stop + step - 1) / step) as Hc by lia.
  pose proof (Z.mul_div_le (stop + step - 1) step Hstep) as Hd.
  nia.
Qed.

Lemma py_range_lookup (stop step : Z) (starts : list Z) (k : nat) (i : Z) :
  py_range stop step = Ok starts -> starts !! k = Some i ->
  i = Z.of_nat k * step /\ (k < range_len stop step)%nat.
Proof.
  unfold py_range. destruct (step =? 0); [discriminate|].
  intros [= <-] H. rewrite list_lookup_fmap in H.
  destruct (seq 0 (range_len stop step) !! k) as [j|] eqn:E; [|discriminate].
  apply lookup_seq in E as [-> E]. injection H as <-. split; [reflexivity|exact E].
Qed.

Lemma py_range_length (stop step : Z) (starts : list Z) :
  py_range stop step = Ok starts -> length starts = range_len stop step.
Proof.
  unfold py_range. destruct (step =? 0); [discriminate|].
  intros [= <-]. rewrite length_map, length_seq. reflexivity.
Qed.

Section ChunkerFacts.
Variable token : Type.
Variable encoding_encode : string -> list token.
Variable encoding_decode : list token -> string.

(** The windowing loop appends, for the [j]-th start, the window numbered
    by its position in the output. *)
Lemma window_loop (rule_data : Rule) (title : string) (tokens : list token)
    (max_tokens : Z) (starts : list Z) (acc : list Chunk) :
  fold_left (window_chunk encoding_decode rule_data title tokens max_tokens)
            starts acc =
  acc ++ imap (fun j i => window encoding_decode rule_data title tokens
                            max_tokens (length acc + j) i) starts.
Proof.
  revert acc. induction starts as [|i starts IH]; intros acc; simpl.
  - rewrite app_nil_r. reflexivity.
  - rewrite IH. unfold window_chunk at 1. rewrite <- app_assoc. simpl.
    rewrite Nat.add_0_r. do 2 f_equal.
    apply imap_ext. intros j x _. simpl. unfold window_chunk.
    rewrite length_app. simpl. f_equal. lia.
Qed.

(** A text of at most [max_tokens] tokens is returned whole, whatever the
    overlap. *)
Lemma chunk_rule_section_short (rule_data : Rule) (max_tokens overlap : Z) :
  count_tokens encoding_encode (rule_full_text rule_data) <= max_tokens ->
  exists c,
    chunk_rule_section encoding_encode encoding_decode rule_data max_tokens overlap
      = Ok [c] /\
    chunk_text c = rule_full_text rule_data /\
    chunk_token_count c = count_tokens encoding_encode (rule_full_text rule_data).
Proof.
  intros H. unfold chunk_rule_section.
  apply Z.leb_le in H. rewrite H.
  eexists. split; [reflexivity|]. split; reflexivity.
Qed.

(** A longer text is cut by the loop over [range(0, len(tokens), stride)]. *)
Lemma chunk_rule_section_long (rule_data : Rule) (max_tokens overlap : Z) :
  max_tokens < count_tokens encoding_encode (rule_full_text rule_data) ->
  chunk_rule_section encoding_encode encoding_decode rule_data max_tokens overlap =
  do starts <- py_range (Z.of_nat (length (encoding_encode (rule_full_text rule_data))))
                        (max_tokens - overlap);
  Ok (imap (fun j i => window encoding_decode rule_data (rule_title rule_data)
                         (encoding_encode (rule_full_text rule_data)) max_tokens j i)
           starts).
Proof.
  intros H. unfold chunk_rule_section.
  apply Z.leb_gt in H. rewrite H.
  destruct (py_range _ _) as [starts|e]; simpl; [|reflexivity].
  rewrite window_loop. reflexivity.
Qed.
End ChunkerFacts.

(** C3, as stated, fails: with [overlap >= max_tokens] a short section is
    chunked without any error. *)
Lemma chunk_rule_section_short_no_error :
  exists c,
    chunk_rule_section char_encode char_decode (test_rule 1) 10 20 = Ok [c] /\
    chunk_text c = rule_full_text (test_rule 1) /\
    chunk_token_count c = 6.
Proof. eexists. split; [vm_compute; reflexivity|]. split; reflexivity. Qed.

(** C3 (amended): [chunk_rule_section] does not compare [overlap] with
    [max_tokens], and it always terminates.  When the text has more than
    [max_tokens] tokens and [overlap = max_tokens] (zero stride) it fails at
    once with the [ValueError] of [range]; when the text has at most
    [max_tokens] tokens it returns the single full-text chunk without error,
    whatever the overlap. *)
Theorem chunk_rule_section_zero_stride {token : Type}
    (encoding_encode : string -> list token) (encoding_decode : list token -> string)
    (rule_data : Rule) (max_tokens overlap : Z) :
  (max_tokens < count_tokens encoding_encode (rule_full_text rule_data) ->
   overlap = max_tokens ->
   chunk_rule_section encoding_encode encoding_decode rule_data max_tokens overlap =
   Err (ValueError "range() arg 3 must not be zero")) /\
  (count_tokens encoding_encode (rule_full_text rule_data) <= max_tokens ->
   exists c,
     chunk_rule_section encoding_encode encoding_decode rule_data max_tokens overlap
       = Ok [c] /\
     chunk_text c = rule_full_text rule_data /\
     chunk_token_count c = count_tokens encoding_encode (rule_full_text rule_data)).
Proof.
  split.
  - intros Hlong ->. rewrite chunk_rule_section_long by exact Hlong.
    unfold py_range. rewrite Z.sub_diag. reflexivity.
  - apply chunk_rule_section_short.
Qed.

Lemma chunk_rule_section_zero_stride_witness :
  chunk_rule_section char_encode char_decode (test_rule 10) 10 10 =
  Err (ValueError "range() arg 3 must not be zero").
Proof.
  apply (chunk_rule_section_zero_stride char_encode char_decode (test_rule 10) 10 10).
  - vm_compute. reflexivity.
  - reflexivity.
Defined.

(** X26: with a negative stride the loop body never runs: a section longer
    than [max_tokens] yields no chunk at all, and no error. *)
Lemma chunk_rule_section_negative_stride {token : Type}
    (encoding_encode : string -> list token) (encoding_decode : list token -> string)
    (rule_data : Rule) (max_tokens overlap : Z) :
  max_tokens < count_tokens encoding_encode (rule_full_text rule_data) ->
  max_tokens < overlap ->
  chunk_rule_section encoding_encode encoding_decode rule_data max_tokens overlap = Ok [].
Proof.
  intros Hlong Hneg. rewrite chunk_rule_section_long by exact Hlong.
  unfold py_range, range_len.
  destruct (max_tokens - overlap =? 0) eqn:E; [lia|].
  destruct (0 <? max_tokens - overlap) eqn:E'; [lia|]. reflexivity.
Qed.

(** C4, as stated, fails: with the default [max_tokens = 512] and
    [overlap = 50], a section of 930 tokens is cut into windows of 512, 468
    and 6 tokens, so a window that is not the last is shorter than
    [max_tokens]. *)
Lemma chunk_rule_section_inner_window_shorter :
  exists cs,
    chunk_rule_section char_encode char_decode (test_rule 925) 512 50 = Ok cs /\
    map chunk_token_count cs = [512; 468; 6] /\
    ~ only_last_shorter 512 cs.
Proof.
  eexists. split; [vm_compute; reflexivity|]. split; [reflexivity|].
  intros H.
  pose proof (H 1%nat _ ltac:(simpl; lia) eq_refl) as Hc.
  discriminate Hc.
Qed.

(** C4 (amended): for every long-form rule record, with
    [0 <= max_tokens] and [overlap < max_tokens]: if the tokenized text has
    at most [max_tokens] tokens, exactly one chunk with the full text is
    emitted; otherwise [ceil(n / stride)] chunks are emitted, stride being
    [max_tokens - overlap], the chunk at position [k] holding the tokens
    from [k * stride] on, [max_tokens] of them or as many as remain (so the
    trailing windows, and not only the last one, may be shorter), with
    [token_count <= max_tokens] and [chunk_index = k]; with [max_tokens =
    512] and [overlap = 50] a section of 1100 tokens yields exactly 3
    windows, of 512, 512 and 176 tokens. *)
Theorem chunk_rule_section_windows {token : Type}
    (encoding_encode : string -> list token) (encoding_decode : list token -> string)
    (rule_data : Rule) (max_tokens overlap : Z) :
  0 <= max_tokens -> overlap < max_tokens ->
  (count_tokens encoding_encode (rule_full_text rule_data) <= max_tokens ->
   exists c,
     chunk_rule_section encoding_encode encoding_decode rule_data max_tokens overlap
       = Ok [c] /\
     chunk_text c = rule_full_text rule_data /\
     chunk_token_count c = count_tokens encoding_encode (rule_full_text rule_data)) /\
  (max_tokens < count_tokens encoding_encode (rule_full_text rule_data) ->
   exists cs,
     chunk_rule_section encoding_encode encoding_decode rule_data max_tokens overlap
       = Ok cs /\
     Z.of_nat (length cs) =
       (count_tokens encoding_encode (rule_full_text rule_data)
        + (max_tokens - overlap) - 1) / (max_tokens - overlap) /\
     (forall (k : nat) (c : Chunk), cs !! k = Some c ->
        chunk_text c =
          encoding_decode
            (take (Z.to_nat max_tokens)
               (drop (Z.to_nat (Z.of_nat k * (max_tokens - overlap)))
                  (encoding_encode (rule_full_text rule_data)))) /\
        chunk_token_count c =
          Z.min max_tokens
            (count_tokens encoding_encode (rule_full_text rule_data)
             - Z.of_nat k * (max_tokens - overlap)) /\
        chunk_token_count c <= max_tokens /\
        chunk_metadata c !! "chunk_index" = Some (JInt (Z.of_nat k))) /\
     (max_tokens = 512 -> overlap = 50 ->
      count_tokens encoding_encode (rule_full_text rule_data) = 1100 ->
      map chunk_token_count cs = [512; 512; 176])).
Proof.
  intros Hmax Hov. split; [apply chunk_rule_section_short|].
  intros Hlong. rewrite chunk_rule_section_long by exact Hlong.
  unfold count_tokens in *.
  set (tokens := encoding_encode (rule_full_text rule_data)) in *.
  set (n := Z.of_nat (length tokens)) in *.
  set (stride := max_tokens - overlap) in *.
  assert (0 < stride) as Hstride by (unfold stride; lia).
  destruct (py_range n stride) as [starts|e] eqn:Hrange; simpl.
  2: { unfold py_range in Hrange. destruct (stride =? 0) eqn:E; [lia|discriminate]. }
  eexists. split; [reflexivity|].
  assert (Z.of_nat (length (imap (fun j i =>
            window encoding_decode rule_data (rule_title rule_data) tokens
              max_tokens j i) starts)) = (n + stride - 1) / stride) as Hcount.
  { rewrite length_imap, (py_range_length _ _ _ Hrange). unfold range_len.
    destruct (0 <? stride) eqn:E; [|lia].
    apply Z2Nat.id. apply Z.div_pos; lia. }
  assert (forall (k : nat) (c : Chunk),
            imap (fun j i => window encoding_decode rule_data (rule_title rule_data)
                               tokens max_tokens j i) starts !! k = Some c ->
            chunk_text c =
              encoding_decode (take (Z.to_nat max_tokens)
                 (drop (Z.to_nat (Z.of_nat k * stride)) tokens)) /\
            chunk_token_count c = Z.min max_tokens (n - Z.of_nat k * stride) /\
            chunk_token_count c <= max_tokens /\
            chunk_metadata c !! "chunk_index" = Some (JInt (Z.of_nat k))) as Hwin.
  { intros k c Hk. rewrite list_lookup_imap in Hk.
    destruct (starts !! k) as [i|] eqn:Hi; [|discriminate].
    injection Hk as <-.
    destruct (py_range_lookup _ _ _ _ _ Hrange Hi) as [-> Hlt].
    pose proof (range_len_bound n stride k Hstride Hlt) as Hin.
    assert (0 <= Z.of_nat k * stride <= Z.of_nat (length tokens)) as Hb
      by (fold n; nia).
    unfold window. simpl.
    rewrite py_slice_window_length by assumption.
    rewrite py_slice_window by assumption.
    fold n. split; [reflexivity|]. split; [reflexivity|].
    split; [lia|reflexivity]. }
  split; [exact Hcount|]. split; [exact Hwin|].
  intros -> Hover Hn. unfold stride in *. subst overlap. rewrite Hn in *.
  change ((1100 + (512 - 50) - 1) / (512 - 50)) with 3 in Hcount.
  destruct (imap _ starts) as [|c0 [|c1 [|c2 [|c3 cs]]]] eqn:Hcs;
    simpl in Hcount; try lia.
  destruct (Hwin 0%nat c0 eq_refl) as (_ & H0 & _).
  destruct (Hwin 1%nat c1 eq_refl) as (_ & H1 & _).
  destruct (Hwin 2%nat c2 eq_refl) as (_ & H2 & _).
  simpl. rewrite H0, H1, H2. reflexivity.
Qed.

Lemma chunk_rule_section_windows_witness :
  exists cs,
    chunk_rule_section char_encode char_decode (test_rule 1095) 512 50 = Ok cs /\
    map chunk_token_count cs = [512; 512; 176].
Proof.
  destruct (chunk_rule_section_windows char_encode char_decode (test_rule 1095) 512 50)
    as [_ Hlong]; [lia|lia|].
  destruct Hlong as (cs & Hcs & _ & _ & Hscen); [vm_compute; reflexivity|].
  exists cs. split; [exact Hcs|].
  apply Hscen; [reflexivity|reflexivity|vm_compute; reflexivity].
Defined.

(** * Index build *)

(** C6: provided the embedding model returns one row per text, in order,
    each row being the embedding of its text alone, the artifacts built by
    [step_3_generate_embeddings] are aligned with the chunk sequence: the
    matrix and the metadata sequence have as many entries as there are
    chunks, entry [i] of the metadata has [id = i], and row [i] of the matrix
    is the embedding of the text of chunk [i]. *)
Theorem step_3_alignment (model_encode : list string -> list (list Q))
    (embed : string -> list Q) (chunks : list Chunk) :
  (forall texts, model_encode texts = map embed texts) ->
  length (fst (step_3_generate_embeddings model_encode chunks)) = length chunks /\
  length (snd (step_3_generate_embeddings model_encode chunks)) = length chunks /\
  (forall (i : nat) (m : MetaEntry),
     snd (step_3_generate_embeddings model_encode chunks) !! i = Some m ->
     meta_id m = Z.of_nat i) /\
  (forall (i : nat) (c : Chunk), chunks !! i = Some c ->
     fst (step_3_generate_embeddings model_encode chunks) !! i
       = Some (embed (chunk_text c)) /\
     snd (step_3_generate_embeddings model_encode chunks) !! i
       = Some {| meta_id := Z.of_nat i;
                 meta_metadata := chunk_metadata c;
                 meta_token_count := chunk_token_count c |}).
Proof.
  intros Hmodel. unfold step_3_generate_embeddings. simpl.
  rewrite Hmodel. split; [|split; [|split]].
  - rewrite !length_map. reflexivity.
  - rewrite length_map. unfold enumerate.
    rewrite length_zip, length_seq. lia.
  - intros i m H. rewrite list_lookup_fmap in H.
    destruct (enumerate chunks !! i) as [[j c]|] eqn:E; [|discriminate].
    injection H as <-. simpl.
    unfold enumerate, zip in E. apply lookup_zip_with_Some in E.
    destruct E as (x & y & [= -> ->] & Hx & _).
    apply lookup_seq in Hx as [-> _]. reflexivity.
  - intros i c Hc. split.
    + rewrite !list_lookup_fmap, Hc. reflexivity.
    + rewrite list_lookup_fmap, (enumerate_lookup _ _ _ Hc). reflexivity.
Qed.

Lemma step_3_alignment_witness :
  length (fst (step_3_generate_embeddings length_embed five_chunks)) = 5%nat /\
  fst (step_3_generate_embeddings length_embed five_chunks) !! 3%nat
    = Some [inject_Z 2] /\
  meta_id <$> snd (step_3_generate_embeddings length_embed five_chunks) !! 3%nat
    = Some 3.
Proof.
  destruct (step_3_alignment length_embed
              (fun t => [inject_Z (Z.of_nat (String.length t))]) five_chunks)
    as (Hrows & _ & _ & Hrow); [reflexivity|].
  destruct (Hrow 3%nat (plain_chunk "c3") eq_refl) as [He Hm].
  split; [exact Hrows|]. split; [exact He|]. rewrite Hm. reflexivity.
Defined.

(** * Answer synthesis *)

Lemma mapM_inv {A B} (f : A -> result B) (l : list A) (r : list B) :
  mapM f l = Ok r -> Forall2 (fun x y => f x = Ok y) l r.
Proof.
  revert r. induction l as [|x l IH]; simpl; intros r H.
  - injection H as <-. constructor.
  - destruct (f x) as [y|e] eqn:E; simpl in H; [|discriminate].
    destruct (mapM f l) as [ys|e]; simpl in H; [|discriminate].
    injection H as <-. constructor; [exact E|]. apply IH. reflexivity.
Qed.

Lemma context_entry_inv (i : nat) (chunk : Chunk) (score : Q)
    (parts : list string) (src : Source) :
  context_entry (i, (chunk, score)) = Ok (parts, src) ->
  parts = ["[Documento " +:+ pretty i +:+ "]"; chunk_text chunk; ""] /\
  doc_id src = Z.of_nat i /\
  chunk_metadata chunk !! "type" = Some (source_type src) /\
  chunk_metadata chunk !! "source" = Some (source_source src) /\
  source_name src = default (JStr "Unknown") (chunk_metadata chunk !! "name") /\
  source_url src = default (JStr "") (chunk_metadata chunk !! "url") /\
  relevance_score src = py_round3 score.
Proof.
  unfold context_entry, py_lookup, py_get.
  destruct (chunk_metadata chunk !! "type") as [ty|]; simpl; [|discriminate].
  destruct (chunk_metadata chunk !! "source") as [so|]; simpl; [|discriminate].
  intros [= <- <-]. simpl. repeat split.
Qed.

Lemma context_entry_ok (i : nat) (entry : Chunk * Q) :
  has_provenance entry -> is_ok (context_entry (i, entry)).
Proof.
  destruct entry as [chunk score]. intros [[ty Hty] [so Hso]]. simpl in *.
  unfold context_entry, py_lookup. rewrite Hty, Hso. exact I.
Qed.

Lemma context_entry_err (i : nat) (entry : Chunk * Q) (e : pyerr) :
  context_entry (i, entry) = Err e ->
  ~ has_provenance entry /\ exists key, e = KeyError key /\ (key = "type" \/ key = "source").
Proof.
  destruct entry as [chunk score]. unfold context_entry, py_lookup, has_provenance.
  simpl.
  destruct (chunk_metadata chunk !! "type") as [ty|] eqn:Hty; simpl.
  - destruct (chunk_metadata chunk !! "source") as [so|] eqn:Hso; simpl;
      [discriminate|].
    intros [= <-]. split; [intros [_ [x Hx]]; discriminate|].
    exists "source". split; [reflexivity|right; reflexivity].
  - intros [= <-]. split; [intros [[x Hx] _]; discriminate|].
    exists "type". split; [reflexivity|left; reflexivity].
Qed.

Lemma numbered_lookup {A} (l : list A) (i : nat) (x : A) :
  l !! i = Some x -> zip (seq 1 (length l)) l !! i = Some (S i, x).
Proof.
  intros H. unfold zip. apply lookup_zip_with_Some.
  exists (S i), x. split; [reflexivity|]. split; [|exact H].
  apply lookup_seq. split; [reflexivity|]. eapply lookup_lt_Some, H.
Qed.

Lemma numbered_elem {A} (l : list A) (p : nat * A) :
  p ∈ zip (seq 1 (length l)) l -> snd p ∈ l.
Proof.
  intros H. apply list_elem_of_lookup in H as [i H].
  unfold zip in H. apply lookup_zip_with_Some in H.
  destruct H as (x & y & -> & _ & Hy). simpl.
  eapply list_elem_of_lookup_2, Hy.
Qed.

Lemma has_provenance_dec (entry : Chunk * Q) :
  has_provenance entry \/ ~ has_provenance entry.
Proof.
  unfold has_provenance.
  destruct (chunk_metadata (fst entry) !! "type") as [ty|].
  - destruct (chunk_metadata (fst entry) !! "source") as [so|].
    + left. split; eauto.
    + right. intros [_ [x Hx]]. discriminate Hx.
  - right. intros [[x Hx] _]. discriminate Hx.
Qed.

(** The loop completes exactly when every chunk has both keys. *)
Lemma build_context_ok (context_chunks : list (Chunk * Q)) :
  Forall has_provenance context_chunks ->
  exists context_parts srcs, build_context context_chunks = Ok (context_parts, srcs).
Proof.
  intros H. unfold build_context.
  destruct (mapM_Forall2 context_entry
              (zip (seq 1 (length context_chunks)) context_chunks))
    as (entries & -> & _).
  - apply Forall_forall. intros [i entry] Hin.
    apply context_entry_ok. rewrite Forall_forall in H.
    apply H. apply (numbered_elem _ _ Hin).
  - simpl. eauto.
Qed.

Lemma build_context_err (context_chunks : list (Chunk * Q)) :
  Exists (fun entry => ~ has_provenance entry) context_chunks ->
  exists key, build_context context_chunks = Err (KeyError key) /\
              (key = "type" \/ key = "source").
Proof.
  intros H. unfold build_context.
  destruct (mapM_err context_entry
              (zip (seq 1 (length context_chunks)) context_chunks)
              (fun e => exists key, e = KeyError key /\
                                    (key = "type" \/ key = "source")))
    as (e & -> & key & -> & Hkey).
  - intros [i entry] e He. apply (context_entry_err i entry e He).
  - apply Exists_exists in H as (entry & Hin & Hno).
    apply list_elem_of_lookup in Hin as [i Hi].
    apply Exists_exists. exists (S i, entry). split.
    + eapply list_elem_of_lookup_2, numbered_lookup, Hi.
    + intros Hok. apply Hno.
      destruct (context_entry (S i, entry)) as [r|e] eqn:E; [|destruct Hok].
      destruct entry as [chunk score]. destruct r as [parts src].
      apply context_entry_inv in E as (_ & _ & Hty & Hso & _).
      split; simpl; eauto.
  - simpl. exists key. split; [reflexivity|exact Hkey].
Qed.

(** What the loop leaves in [sources]: one entry per ranked chunk, in rank
    order, numbered from 1. *)
Lemma build_context_sources (context_chunks : list (Chunk * Q))
    (context_parts : list string) (srcs : list Source) :
  build_context context_chunks = Ok (context_parts, srcs) ->
  length srcs = length context_chunks /\
  forall (i : nat) (chunk : Chunk) (score : Q),
    context_chunks !! i = Some (chunk, score) ->
    exists src,
      srcs !! i = Some src /\
      doc_id src = Z.of_nat i + 1 /\
      chunk_metadata chunk !! "type" = Some (source_type src) /\
      chunk_metadata chunk !! "source" = Some (source_source src) /\
      source_name src = default (JStr "Unknown") (chunk_metadata chunk !! "name") /\
      source_url src = default (JStr "") (chunk_metadata chunk !! "url") /\
      relevance_score src = py_round3 score.
Proof.
  unfold build_context.
  destruct (mapM context_entry _) as [entries|e] eqn:E; simpl; [|discriminate].
  intros [= <- <-]. pose proof (mapM_length _ _ _ E) as Hlen.
  apply mapM_inv in E. split.
  - rewrite length_map, Hlen, length_zip, length_seq. lia.
  - intros i chunk score Hi.
    destruct (Forall2_lookup_l _ _ _ i _ E (numbered_lookup _ _ _ Hi))
      as ([parts src] & Hentry & Hctx).
    apply context_entry_inv in Hctx as (_ & Hid & Hrest).
    exists src. split; [rewrite list_lookup_fmap, Hentry; reflexivity|].
    split; [lia|exact Hrest].
Qed.

(** C5: when the loop over the ranked chunks has completed, so that the
    generation service is called, and that call fails with a transport error
    (a timeout included), [generate_answer] raises nothing: it returns a
    response whose answer is ["Error calling LLM: "] followed by the error
    text, whose sources are the ones the loop built, one per ranked chunk in
    rank order (so not empty when chunks were passed), and whose
    [context_used] is the number of ranked chunks. *)
Theorem generate_answer_transport_error
    (requests_post : string -> Payload -> Z -> http_outcome)
    (self : RAGEngine) (query : string) (context_chunks : list (Chunk * Q))
    (temperature : Q) (context_parts : list string) (srcs : list Source)
    (msg : string) :
  build_context context_chunks = Ok (context_parts, srcs) ->
  requests_post (llm_url self)
    (llm_payload self (_build_prompt query (join nl context_parts)) temperature) 60
    = RequestException msg ->
  exists response,
    generate_answer requests_post self query context_chunks temperature = Ok response /\
    answer response = "Error calling LLM: " +:+ msg /\
    String.prefix "Error calling LLM:" (answer response) = true /\
    sources response = srcs /\
    length (sources response) = length context_chunks /\
    (context_chunks <> [] -> sources response <> []) /\
    (forall (i : nat) (chunk : Chunk) (score : Q),
       context_chunks !! i = Some (chunk, score) ->
       exists src,
         sources response !! i = Some src /\
         doc_id src = Z.of_nat i + 1 /\
         chunk_metadata chunk !! "type" = Some (source_type src) /\
         chunk_metadata chunk !! "source" = Some (source_source src) /\
         source_name src = default (JStr "Unknown") (chunk_metadata chunk !! "name") /\
         source_url src = default (JStr "") (chunk_metadata chunk !! "url") /\
         relevance_score src = py_round3 score) /\
    context_used response = Z.of_nat (length context_chunks).
Proof.
  intros Hctx Hpost.
  destruct (build_context_sources _ _ _ Hctx) as [Hlen Hsrc].
  unfold generate_answer. rewrite Hctx. simpl.
  unfold _call_llm. rewrite Hpost.
  eexists. split; [reflexivity|]. simpl.
  split; [reflexivity|]. split; [reflexivity|]. split; [reflexivity|].
  split; [exact Hlen|]. split; [|split; [exact Hsrc|reflexivity]].
  intros Hne ->. destruct context_chunks; [congruence|discriminate].
Qed.

Lemma generate_answer_transport_error_witness :
  exists response,
    generate_answer post_timeout five_engine "What is the spell Fireball?"
      [(plain_chunk "c0", 9 # 10); (plain_chunk "c3", 7 # 10)]%Q (3 # 10)%Q
      = Ok response /\
    answer response = "Error calling LLM: Read timed out. (read timeout=60)" /\
    length (sources response) = 2%nat /\
    context_used response = 2.
Proof.
  edestruct (generate_answer_transport_error post_timeout five_engine
               "What is the spell Fireball?"
               [(plain_chunk "c0", 9 # 10); (plain_chunk "c3", 7 # 10)]%Q (3 # 10)%Q)
    as (response & Hres & Hans & _ & _ & Hlen & _ & _ & Hused).
  - vm_compute. reflexivity.
  - reflexivity.
  - exists response. split; [exact Hres|]. split; [exact Hans|].
    split; [exact Hlen|exact Hused].
Defined.

(** C10: [generate_answer] is partial in the chunk metadata.  It returns a
    response exactly when every ranked chunk has the keys [type] and
    [source] in its metadata; if some chunk lacks one of them it fails with
    a [KeyError] on that key.  When it returns, the source entry of each
    chunk carries the chunk's [type] and [source], its [name] or
    ["Unknown"] when that key is missing, and its [url] or the empty string
    when that key is missing. *)
Theorem generate_answer_needs_type_and_source
    (requests_post : string -> Payload -> Z -> http_outcome)
    (self : RAGEngine) (query : string) (context_chunks : list (Chunk * Q))
    (temperature : Q) :
  (is_ok (generate_answer requests_post self query context_chunks temperature) <->
   Forall has_provenance context_chunks) /\
  (Exists (fun entry => ~ has_provenance entry) context_chunks ->
   exists key,
     generate_answer requests_post self query context_chunks temperature
       = Err (KeyError key) /\
     (key = "type" \/ key = "source")) /\
  (forall response,
     generate_answer requests_post self query context_chunks temperature = Ok response ->
     forall (i : nat) (chunk : Chunk) (score : Q),
       context_chunks !! i = Some (chunk, score) ->
       exists src,
         sources response !! i = Some src /\
         chunk_metadata chunk !! "type" = Some (source_type src) /\
         chunk_metadata chunk !! "source" = Some (source_source src) /\
         (forall name, chunk_metadata chunk !! "name" = Some name ->
                       source_name src = name) /\
         (chunk_metadata chunk !! "name" = None -> source_name src = JStr "Unknown") /\
         (forall url, chunk_metadata chunk !! "url" = Some url ->
                      source_url src = url) /\
         (chunk_metadata chunk !! "url" = None -> source_url src = JStr "")).
Proof.
  split; [|split].
  - split.
    + intros Hok. apply Forall_forall. intros entry Hin.
      destruct (has_provenance_dec entry) as [Hyes|Hno]; [exact Hyes|].
      destruct (build_context_err context_chunks) as (key & Hkey & _).
      { apply Exists_exists. exists entry. split; assumption. }
      unfold generate_answer in Hok. rewrite Hkey in Hok. destruct Hok.
    + intros Hall. apply build_context_ok in Hall as (parts & srcs & Hctx).
      unfold generate_answer. rewrite Hctx. exact I.
  - intros Hex. apply build_context_err in Hex as (key & Hkey & Hwhich).
    exists key. unfold generate_answer. rewrite Hkey. split; [reflexivity|exact Hwhich].
  - intros response Hres i chunk score Hi.
    unfold generate_answer in Hres.
    destruct (build_context context_chunks) as [[parts srcs]|e] eqn:Hctx;
      simpl in Hres; [|discriminate].
    injection Hres as <-. simpl.
    destruct (build_context_sources _ _ _ Hctx) as [_ Hsrc].
    destruct (Hsrc i chunk score Hi) as (src & Hs & _ & Hty & Hso & Hname & Hurl & _).
    exists src. split; [exact Hs|]. split; [exact Hty|]. split; [exact Hso|].
    rewrite Hname, Hurl.
    repeat split; intros; match goal with H : _ !! _ = _ |- _ => rewrite H end;
      reflexivity.
Qed.

Lemma generate_answer_needs_type_and_source_witness :
  generate_answer post_timeout five_engine "q"
    [(plain_chunk "c0", 9 # 10)%Q;
     ({| chunk_text := "no source";
         chunk_metadata := list_to_map [("type", JStr "rule")];
         chunk_token_count := 2 |}, 1 # 2)%Q] (3 # 10)%Q
  = Err (KeyError "source").
Proof.
  destruct (generate_answer_needs_type_and_source post_timeout five_engine "q"
    [(plain_chunk "c0", 9 # 10)%Q;
     ({| chunk_text := "no source";
         chunk_metadata := list_to_map [("type", JStr "rule")];
         chunk_token_count := 2 |}, 1 # 2)%Q] (3 # 10)%Q)
    as (_ & Herr & _).
  destruct Herr as (key & Hkey & _).
  - apply Exists_cons_tl, Exists_cons_hd. intros [_ [v Hv]]. discriminate Hv.
  - pose proof Hkey as Hk. vm_compute in Hk. injection Hk as Hk.
    rewrite Hkey, <- Hk. reflexivity.
Defined.

(** * Spell and monster chunks *)

Lemma string_app_assoc (a b c : string) : (a +:+ b) +:+ c = a +:+ b +:+ c.
Proof.
  induction a as [|x a IH]; [reflexivity|].
  change (String x ((a +:+ b) +:+ c) = String x (a +:+ b +:+ c)).
  rewrite IH. reflexivity.
Qed.

Lemma string_app_nil_r (a : string) : a +:+ "" = a.
Proof.
  induction a as [|x a IH]; [reflexivity|].
  change (String x (a +:+ "") = String x a). rewrite IH. reflexivity.
Qed.

(** Every part passed to [join] occurs in the joined text. *)
Lemma join_contains (sep : string) (parts : list string) (p : string) :
  p ∈ parts -> contains (join sep parts) p.
Proof.
  induction parts as [|q parts IH]; intros Hin.
  - apply elem_of_nil in Hin. destruct Hin.
  - apply elem_of_cons in Hin as [->|Hin].
    + destruct parts as [|r parts].
      * exists "", "". simpl. rewrite string_app_nil_r. reflexivity.
      * exists "", (sep +:+ join sep (r :: parts)). reflexivity.
    + destruct parts as [|r parts]; [apply elem_of_nil in Hin; destruct Hin|].
      destruct (IH Hin) as (pre & post & Heq).
      exists (q +:+ sep +:+ pre), post.
      change (join sep (q :: r :: parts)) with (q +:+ sep +:+ join sep (r :: parts)).
      rewrite Heq, !string_app_assoc. reflexivity.
Qed.

(** [f"{z:+d}"] always starts with a sign. *)
Lemma format_signed_sign (z : Z) :
  format_signed z = (if z <? 0 then "-" else "+") +:+ pretty (Z.abs z).
Proof. destruct z; reflexivity. Qed.

Lemma monster_desc_parts_ok (repr_other : json -> string) (monster_data : Monster) :
  monster_armor_class monster_data <> Some [] ->
  exists desc_parts,
    monster_desc_parts repr_other monster_data = Ok desc_parts /\
    forall ability, ability ∈ abilities ->
                    ability_line monster_data ability ∈ desc_parts.
Proof.
  intros Hac. unfold monster_desc_parts.
  assert (exists ac, py_getitem (get (monster_armor_class monster_data)
                                     [mkArmorClass None]) 0 = Ok ac) as [ac ->].
  { destruct (monster_armor_class monster_data) as [[|ac l]|]; [congruence| |];
      eexists; reflexivity. }
  cbv beta iota zeta delta [bind]. eexists. split; [reflexivity|].
  intros ability Hin.
  pose proof (list_elem_of_fmap_2 (ability_line monster_data) _ _ Hin) as Hline.
  destruct (truthy (monster_special_abilities monster_data)),
           (truthy (monster_actions monster_data));
    rewrite ?elem_of_app; tauto.
Qed.

(** C8, as stated, fails on a record whose [armor_class] is an empty list:
    [chunk_monster] raises [IndexError] there, and no modifier is rendered,
    although every ability score of the record is missing. *)
Lemma chunk_monster_fails_on_empty_armor_class :
  monster_scores unarmored_monster = ∅ /\
  chunk_monster char_encode repr_placeholder unarmored_monster = Err IndexError.
Proof. split; reflexivity. Qed.

(** C8 (amended): for every creature record whose [armor_class] is not an
    empty list, [chunk_monster] returns a chunk, whatever the ability
    scores, and for each of the six abilities the chunk text contains the
    line ["- ABILITY: score (modifier)"] where [score] is the record's score,
    or 10 when the score is missing, and [modifier] is
    [floor((score - 10) / 2)] written with its sign, ["+"] for zero and
    positive values: a score of 9 is followed by ["(-1)"], a score of 7 by
    ["(-2)"], a missing score is rendered as ["10 (+0)"]. *)
Theorem chunk_monster_ability_modifiers {token : Type}
    (encoding_encode : string -> list token) (repr_other : json -> string)
    (monster_data : Monster) :
  monster_armor_class monster_data <> Some [] ->
  exists c,
    chunk_monster encoding_encode repr_other monster_data = Ok c /\
    forall ability, ability ∈ abilities ->
      (exists score modifier : Z,
         score = default 10 (monster_scores monster_data !! ability) /\
         modifier = (score - 10) / 2 /\
         2 * modifier <= score - 10 < 2 * modifier + 2 /\
         contains (chunk_text c)
           ("- " +:+ upper ability +:+ ": " +:+ pretty score +:+ " ("
                 +:+ (if modifier <? 0 then "-" else "+")
                 +:+ pretty (Z.abs modifier) +:+ ")")) /\
      (monster_scores monster_data !! ability = Some 9 ->
         contains (chunk_text c) ("- " +:+ upper ability +:+ ": 9 (-1)")) /\
      (monster_scores monster_data !! ability = Some 7 ->
         contains (chunk_text c) ("- " +:+ upper ability +:+ ": 7 (-2)")) /\
      (monster_scores monster_data !! ability = None ->
         contains (chunk_text c) ("- " +:+ upper ability +:+ ": 10 (+0)")).
Proof.
  intros Hac.
  destruct (monster_desc_parts_ok repr_other monster_data Hac)
    as (desc_parts & Hparts & Hlines).
  unfold chunk_monster. rewrite Hparts. simpl.
  eexists. split; [reflexivity|]. simpl.
  intros ability Hin.
  pose proof (join_contains nl desc_parts _ (Hlines ability Hin)) as Hline.
  unfold ability_line, get in Hline.
  split; [|split; [|split]].
  - exists (default 10 (monster_scores monster_data !! ability)).
    exists ((default 10 (monster_scores monster_data !! ability) - 10) / 2).
    split; [reflexivity|]. split; [reflexivity|].
    split.
    + pose proof (Z.mul_div_le
                    (default 10 (monster_scores monster_data !! ability) - 10) 2).
      pose proof (Z.mul_succ_div_gt
                    (default 10 (monster_scores monster_data !! ability) - 10) 2).
      lia.
    + rewrite format_signed_sign, string_app_assoc in Hline. exact Hline.
  - intros H. rewrite H in Hline. exact Hline.
  - intros H. rewrite H in Hline. exact Hline.
  - intros H. rewrite H in Hline. exact Hline.
Qed.

Lemma chunk_monster_ability_modifiers_witness :
  exists c,
    chunk_monster char_encode repr_placeholder test_monster = Ok c /\
    contains (chunk_text c) "- STRENGTH: 9 (-1)" /\
    contains (chunk_text c) "- WISDOM: 7 (-2)" /\
    contains (chunk_text c) "- CHARISMA: 10 (+0)".
Proof.
  destruct (chunk_monster_ability_modifiers char_encode repr_placeholder test_monster)
    as (c & Hc & Hlines); [discriminate|].
  exists c. split; [exact Hc|].
  destruct (Hlines "strength") as (_ & H9 & _); [repeat constructor|].
  destruct (Hlines "wisdom") as (_ & _ & H7 & _); [repeat constructor|].
  destruct (Hlines "charisma") as (_ & _ & _ & H10); [repeat constructor|].
  split; [apply H9; reflexivity|]. split; [apply H7; reflexivity|].
  apply H10; reflexivity.
Defined.

(** C9: for every spell record whose [higher_level] is absent or empty, the
    chunk text is made of the seven labelled lines and the description block
    only: nothing is appended after the description, neither an
    ["At Higher Levels"] header nor any line under it, and such a header can
    occur in the text only as a line of the description itself.  The
    function is total; an absent name is rendered as ["Unknown Spell"], an
    absent school, casting time, range or duration as ["Unknown"], an absent
    level as 0, and absent components as an empty list. *)
Theorem chunk_spell_without_higher_level {token : Type}
    (encoding_encode : string -> list token) (spell_data : Spell) :
  spell_higher_level spell_data = None \/ spell_higher_level spell_data = Some [] ->
  chunk_text (chunk_spell encoding_encode spell_data) =
    join nl
      ([ "# " +:+ default "Unknown Spell" (spell_name spell_data);
         "**Level:** " +:+ pretty (default 0 (spell_level spell_data));
         "**School:** " +:+ default "Unknown" (spell_school spell_data ≫= school_name);
         "**Casting Time:** " +:+ default "Unknown" (spell_casting_time spell_data);
         "**Range:** " +:+ default "Unknown" (spell_range spell_data);
         "**Duration:** " +:+ default "Unknown" (spell_duration spell_data);
         "**Components:** " +:+ join ", " (default [] (spell_components spell_data)) ]
       ++ match spell_desc spell_data with
          | Some (line :: lines) => (nl +:+ "**Description:**") :: line :: lines
          | _ => []
          end) /\
  (nl +:+ "**At Higher Levels:**" ∈ spell_desc_parts spell_data ->
   nl +:+ "**At Higher Levels:**" ∈ default [] (spell_desc spell_data)) /\
  chunk_text (chunk_spell encoding_encode
                (mkSpell None None None None None None None None None None)) =
    "# Unknown Spell" +:+ nl +:+ "**Level:** 0" +:+ nl +:+
    "**School:** Unknown" +:+ nl +:+ "**Casting Time:** Unknown" +:+ nl +:+
    "**Range:** Unknown" +:+ nl +:+ "**Duration:** Unknown" +:+ nl +:+
    "**Components:** ".
Proof.
  intros Hhl.
  assert (truthy (spell_higher_level spell_data) = false) as Hfalse
    by (destruct Hhl as [-> | ->]; reflexivity).
  assert (spell_desc_parts spell_data =
      [ "# " +:+ default "Unknown Spell" (spell_name spell_data);
        "**Level:** " +:+ pretty (default 0 (spell_level spell_data));
        "**School:** " +:+ default "Unknown" (spell_school spell_data ≫= school_name);
        "**Casting Time:** " +:+ default "Unknown" (spell_casting_time spell_data);
        "**Range:** " +:+ default "Unknown" (spell_range spell_data);
        "**Duration:** " +:+ default "Unknown" (spell_duration spell_data);
        "**Components:** " +:+ join ", " (default [] (spell_components spell_data)) ]
      ++ match spell_desc spell_data with
         | Some (line :: lines) => (nl +:+ "**Description:**") :: line :: lines
         | _ => []
         end) as Hparts.
  { unfold spell_desc_parts, get. rewrite Hfalse.
    destruct (spell_school spell_data) as [[school]|];
      destruct (spell_components spell_data) as [[|comp comps]|];
      destruct (spell_desc spell_data) as [[|line lines]|]; reflexivity. }
  split; [|split].
  - unfold chunk_spell. simpl. rewrite Hparts. reflexivity.
  - rewrite Hparts. intros Hin.
    apply elem_of_app in Hin as [Hin|Hin].
    + exfalso.
      repeat (apply elem_of_cons in Hin as [Hin|Hin]; [discriminate Hin|]).
      apply elem_of_nil in Hin. exact Hin.
    + destruct (spell_desc spell_data) as [[|line lines]|];
        try (apply elem_of_nil in Hin; destruct Hin).
      apply elem_of_cons in Hin as [Hin|Hin]; [discriminate Hin|exact Hin].
  - reflexivity.
Qed.

Lemma chunk_spell_without_higher_level_witness :
  chunk_text (chunk_spell char_encode test_spell) =
    "# Fireball" +:+ nl +:+ "**Level:** 3" +:+ nl +:+
    "**School:** Evocation" +:+ nl +:+ "**Casting Time:** 1 action" +:+ nl +:+
    "**Range:** 150 feet" +:+ nl +:+ "**Duration:** Instantaneous" +:+ nl +:+
    "**Components:** V, S, M" +:+ nl +:+ nl +:+ "**Description:**" +:+ nl +:+
    "A bright streak flashes from your pointing finger to a point you choose within range...".
Proof.
  destruct (chunk_spell_without_higher_level char_encode test_spell) as (Htext & _).
  - left. reflexivity.
  - rewrite Htext. reflexivity.
Defined.

(** * Further properties of retrieval *)

Lemma rev_drop_take {A} (l : list A) (n : nat) :
  (n <= length l)%nat -> rev (drop n l) = take (length l - n) (rev l).
Proof.
  intros Hn. rewrite firstn_rev. do 2 f_equal. lia.
Qed.

(** [retrieve] raises nothing as long as every row has a chunk. *)
Lemma retrieve_positions (self : RAGEngine)
    (query : string) (top_k : Z) (similarities : list Q) :
  (array_len (embeddings self) <= length (chunks self))%nat ->
  np_dot (embeddings self) (embedding_model self query) = Ok (Vector similarities) ->
  exists results,
    retrieve self query top_k = Ok results /\
    Forall2 (fun i r => chunks self !! i = Some (fst r) /\
                        snd r = score_at similarities i)
            (rev (py_slice (argsort similarities) (Some (- top_k)) None))
            results.
Proof.
  intros Hlen Hdot. unfold retrieve. rewrite Hdot. simpl.
  pose proof (np_dot_length _ _ _ Hdot) as Hn.
  destruct (top_indices_facts similarities (argsort similarities) (- top_k)
              (argsort_spec similarities)) as (Hlt & _ & _).
  set (top := rev _) in *.
  destruct (mapM_Forall2
    (fun idx => do chunk <- py_getitem (chunks self) idx;
                do score <- np_item (Vector similarities) idx;
                Ok (chunk, score)) top) as (r & Hr & H2).
  { eapply Forall_impl; [exact Hlt|]. intros i Hi. cbv beta in Hi.
    apply retrieve_step_ok; [lia|exact Hi]. }
  exists r. split; [exact Hr|].
  eapply Forall2_impl; [exact H2|]. intros i r0.
  apply retrieve_step.
Qed.

(** X1: on a matrix of shape (N, D), D being the length of the query
    vector, whose rows all have a chunk: whatever [top_k], the positions
    [retrieve] returns are pairwise distinct, and every row it leaves out
    scores no higher than any row it returns. *)
Theorem retrieve_returns_best (self : RAGEngine)
    (query : string) (top_k : Z) (similarities : list Q) :
  (array_len (embeddings self) <= length (chunks self))%nat ->
  np_dot (embeddings self) (embedding_model self query) = Ok (Vector similarities) ->
  exists (top : list nat) (results : list (Chunk * Q)),
    retrieve self query top_k = Ok results /\
    Forall2 (fun i r => chunks self !! i = Some (fst r) /\
                        snd r = score_at similarities i) top results /\
    NoDup top /\
    forall i j : nat,
      i ∈ top -> (j < array_len (embeddings self))%nat -> j ∉ top ->
      (score_at similarities j <= score_at similarities i)%Q.
Proof.
  intros Hlen Hdot.
  destruct (retrieve_positions self query top_k similarities Hlen Hdot)
    as (results & Hres & H2).
  destruct (top_indices_facts similarities (argsort similarities) (- top_k)
              (argsort_spec similarities)) as (_ & Hnd & _).
  exists (rev (py_slice (argsort similarities) (Some (- top_k)) None)), results.
  split; [exact Hres|]. split; [exact H2|]. split; [exact Hnd|].
  intros i j Hi Hj Hout.
  destruct (argsort_spec similarities) as [Hperm Hsorted].
  rewrite py_slice_from in Hi, Hout.
  set (n := Z.to_nat _) in *.
  assert (forall x, x ∈ rev (drop n (argsort similarities)) <->
                    x ∈ drop n (argsort similarities)) as Hrev.
  { intros x. rewrite !list_elem_of_In. symmetry. apply in_rev. }
  apply Hrev in Hi. rewrite Hrev in Hout.
  assert (j ∈ argsort similarities) as Hjin.
  { rewrite Hperm. apply elem_of_seq.
    rewrite (np_dot_length _ _ _ Hdot). lia. }
  rewrite <- (take_drop n (argsort similarities)) in Hjin, Hsorted.
  apply elem_of_app in Hjin as [Hjin|Hjin]; [|contradiction].
  apply (StronglySorted_app_1_elem_of _ _ _ j i Hsorted Hjin Hi).
Qed.

Lemma retrieve_returns_best_witness :
  exists (top : list nat) (results : list (Chunk * Q)),
    retrieve five_engine "q" 2 = Ok results /\
    Forall2 (fun i r => chunks five_engine !! i = Some (fst r) /\
                        snd r = score_at [9 # 10; 1 # 10; 5 # 10; 7 # 10; 2 # 10]%Q i)
            top results /\
    NoDup top /\
    forall i j : nat,
      i ∈ top -> (j < array_len (embeddings five_engine))%nat -> j ∉ top ->
      (score_at [9 # 10; 1 # 10; 5 # 10; 7 # 10; 2 # 10]%Q j
       <= score_at [9 # 10; 1 # 10; 5 # 10; 7 # 10; 2 # 10]%Q i)%Q.
Proof.
  apply (retrieve_returns_best five_engine "q" 2
           [9 # 10; 1 # 10; 5 # 10; 7 # 10; 2 # 10]%Q).
  - simpl. lia.
  - reflexivity.
Defined.

(** X2: asking for fewer results gives a prefix of what asking for more
    gives: for [1 <= k <= k'], the result for [k] is the first [k] pairs of
    the result for [k']. *)
Theorem retrieve_prefix (self : RAGEngine)
    (query : string) (k k' : Z) (similarities : list Q)
    (results results' : list (Chunk * Q)) :
  (array_len (embeddings self) <= length (chunks self))%nat ->
  np_dot (embeddings self) (embedding_model self query) = Ok (Vector similarities) ->
  1 <= k <= k' ->
  retrieve self query k = Ok results ->
  retrieve self query k' = Ok results' ->
  results = take (Z.to_nat k) results'.
Proof.
  intros Hlen Hdot Hk Hres Hres'.
  destruct (retrieve_positions self query k similarities Hlen Hdot)
    as (r & Hr & H2).
  destruct (retrieve_positions self query k' similarities Hlen Hdot)
    as (r' & Hr' & H2').
  rewrite Hres in Hr. injection Hr as <-.
  rewrite Hres' in Hr'. injection Hr' as <-.
  rewrite py_slice_from in H2, H2'.
  set (order := argsort similarities) in *.
  assert (forall m : Z, 1 <= m ->
            rev (drop (Z.to_nat (slice_bound (Z.of_nat (length order)) (- m))) order)
            = take (Z.to_nat (Z.min m (Z.of_nat (length order)))) (rev order)) as Htop.
  { intros m Hm. rewrite rev_drop_take.
    - f_equal. unfold slice_bound. destruct (- m <? 0) eqn:E; lia.
    - unfold slice_bound. destruct (- m <? 0) eqn:E; lia. }
  rewrite Htop in H2 by lia. rewrite Htop in H2' by lia.
  apply (Forall2_take _ _ _ (Z.to_nat k)) in H2'.
  rewrite take_take in H2'.
  replace (Z.to_nat k `min` Z.to_nat (Z.min k' (Z.of_nat (length order))))%nat
    with (Z.to_nat (Z.min k (Z.of_nat (length order)))) in H2' by lia.
  eapply Forall2_unique; [exact H2|exact H2'|].
  intros i [c1 s1] [c2 s2] [Hc1 Hs1] [Hc2 Hs2]. simpl in *. congruence.
Qed.

Lemma retrieve_prefix_witness :
  exists results results',
    retrieve five_engine "q" 2 = Ok results /\
    retrieve five_engine "q" 4 = Ok results' /\
    results = take 2 results'.
Proof.
  eexists. eexists. split; [vm_compute; reflexivity|].
  split; [vm_compute; reflexivity|].
  apply (retrieve_prefix five_engine "q" 2 4
           [9 # 10; 1 # 10; 5 # 10; 7 # 10; 2 # 10]%Q);
    [simpl; lia|reflexivity|lia|vm_compute; reflexivity|vm_compute; reflexivity].
Defined.

Lemma retrieve_misaligned_index_error_witness :
  retrieve misaligned_engine "q" 3 = Err IndexError.
Proof.
  apply (retrieve_misaligned_index_error misaligned_engine "q" 3
           [1 # 1; 2 # 1; 3 # 1]%Q).
  - simpl. lia.
  - reflexivity.
  - simpl. lia.
Defined.

(** X4: when the chunk file holds more chunks than the matrix, of shape
    (N, D) with D the length of the query vector, has rows, [retrieve]
    raises nothing and only ever returns chunks that have a row: the chunks
    past the last row are out of reach of every query. *)
Theorem retrieve_ignores_chunks_without_row (self : RAGEngine)
    (query : string) (top_k : Z) (similarities : list Q) :
  (array_len (embeddings self) <= length (chunks self))%nat ->
  np_dot (embeddings self) (embedding_model self query) = Ok (Vector similarities) ->
  exists results,
    retrieve self query top_k = Ok results /\
    Forall (fun r => exists i : nat,
              (i < array_len (embeddings self))%nat /\
              chunks self !! i = Some (fst r) /\
              snd r = score_at similarities i) results.
Proof.
  intros Hlen Hdot.
  destruct (retrieve_positions self query top_k similarities Hlen Hdot)
    as (results & Hres & H2).
  exists results. split; [exact Hres|].
  destruct (top_indices_facts similarities (argsort similarities) (- top_k)
              (argsort_spec similarities)) as (Hlt & _ & _).
  rewrite (np_dot_length _ _ _ Hdot) in Hlt.
  clear Hres. revert Hlt.
  induction H2 as [|i r top rs Hr _ IH]; intros Hlt; [constructor|].
  apply Forall_cons in Hlt as [Hi Hlt].
  constructor; [exists i; split; [exact Hi|exact Hr]|apply IH, Hlt].
Qed.

Lemma retrieve_ignores_chunks_without_row_witness :
  exists results,
    retrieve surplus_engine "q" 10 = Ok results /\
    Forall (fun r => exists i : nat,
              (i < 2)%nat /\
              five_chunks !! i = Some (fst r) /\
              snd r = score_at [1 # 2; 1 # 3]%Q i) results.
Proof.
  apply (retrieve_ignores_chunks_without_row surplus_engine "q" 10
           [1 # 2; 1 # 3]%Q).
  - simpl. lia.
  - reflexivity.
Defined.

(** X5: a matrix whose last axis does not have the length of the query
    vector (for a matrix of rows: whose rows do not have that length) makes
    [retrieve] fail with a [ValueError], for every [top_k] and before any
    chunk is looked up. *)
Theorem retrieve_dimension_mismatch (self : RAGEngine)
    (query : string) (top_k : Z) :
  last_axis (embeddings self) <> length (embedding_model self query) ->
  exists msg, retrieve self query top_k = Err (ValueError msg).
Proof.
  intros Hne. unfold retrieve, np_dot.
  destruct (Nat.eqb_spec (last_axis (embeddings self))
              (length (embedding_model self query))) as [Heq|_];
    [contradiction|].
  simpl. eexists. reflexivity.
Qed.

Lemma retrieve_dimension_mismatch_witness :
  exists msg, retrieve wide_query_engine "q" 3 = Err (ValueError msg).
Proof.
  apply (retrieve_dimension_mismatch wide_query_engine "q" 3).
  simpl. lia.
Defined.

(** X6: for [top_k <= 0] the slice [[-top_k:]] drops the [-top_k] lowest
    scores instead of keeping none: on an index of N chunks with a matrix
    of shape (N, D), D being the length of the query vector, [retrieve]
    returns [max(N + top_k, 0)] pairs, so all N of them for [top_k = 0]. *)
Theorem retrieve_nonpositive_count (self : RAGEngine)
    (query : string) (top_k : Z) (similarities : list Q) :
  length (chunks self) = array_len (embeddings self) ->
  np_dot (embeddings self) (embedding_model self query) = Ok (Vector similarities) ->
  top_k <= 0 ->
  exists results,
    retrieve self query top_k = Ok results /\
    Z.of_nat (length results) = Z.max (Z.of_nat (length (chunks self)) + top_k) 0.
Proof.
  intros Hlen Hdot Hk.
  destruct (retrieve_selected self query top_k similarities Hlen Hdot)
    as (results & Hres & H2).
  exists results. split; [exact Hres|].
  pose proof (np_dot_length _ _ _ Hdot) as Hn.
  rewrite <- (Forall2_length _ _ _ H2), length_rev.
  rewrite py_slice_nonpos_length by exact Hk.
  rewrite argsort_length, Hn, Hlen. lia.
Qed.

Lemma retrieve_nonpositive_count_witness :
  exists results,
    retrieve five_engine "q" 0 = Ok results /\
    Z.of_nat (length results) = Z.max (5 + 0) 0.
Proof.
  apply (retrieve_nonpositive_count five_engine "q" 0
           [9 # 10; 1 # 10; 5 # 10; 7 # 10; 2 # 10]%Q);
    [reflexivity|reflexivity|lia].
Defined.

(** * Further properties of chunking *)

(** The chunks of a split section, one per start of the range. *)
Lemma chunk_rule_section_split {token : Type}
    (encoding_encode : string -> list token) (encoding_decode : list token -> string)
    (rule_data : Rule) (max_tokens overlap : Z) :
  max_tokens < count_tokens encoding_encode (rule_full_text rule_data) ->
  0 < max_tokens - overlap ->
  exists cs,
    chunk_rule_section encoding_encode encoding_decode rule_data max_tokens overlap
      = Ok cs /\
    length cs = range_len (count_tokens encoding_encode (rule_full_text rule_data))
                          (max_tokens - overlap) /\
    forall k : nat,
      (k < range_len (count_tokens encoding_encode (rule_full_text rule_data))
                     (max_tokens - overlap))%nat ->
      cs !! k = Some (window encoding_decode rule_data (rule_title rule_data)
                        (encoding_encode (rule_full_text rule_data)) max_tokens k
                        (Z.of_nat k * (max_tokens - overlap))).
Proof.
  intros Hlong Hstride. rewrite chunk_rule_section_long by exact Hlong.
  unfold count_tokens, py_range.
  destruct (max_tokens - overlap =? 0) eqn:E; [lia|]. simpl.
  eexists. split; [reflexivity|]. split.
  - rewrite length_imap, length_map, length_seq. reflexivity.
  - intros k Hk. rewrite list_lookup_imap, list_lookup_fmap.
    rewrite lookup_seq_lt by exact Hk. reflexivity.
Qed.

(** Whatever the parameters, an emitted chunk is tagged as a rule of the
    SRD, filed under the section title, and has no [name]. *)
Lemma chunk_rule_section_metadata {token : Type}
    (encoding_encode : string -> list token) (encoding_decode : list token -> string)
    (rule_data : Rule) (max_tokens overlap : Z) (cs : list Chunk) :
  chunk_rule_section encoding_encode encoding_decode rule_data max_tokens overlap
    = Ok cs ->
  Forall (fun c =>
            chunk_metadata c !! "type" = Some (JStr "rule") /\
            chunk_metadata c !! "source" = Some (JStr "SRD 5e") /\
            chunk_metadata c !! "section" = Some (JStr (rule_title rule_data)) /\
            chunk_metadata c !! "url"
              = Some (JStr (api_base +:+ default "" (rule_url rule_data))) /\
            chunk_metadata c !! "name" = None) cs.
Proof.
  destruct (Z.le_gt_cases
              (count_tokens encoding_encode (rule_full_text rule_data)) max_tokens)
    as [Hshort|Hlong].
  - unfold chunk_rule_section. apply Z.leb_le in Hshort. rewrite Hshort.
    intros [= <-]. constructor; [|constructor]. repeat split.
  - rewrite chunk_rule_section_long by exact Hlong.
    destruct (py_range _ _) as [starts|e]; simpl; [|discriminate].
    intros [= <-]. apply Forall_lookup. intros k c Hk.
    rewrite list_lookup_imap in Hk.
    destruct (starts !! k) as [i|]; [|discriminate].
    injection Hk as <-. repeat split.
Qed.

(** X7: with [0 <= overlap < max_tokens], no token of a split section is
    lost: every token position lies in the window of some emitted chunk,
    whose text is the decoding of exactly the tokens of that window. *)
Theorem chunk_rule_section_covers_every_token {token : Type}
    (encoding_encode : string -> list token) (encoding_decode : list token -> string)
    (rule_data : Rule) (max_tokens overlap : Z) :
  0 <= overlap < max_tokens ->
  max_tokens < count_tokens encoding_encode (rule_full_text rule_data) ->
  exists cs,
    chunk_rule_section encoding_encode encoding_decode rule_data max_tokens overlap
      = Ok cs /\
    forall p : nat,
      (p < length (encoding_encode (rule_full_text rule_data)))%nat ->
      exists (k : nat) (c : Chunk),
        cs !! k = Some c /\
        Z.of_nat k * (max_tokens - overlap) <= Z.of_nat p
          < Z.of_nat k * (max_tokens - overlap) + chunk_token_count c /\
        chunk_text c =
          encoding_decode
            (take (Z.to_nat (chunk_token_count c))
               (drop (Z.to_nat (Z.of_nat k * (max_tokens - overlap)))
                  (encoding_encode (rule_full_text rule_data)))).
Proof.
  intros Hov Hlong.
  destruct (chunk_rule_section_split encoding_encode encoding_decode rule_data
              max_tokens overlap Hlong) as (cs & Hcs & _ & Hwin); [lia|].
  exists cs. split; [exact Hcs|]. intros p Hp.
  unfold count_tokens in *.
  set (tokens := encoding_encode (rule_full_text rule_data)) in *.
  set (n := Z.of_nat (length tokens)) in *.
  set (stride := max_tokens - overlap) in *.
  assert (0 < stride) as Hstride by (unfold stride; lia).
  assert (stride <= max_tokens) as Hsm by (unfold stride; lia).
  pose proof (Z.mul_div_le (Z.of_nat p) stride Hstride) as Hlo.
  pose proof (Z.mul_succ_div_gt (Z.of_nat p) stride Hstride) as Hhi.
  assert (0 <= Z.of_nat p / stride) as Hk0 by (apply Z.div_pos; lia).
  assert (Z.of_nat p / stride < (n + stride - 1) / stride) as Hkc.
  { replace (n + stride - 1) with ((n - 1) + 1 * stride) by lia.
    rewrite Z.div_add by lia.
    assert (Z.of_nat p / stride <= (n - 1) / stride)
      by (apply Z.div_le_mono; lia).
    lia. }
  exists (Z.to_nat (Z.of_nat p / stride)).
  eexists. split.
  { apply Hwin. unfold range_len. destruct (0 <? stride) eqn:E; lia. }
  rewrite Z2Nat.id by exact Hk0.
  assert (0 <= Z.of_nat p / stride * stride <= Z.of_nat (length tokens)) as Hb
    by (fold n; nia).
  unfold window. simpl.
  rewrite py_slice_window_length by (try assumption; lia).
  rewrite py_slice_window by (try assumption; lia).
  fold n. split; [nia|].
  f_equal. rewrite (Z.min_comm max_tokens).
  destruct (Z.le_ge_cases max_tokens (n - Z.of_nat p / stride * stride)) as [H|H].
  - rewrite Z.min_r by exact H. reflexivity.
  - rewrite Z.min_l by lia.
    rewrite !take_ge; [reflexivity| |]; rewrite length_drop; lia.
Qed.

Lemma chunk_rule_section_covers_every_token_witness :
  exists cs,
    chunk_rule_section char_encode char_decode (test_rule 3) 4 2 = Ok cs /\
    forall p : nat,
      (p < length (char_encode (rule_full_text (test_rule 3))))%nat ->
      exists (k : nat) (c : Chunk),
        cs !! k = Some c /\
        Z.of_nat k * (4 - 2) <= Z.of_nat p < Z.of_nat k * (4 - 2) + chunk_token_count c /\
        chunk_text c =
          char_decode
            (take (Z.to_nat (chunk_token_count c))
               (drop (Z.to_nat (Z.of_nat k * (4 - 2)))
                  (char_encode (rule_full_text (test_rule 3))))).
Proof.
  apply (chunk_rule_section_covers_every_token char_encode char_decode
           (test_rule 3) 4 2).
  - lia.
  - vm_compute. reflexivity.
Defined.

(** X8: with a negative [overlap] the stride exceeds the window and tokens
    are dropped between windows without any error: the token right after
    the first window is in no chunk. *)
Theorem chunk_rule_section_negative_overlap_drops_tokens {token : Type}
    (encoding_encode : string -> list token) (encoding_decode : list token -> string)
    (rule_data : Rule) (max_tokens overlap : Z) :
  overlap < 0 -> 0 <= max_tokens ->
  max_tokens < count_tokens encoding_encode (rule_full_text rule_data) ->
  exists cs,
    chunk_rule_section encoding_encode encoding_decode rule_data max_tokens overlap
      = Ok cs /\
    forall (k : nat) (c : Chunk),
      cs !! k = Some c ->
      ~ (Z.of_nat k * (max_tokens - overlap) <= max_tokens
           < Z.of_nat k * (max_tokens - overlap) + chunk_token_count c).
Proof.
  intros Hov Hmax Hlong.
  destruct (chunk_rule_section_split encoding_encode encoding_decode rule_data
              max_tokens overlap Hlong) as (cs & Hcs & Hlen & Hwin); [lia|].
  exists cs. split; [exact Hcs|]. intros k c Hk.
  assert (k < length cs)%nat as Hklt by (eapply lookup_lt_Some, Hk).
  rewrite Hlen in Hklt. rewrite (Hwin k Hklt) in Hk. injection Hk as <-.
  assert (0 < max_tokens - overlap) as Hstride by lia.
  pose proof (range_len_bound _ _ k Hstride Hklt) as Hin.
  unfold count_tokens in *.
  unfold window. simpl.
  rewrite py_slice_window_length by lia.
  destruct k as [|k]; [lia|nia].
Qed.

Lemma chunk_rule_section_negative_overlap_drops_tokens_witness :
  exists cs,
    chunk_rule_section char_encode char_decode (test_rule 10) 4 (-2) = Ok cs /\
    forall (k : nat) (c : Chunk),
      cs !! k = Some c ->
      ~ (Z.of_nat k * (4 - -2) <= 4 < Z.of_nat k * (4 - -2) + chunk_token_count c).
Proof.
  apply (chunk_rule_section_negative_overlap_drops_tokens char_encode char_decode
           (test_rule 10) 4 (-2)).
  - lia.
  - lia.
  - vm_compute. reflexivity.
Defined.

Lemma chunk_rule_section_negative_stride_witness :
  chunk_rule_section char_encode char_decode (test_rule 10) 10 20 = Ok [].
Proof.
  apply (chunk_rule_section_negative_stride char_encode char_decode (test_rule 10) 10 20).
  - vm_compute. reflexivity.
  - lia.
Defined.

(** With a positive stride and [0 <= max_tokens] nothing is raised and at
    least one chunk comes out. *)
Lemma chunk_rule_section_ok {token : Type}
    (encoding_encode : string -> list token) (encoding_decode : list token -> string)
    (rule_data : Rule) (max_tokens overlap : Z) :
  0 <= max_tokens -> overlap < max_tokens ->
  exists cs,
    chunk_rule_section encoding_encode encoding_decode rule_data max_tokens overlap
      = Ok cs /\
    cs <> [].
Proof.
  intros Hmax Hov.
  destruct (Z.le_gt_cases
              (count_tokens encoding_encode (rule_full_text rule_data)) max_tokens)
    as [Hshort|Hlong].
  - destruct (chunk_rule_section_short _ encoding_encode encoding_decode rule_data
                max_tokens overlap Hshort) as (c & Hc & _).
    exists [c]. split; [exact Hc|discriminate].
  - destruct (chunk_rule_section_split encoding_encode encoding_decode rule_data
                max_tokens overlap Hlong) as (cs & Hcs & Hlen & _); [lia|].
    exists cs. split; [exact Hcs|]. intros ->. simpl in Hlen.
    unfold range_len in Hlen.
    destruct (0 <? max_tokens - overlap) eqn:E; [|lia].
    assert (0 < (count_tokens encoding_encode (rule_full_text rule_data)
                 + (max_tokens - overlap) - 1) / (max_tokens - overlap))
      by (apply Z.div_str_pos; lia).
    lia.
Qed.

(** X9: with [0 <= max_tokens] and [overlap < max_tokens] (the defaults 512
    and 50 among them) [chunk_rule_section] raises nothing and emits at
    least one chunk for every record, each tagged as a rule of the SRD,
    filed under the section title, with the record's URL and without a
    [name] key. *)
Theorem chunk_rule_section_never_empty {token : Type}
    (encoding_encode : string -> list token) (encoding_decode : list token -> string)
    (rule_data : Rule) (max_tokens overlap : Z) :
  0 <= max_tokens -> overlap < max_tokens ->
  exists cs,
    chunk_rule_section encoding_encode encoding_decode rule_data max_tokens overlap
      = Ok cs /\
    cs <> [] /\
    Forall (fun c =>
              chunk_metadata c !! "type" = Some (JStr "rule") /\
              chunk_metadata c !! "source" = Some (JStr "SRD 5e") /\
              chunk_metadata c !! "section" = Some (JStr (rule_title rule_data)) /\
              chunk_metadata c !! "url"
                = Some (JStr (api_base +:+ default "" (rule_url rule_data))) /\
              chunk_metadata c !! "name" = None) cs.
Proof.
  intros Hmax Hov.
  destruct (chunk_rule_section_ok encoding_encode encoding_decode rule_data
              max_tokens overlap Hmax Hov) as (cs & Hcs & Hne).
  exists cs. split; [exact Hcs|]. split; [exact Hne|].
  eapply chunk_rule_section_metadata, Hcs.
Qed.

Lemma chunk_rule_section_never_empty_witness :
  exists cs,
    chunk_rule_section char_encode char_decode (test_rule 1095) 512 50 = Ok cs /\
    cs <> [].
Proof.
  destruct (chunk_rule_section_never_empty char_encode char_decode
              (test_rule 1095) 512 50) as (cs & Hcs & Hne & _); [lia|lia|].
  exists cs. split; [exact Hcs|exact Hne].
Defined.

(** The parts of a monster's text once the first armor class entry is known. *)
Lemma monster_desc_parts_eq (repr_other : json -> string) (monster_data : Monster)
    (ac : ArmorClass) :
  py_getitem (get (monster_armor_class monster_data) [mkArmorClass None]) 0 = Ok ac ->
  monster_desc_parts repr_other monster_data =
  Ok ([ "# " +:+ get (monster_name monster_data) "Unknown Monster";
        "*" +:+ get (monster_size monster_data) "" +:+ " "
            +:+ get (monster_type monster_data) "" +:+ ", "
            +:+ get (monster_alignment monster_data) "" +:+ "*";
        nl +:+ "**Armor Class:** " +:+ py_str repr_other (get (ac_value ac) (JStr "N/A"));
        "**Hit Points:** "
          +:+ py_str repr_other (get (monster_hit_points monster_data) (JStr "N/A"));
        "**Speed:** " +:+ py_str repr_other (get (monster_speed monster_data) (JDict []));
        "**Challenge Rating:** "
          +:+ py_str repr_other
                (get (monster_challenge_rating monster_data) (JStr "N/A"));
        nl +:+ "**Ability Scores:**" ]
      ++ map (ability_line monster_data) abilities
      ++ (if truthy (monster_special_abilities monster_data)
          then (nl +:+ "**Special Abilities:**")
                 :: map (feature_line repr_other)
                      (get (monster_special_abilities monster_data) [])
          else [])
      ++ (if truthy (monster_actions monster_data)
          then (nl +:+ "**Actions:**")
                 :: map (feature_line repr_other) (get (monster_actions monster_data) [])
          else [])).
Proof.
  intros Hac. unfold monster_desc_parts. rewrite Hac.
  cbv beta iota zeta delta [bind]. f_equal.
  destruct (truthy (monster_special_abilities monster_data)),
           (truthy (monster_actions monster_data));
    rewrite <- ?app_assoc, ?app_nil_r; reflexivity.
Qed.

(** X10: [chunk_monster] raises [IndexError] exactly on a record whose
    [armor_class] is an empty list.  A record without [armor_class] is
    chunked with the line ["**Armor Class:** N/A"], and of a non-empty
    [armor_class] list only the first entry is rendered. *)
Theorem chunk_monster_armor_class {token : Type}
    (encoding_encode : string -> list token) (repr_other : json -> string)
    (monster_data : Monster) :
  (chunk_monster encoding_encode repr_other monster_data = Err IndexError <->
   monster_armor_class monster_data = Some []) /\
  (monster_armor_class monster_data = None ->
   exists c,
     chunk_monster encoding_encode repr_other monster_data = Ok c /\
     contains (chunk_text c) (nl +:+ "**Armor Class:** N/A")) /\
  (forall ac rest,
     monster_armor_class monster_data = Some (ac :: rest) ->
     exists c,
       chunk_monster encoding_encode repr_other monster_data = Ok c /\
       contains (chunk_text c)
         (nl +:+ "**Armor Class:** "
             +:+ py_str repr_other (default (JStr "N/A") (ac_value ac)))).
Proof.
  assert (forall ac,
            py_getitem (get (monster_armor_class monster_data) [mkArmorClass None]) 0
              = Ok ac ->
            exists c,
              chunk_monster encoding_encode repr_other monster_data = Ok c /\
              contains (chunk_text c)
                (nl +:+ "**Armor Class:** "
                    +:+ py_str repr_other (default (JStr "N/A") (ac_value ac))))
    as Hok.
  { intros ac Hac. unfold chunk_monster.
    rewrite (monster_desc_parts_eq repr_other monster_data ac Hac).
    cbv beta iota zeta delta [bind].
    eexists. split; [reflexivity|]. cbn [chunk_text].
    apply join_contains. do 2 apply list_elem_of_further. apply list_elem_of_here. }
  split; [|split].
  - split.
    + intros Herr.
      destruct (monster_armor_class monster_data) as [[|ac rest]|] eqn:E;
        [reflexivity| |].
      * destruct (Hok ac) as (c & Hc & _); [reflexivity|]. congruence.
      * destruct (Hok (mkArmorClass None)) as (c & Hc & _); [reflexivity|].
        congruence.
    + intros E. unfold chunk_monster, monster_desc_parts. rewrite E. reflexivity.
  - intros E. apply (Hok (mkArmorClass None)). rewrite E. reflexivity.
  - intros ac rest E. apply (Hok ac). rewrite E. reflexivity.
Qed.

Lemma chunk_monster_armor_class_witness :
  chunk_monster char_encode repr_placeholder unarmored_monster = Err IndexError /\
  exists c,
    chunk_monster char_encode repr_placeholder test_monster = Ok c /\
    contains (chunk_text c) (nl +:+ "**Armor Class:** 15").
Proof.
  split.
  - apply (chunk_monster_armor_class char_encode repr_placeholder unarmored_monster).
    reflexivity.
  - destruct (chunk_monster_armor_class char_encode repr_placeholder test_monster)
      as (_ & _ & Hsome).
    apply (Hsome (mkArmorClass (Some (JInt 15))) []). reflexivity.
Defined.

Lemma join_app (sep : string) (l1 l2 : list string) :
  l1 <> [] -> l2 <> [] ->
  join sep (l1 ++ l2) = join sep l1 +:+ sep +:+ join sep l2.
Proof.
  intros H1 H2. induction l1 as [|p l1 IH]; [congruence|].
  destruct l1 as [|q l1].
  - destruct l2 as [|r l2]; [congruence|]. reflexivity.
  - change (join sep ((p :: q :: l1) ++ l2))
      with (p +:+ sep +:+ join sep ((q :: l1) ++ l2)).
    rewrite IH by discriminate.
    change (join sep (p :: q :: l1)) with (p +:+ sep +:+ join sep (q :: l1)).
    rewrite !string_app_assoc. reflexivity.
Qed.

(** X11: a non-empty [higher_level] only appends to the text: the chunk
    text of a spell is the text of the same spell without [higher_level],
    followed by a blank line, the header ["**At Higher Levels:**"] and the
    given lines, one per line. *)
Theorem chunk_spell_higher_level_appended {token : Type}
    (encoding_encode : string -> list token)
    (name : option string) (level : option Z) (school : option School)
    (casting_time range duration : option string)
    (components desc : option (list string)) (url : option string)
    (line : string) (lines : list string) :
  chunk_text (chunk_spell encoding_encode
                (mkSpell name level school casting_time range duration
                         components desc (Some (line :: lines)) url)) =
  chunk_text (chunk_spell encoding_encode
                (mkSpell name level school casting_time range duration
                         components desc None url))
    +:+ nl +:+ nl +:+ "**At Higher Levels:**" +:+ nl +:+ join nl (line :: lines).
Proof.
  unfold chunk_spell, spell_desc_parts. simpl.
  rewrite join_app.
  - reflexivity.
  - destruct (truthy desc); discriminate.
  - discriminate.
Qed.

(** * Further properties of answer synthesis *)

Lemma round_half_even_close (q : Q) :
  (inject_Z (round_half_even q) - q <= 1 # 2)%Q /\
  (q - inject_Z (round_half_even q) <= 1 # 2)%Q.
Proof.
  unfold round_half_even.
  pose proof (Qfloor_le q) as Hlo. pose proof (Qlt_floor q) as Hhi.
  rewrite inject_Z_plus in Hhi. change (inject_Z 1) with 1%Q in Hhi.
  destruct (Qcompare_spec (q - inject_Z (Qfloor q)) (1 # 2)) as [He|Hl|Hg].
  - destruct (Z.even (Qfloor q)); rewrite ?inject_Z_plus;
      change (inject_Z 1) with 1%Q; lra.
  - lra.
  - rewrite inject_Z_plus. change (inject_Z 1) with 1%Q. lra.
Qed.

Lemma round_half_even_mono (q q' : Q) :
  (q <= q')%Q -> round_half_even q <= round_half_even q'.
Proof.
  intros Hle.
  pose proof (Qfloor_resp_le _ _ Hle) as Hfl.
  pose proof (Qfloor_le q) as Hlo. pose proof (Qlt_floor q) as Hhi.
  pose proof (Qfloor_le q') as Hlo'. pose proof (Qlt_floor q') as Hhi'.
  rewrite inject_Z_plus in Hhi, Hhi'. change (inject_Z 1) with 1%Q in Hhi, Hhi'.
  unfold round_half_even.
  destruct (Z.eq_dec (Qfloor q) (Qfloor q')) as [Heq|Hne].
  - rewrite <- Heq.
    destruct (Qcompare_spec (q - inject_Z (Qfloor q)) (1 # 2)) as [He|Hl|Hg];
      destruct (Qcompare_spec (q' - inject_Z (Qfloor q)) (1 # 2)) as [He'|Hl'|Hg'];
      try (destruct (Z.even (Qfloor q))); try lia; exfalso; lra.
  - assert (Qfloor q + 1 <= Qfloor q') by lia.
    destruct (Qcompare (q - inject_Z (Qfloor q)) (1 # 2));
      destruct (Qcompare (q' - inject_Z (Qfloor q')) (1 # 2));
      try (destruct (Z.even (Qfloor q))); try (destruct (Z.even (Qfloor q'))); lia.
Qed.

Lemma py_round3_close (score : Q) :
  (Qabs (py_round3 score - score) <= 1 # 2000)%Q.
Proof.
  destruct (round_half_even_close (score * 1000)) as [H1 H2].
  unfold py_round3.
  set (r := round_half_even (score * 1000)) in *.
  assert (Qmake r 1000 == inject_Z r * (1 # 1000))%Q as ->
    by (unfold Qeq; simpl; lia).
  apply Qabs_Qle_condition. split; lra.
Qed.

Lemma py_round3_mono (s s' : Q) : (s <= s')%Q -> (py_round3 s <= py_round3 s')%Q.
Proof.
  intros H. unfold py_round3, Qle. simpl.
  assert (round_half_even (s * 1000) <= round_half_even (s' * 1000))
    by (apply round_half_even_mono; lra).
  lia.
Qed.

Lemma string_rev_app (s t : string) : String.rev_app s t = String.rev s +:+ t.
Proof.
  revert t. induction s as [|a s IH]; intros t; [reflexivity|].
  unfold String.rev.
  change (String.rev_app s (String a t) = String.rev_app s (String a "") +:+ t).
  rewrite (IH (String a t)), (IH (String a "")), string_app_assoc. reflexivity.
Qed.

Lemma string_rev_cons (a : ascii) (s : string) :
  String.rev (String a s) = String.rev s +:+ String a "".
Proof. unfold String.rev at 1. apply (string_rev_app s (String a "")). Qed.

Lemma string_rev_append (s t : string) :
  String.rev (s +:+ t) = String.rev t +:+ String.rev s.
Proof.
  induction s as [|a s IH].
  - change (String.rev t = String.rev t +:+ ""). rewrite string_app_nil_r. reflexivity.
  - change (String.rev (String a (s +:+ t)) = String.rev t +:+ String.rev (String a s)).
    rewrite !string_rev_cons, IH, string_app_assoc. reflexivity.
Qed.

Lemma string_rev_involutive (s : string) : String.rev (String.rev s) = s.
Proof.
  induction s as [|a s IH]; [reflexivity|].
  rewrite string_rev_cons, string_rev_append, IH. reflexivity.
Qed.

Lemma all_space_append (s t : string) :
  all_space (s +:+ t) = all_space s && all_space t.
Proof.
  induction s as [|a s IH]; [reflexivity|].
  change (is_space a && all_space (s +:+ t) = is_space a && all_space s && all_space t).
  rewrite IH. apply andb_assoc.
Qed.

Lemma all_space_rev (s : string) : all_space (String.rev s) = all_space s.
Proof.
  induction s as [|a s IH]; [reflexivity|].
  rewrite string_rev_cons, all_space_append, IH. simpl.
  rewrite andb_true_r. apply andb_comm.
Qed.

Lemma lstrip_split (s : string) :
  exists before, s = before +:+ lstrip s /\ all_space before = true.
Proof.
  induction s as [|a s (before & Hs & Hb)].
  - exists "". split; reflexivity.
  - simpl. destruct (is_space a) eqn:E.
    + exists (String a before). split.
      * change (String a s = String a (before +:+ lstrip s)). rewrite <- Hs. reflexivity.
      * simpl. rewrite E, Hb. reflexivity.
    + exists "". split; reflexivity.
Qed.

Lemma lstrip_head (s : string) :
  lstrip s = "" \/ exists c rest, lstrip s = String c rest /\ is_space c = false.
Proof.
  induction s as [|a s IH]; [left; reflexivity|].
  simpl. destruct (is_space a) eqn:E; [exact IH|].
  right. exists a, s. split; [reflexivity|exact E].
Qed.

(** [strip] removes whitespace at both ends and nothing else. *)
Lemma strip_spec (s : string) :
  exists before after,
    s = before +:+ strip s +:+ after /\
    all_space before = true /\ all_space after = true /\
    (strip s = "" \/ exists c rest, strip s = String c rest /\ is_space c = false) /\
    (strip s = "" \/ exists rest c, strip s = rest +:+ String c "" /\ is_space c = false).
Proof.
  destruct (lstrip_split s) as (before & Hs & Hb).
  destruct (lstrip_split (String.rev (lstrip s))) as (sp & Hu & Hsp).
  unfold strip. set (a := String.rev (lstrip (String.rev (lstrip s)))).
  assert (lstrip s = a +:+ String.rev sp) as Ht.
  { rewrite <- (string_rev_involutive (lstrip s)). rewrite Hu at 1.
    rewrite string_rev_append. reflexivity. }
  exists before, (String.rev sp). split; [|split; [|split; [|split]]].
  - rewrite <- Ht. exact Hs.
  - exact Hb.
  - rewrite all_space_rev. exact Hsp.
  - destruct a as [|d a'] eqn:Ea; [left; reflexivity|].
    right. exists d, a'. split; [reflexivity|].
    destruct (lstrip_head s) as [H0|(c & rest & Hc & Hsc)].
    + rewrite H0 in Ht. discriminate Ht.
    + rewrite Hc in Ht. injection Ht as -> _. exact Hsc.
  - subst a.
    destruct (lstrip_head (String.rev (lstrip s))) as [H0|(c & rest & Hc & Hsc)].
    + left. rewrite H0. reflexivity.
    + right. rewrite Hc, string_rev_cons. exists (String.rev rest), c.
      split; [reflexivity|exact Hsc].
Qed.

(** X12: whenever [generate_answer] returns a response, whatever the
    generation service did, [context_used] and the number of sources both
    equal the number of ranked chunks passed in, and the source at position
    [i] is the one of the chunk ranked [i], numbered [i + 1]. *)
Theorem generate_answer_response_shape
    (requests_post : string -> Payload -> Z -> http_outcome)
    (self : RAGEngine) (query : string) (context_chunks : list (Chunk * Q))
    (temperature : Q) (response : AnswerResponse) :
  generate_answer requests_post self query context_chunks temperature = Ok response ->
  context_used response = Z.of_nat (length context_chunks) /\
  length (sources response) = length context_chunks /\
  forall (i : nat) (src : Source),
    sources response !! i = Some src ->
    doc_id src = Z.of_nat i + 1 /\
    exists chunk score,
      context_chunks !! i = Some (chunk, score) /\
      chunk_metadata chunk !! "type" = Some (source_type src) /\
      chunk_metadata chunk !! "source" = Some (source_source src).
Proof.
  unfold generate_answer.
  destruct (build_context context_chunks) as [[parts srcs]|e] eqn:Hctx; simpl;
    [|discriminate].
  intros [= <-]. simpl.
  destruct (build_context_sources _ _ _ Hctx) as [Hlen Hsrc].
  split; [reflexivity|]. split; [exact Hlen|].
  intros i src Hi.
  assert (i < length context_chunks)%nat as Hlt
    by (rewrite <- Hlen; eapply lookup_lt_Some, Hi).
  destruct (lookup_lt_is_Some_2 _ _ Hlt) as [[chunk score] Hc].
  destruct (Hsrc i chunk score Hc) as (src' & Hs' & Hid & Hty & Hso & _).
  rewrite Hi in Hs'. injection Hs' as <-.
  split; [exact Hid|]. exists chunk, score. split; [exact Hc|]. split; assumption.
Qed.

Lemma generate_answer_response_shape_witness :
  exists response,
    generate_answer post_reply five_engine "q"
      [(plain_chunk "c0", 9 # 10); (plain_chunk "c3", 7 # 10)]%Q (3 # 10)%Q
      = Ok response /\
    context_used response = 2 /\
    length (sources response) = 2%nat.
Proof.
  eexists. split; [vm_compute; reflexivity|].
  edestruct (generate_answer_response_shape post_reply five_engine "q"
               [(plain_chunk "c0", 9 # 10); (plain_chunk "c3", 7 # 10)]%Q (3 # 10)%Q)
    as (Hused & Hlen & _); [vm_compute; reflexivity|].
  split; [exact Hused|exact Hlen].
Defined.

(** X13: the name shown for a source depends on the kind of chunk.  A chunk
    made by [chunk_rule_section] is always listed as ["Unknown"], since the
    section title is stored under [section] and not under [name]; a chunk
    made by [chunk_spell] is listed under the spell's name, or under
    [None], not ["Unknown"], when the record has no name. *)
Theorem generate_answer_source_names {token : Type}
    (encoding_encode : string -> list token) (encoding_decode : list token -> string)
    (requests_post : string -> Payload -> Z -> http_outcome)
    (self : RAGEngine) (query : string) (context_chunks : list (Chunk * Q))
    (temperature : Q) (response : AnswerResponse)
    (i : nat) (chunk : Chunk) (score : Q) :
  generate_answer requests_post self query context_chunks temperature = Ok response ->
  context_chunks !! i = Some (chunk, score) ->
  exists src,
    sources response !! i = Some src /\
    (forall rule_data max_tokens overlap cs,
       chunk_rule_section encoding_encode encoding_decode rule_data max_tokens overlap
         = Ok cs ->
       chunk ∈ cs ->
       source_type src = JStr "rule" /\ source_name src = JStr "Unknown") /\
    (forall spell_data,
       chunk = chunk_spell encoding_encode spell_data ->
       source_type src = JStr "spell" /\
       source_name src = match spell_name spell_data with
                         | Some name => JStr name
                         | None => JNull
                         end).
Proof.
  unfold generate_answer.
  destruct (build_context context_chunks) as [[parts srcs]|e] eqn:Hctx; simpl;
    [|discriminate].
  intros [= <-] Hi. simpl.
  destruct (build_context_sources _ _ _ Hctx) as [_ Hsrc].
  destruct (Hsrc i chunk score Hi) as (src & Hs & _ & Hty & _ & Hname & _).
  exists src. split; [exact Hs|]. split.
  - intros rule_data max_tokens overlap cs Hcs Hin.
    pose proof (chunk_rule_section_metadata _ _ _ _ _ _ Hcs) as Hmd.
    rewrite Forall_forall in Hmd.
    destruct (Hmd chunk Hin) as (Hrule & _ & _ & _ & Hnone).
    rewrite Hnone in Hname. rewrite Hrule in Hty. injection Hty as <-.
    split; [reflexivity|exact Hname].
  - intros spell_data ->.
    change (Some (JStr "spell") = Some (source_type src)) in Hty.
    injection Hty as <-. split; [reflexivity|].
    rewrite Hname.
    change (chunk_metadata (chunk_spell encoding_encode spell_data) !! "name")
      with (Some (get_json JStr (spell_name spell_data))).
    destruct (spell_name spell_data); reflexivity.
Qed.

Lemma generate_answer_source_names_witness :
  exists response src,
    generate_answer post_reply five_engine "q"
      [(chunk_spell char_encode blank_spell, 1 # 2)%Q] (3 # 10)%Q = Ok response /\
    sources response !! 0%nat = Some src /\
    source_name src = JNull.
Proof.
  destruct (generate_answer post_reply five_engine "q"
              [(chunk_spell char_encode blank_spell, 1 # 2)%Q] (3 # 10)%Q)
    as [response|e] eqn:Hres; [|vm_compute in Hres; discriminate Hres].
  destruct (generate_answer_source_names char_encode char_decode post_reply
              five_engine "q" [(chunk_spell char_encode blank_spell, 1 # 2)%Q]
              (3 # 10)%Q response 0%nat (chunk_spell char_encode blank_spell)
              (1 # 2)%Q Hres eq_refl)
    as (src & Hsrc & _ & Hspell).
  exists response, src. split; [reflexivity|]. split; [exact Hsrc|].
  apply (Hspell blank_spell). reflexivity.
Defined.

(** X14: when the generation service replies, the answer is its [response]
    text without the whitespace at both ends, and nothing else is removed:
    the reply is the answer between two runs of whitespace, and the answer
    neither starts nor ends with whitespace.  A reply without [response]
    gives the empty answer.  Stated for replies made of ASCII characters,
    on which [strip] is Python's [str.strip]. *)
Theorem generate_answer_reply_trimmed
    (requests_post : string -> Payload -> Z -> http_outcome)
    (self : RAGEngine) (query : string) (context_chunks : list (Chunk * Q))
    (temperature : Q) (context_parts : list string) (srcs : list Source)
    (reply : option string) :
  build_context context_chunks = Ok (context_parts, srcs) ->
  requests_post (llm_url self)
    (llm_payload self (_build_prompt query (join nl context_parts)) temperature) 60
    = HttpReply reply ->
  Forall (fun c => (nat_of_ascii c < 128)%nat)
         (list_ascii_of_string (default "" reply)) ->
  exists response before after,
    generate_answer requests_post self query context_chunks temperature = Ok response /\
    sources response = srcs /\
    default "" reply = before +:+ answer response +:+ after /\
    all_space before = true /\ all_space after = true /\
    (answer response = "" \/
     exists c rest, answer response = String c rest /\ is_space c = false) /\
    (answer response = "" \/
     exists rest c, answer response = rest +:+ String c "" /\ is_space c = false) /\
    (reply = None -> answer response = "").
Proof.
  intros Hctx Hpost _.
  destruct (strip_spec (default "" reply))
    as (before & after & Hsplit & Hb & Ha & Hfirst & Hlast).
  unfold generate_answer. rewrite Hctx. simpl.
  unfold _call_llm. rewrite Hpost.
  eexists. exists before, after. split; [reflexivity|]. simpl.
  split; [reflexivity|]. split; [exact Hsplit|].
  split; [exact Hb|]. split; [exact Ha|]. split; [exact Hfirst|].
  split; [exact Hlast|]. intros ->. reflexivity.
Qed.

Lemma generate_answer_reply_trimmed_witness :
  exists response,
    generate_answer post_reply five_engine "q" [(plain_chunk "c0", 9 # 10)%Q] (3 # 10)%Q
      = Ok response /\
    answer response = "Fireball deals 8d6 fire damage.".
Proof.
  edestruct (generate_answer_reply_trimmed post_reply five_engine "q"
               [(plain_chunk "c0", 9 # 10)%Q] (3 # 10)%Q)
    as (response & before & after & Hres & _);
    [vm_compute; reflexivity|reflexivity|repeat constructor|].
  exists response. split; [exact Hres|].
  vm_compute in Hres. injection Hres as <-. reflexivity.
Defined.

(** X15: the relevance score of a source is the score of its chunk rounded
    to a multiple of 1/1000: it differs from the score by at most 1/2000,
    and a higher score never gets a lower relevance score. *)
Theorem relevance_score_rounding
    (requests_post : string -> Payload -> Z -> http_outcome)
    (self : RAGEngine) (query : string) (context_chunks : list (Chunk * Q))
    (temperature : Q) (response : AnswerResponse) :
  generate_answer requests_post self query context_chunks temperature = Ok response ->
  forall (i : nat) (chunk : Chunk) (score : Q),
    context_chunks !! i = Some (chunk, score) ->
    exists src,
      sources response !! i = Some src /\
      (exists n : Z, relevance_score src = Qmake n 1000) /\
      (Qabs (relevance_score src - score) <= 1 # 2000)%Q /\
      forall (j : nat) (chunk' : Chunk) (score' : Q) (src' : Source),
        context_chunks !! j = Some (chunk', score') ->
        sources response !! j = Some src' ->
        (score <= score')%Q -> (relevance_score src <= relevance_score src')%Q.
Proof.
  unfold generate_answer.
  destruct (build_context context_chunks) as [[parts srcs]|e] eqn:Hctx; simpl;
    [|discriminate].
  intros [= <-] i chunk score Hi. simpl.
  destruct (build_context_sources _ _ _ Hctx) as [_ Hsrc].
  destruct (Hsrc i chunk score Hi) as (src & Hs & _ & _ & _ & _ & _ & Hr).
  exists src. split; [exact Hs|]. rewrite Hr. split; [|split].
  - eexists. reflexivity.
  - apply py_round3_close.
  - intros j chunk' score' src' Hj Hs' Hle.
    destruct (Hsrc j chunk' score' Hj) as (src'' & Hs'' & _ & _ & _ & _ & _ & Hr').
    rewrite Hs' in Hs''. injection Hs'' as <-. rewrite Hr'.
    apply py_round3_mono, Hle.
Qed.

Lemma relevance_score_rounding_witness :
  exists response src,
    generate_answer post_reply five_engine "q" [(plain_chunk "c0", 12345 # 10000)%Q]
      (3 # 10)%Q = Ok response /\
    sources response !! 0%nat = Some src /\
    (Qabs (relevance_score src - (12345 # 10000)) <= 1 # 2000)%Q.
Proof.
  destruct (generate_answer post_reply five_engine "q"
              [(plain_chunk "c0", 12345 # 10000)%Q] (3 # 10)%Q)
    as [response|e] eqn:Hres; [|vm_compute in Hres; discriminate Hres].
  destruct (relevance_score_rounding post_reply five_engine "q"
              [(plain_chunk "c0", 12345 # 10000)%Q] (3 # 10)%Q response Hres
              0%nat (plain_chunk "c0") (12345 # 10000)%Q eq_refl)
    as (src & Hsrc & _ & Hclose & _).
  exists response, src. split; [reflexivity|]. split; [exact Hsrc|exact Hclose].
Defined.

(** * Asking a question *)

Lemma np_dot_ok (width : nat) (rows : list (list Q)) (v : list Q) :
  width = length v ->
  np_dot (Array2 width rows) v = Ok (Vector (map (fun row => dot row v) rows)).
Proof.
  intros ->. unfold np_dot. simpl. rewrite Nat.eqb_refl. reflexivity.
Qed.

Lemma selected_have_provenance (cs : list Chunk) (similarities : list Q)
    (top : list nat) (results : list (Chunk * Q)) :
  Forall (fun c => is_Some (chunk_metadata c !! "type") /\
                   is_Some (chunk_metadata c !! "source")) cs ->
  Forall2 (fun i r => cs !! i = Some (fst r) /\ snd r = score_at similarities i)
          top results ->
  Forall has_provenance results.
Proof.
  intros Hcs H2. rewrite Forall_forall in Hcs.
  induction H2 as [|i r top results [Hc _] _ IH]; constructor; [|exact IH].
  apply Hcs. eapply list_elem_of_lookup_2, Hc.
Qed.

Lemma sources_relevance (context_chunks : list (Chunk * Q))
    (context_parts : list string) (srcs : list Source) :
  build_context context_chunks = Ok (context_parts, srcs) ->
  map relevance_score srcs = map (fun entry => py_round3 (snd entry)) context_chunks.
Proof.
  intros Hctx. destruct (build_context_sources _ _ _ Hctx) as [Hlen Hsrc].
  apply list_eq. intros i. rewrite !list_lookup_fmap.
  destruct (context_chunks !! i) as [[chunk score]|] eqn:Hi.
  - destruct (Hsrc i chunk score Hi) as (src & -> & _ & _ & _ & _ & _ & Hr).
    simpl. rewrite Hr. reflexivity.
  - rewrite lookup_ge_None_2; [reflexivity|].
    rewrite Hlen. apply lookup_ge_None_1, Hi.
Qed.

Lemma descending_round (scores : list Q) :
  descending scores -> descending (map py_round3 scores).
Proof.
  unfold descending. apply StronglySorted_fmap.
  intros a b. apply py_round3_mono.
Qed.

(** [ask] on an index whose rows all have a chunk, and whose chunks all
    have the two keys [generate_answer] needs: retrieval, then synthesis at
    temperature 0.3, nothing raised. *)
Lemma ask_ok (requests_post : string -> Payload -> Z -> http_outcome)
    (self : RAGEngine) (query : string) (top_k : Z) (similarities : list Q) :
  (array_len (embeddings self) <= length (chunks self))%nat ->
  Forall (fun c => is_Some (chunk_metadata c !! "type") /\
                   is_Some (chunk_metadata c !! "source")) (chunks self) ->
  np_dot (embeddings self) (embedding_model self query) = Ok (Vector similarities) ->
  exists results context_parts srcs response,
    retrieve self query top_k = Ok results /\
    Forall2 (fun i r => chunks self !! i = Some (fst r) /\
                        snd r = score_at similarities i)
            (rev (py_slice (argsort similarities) (Some (- top_k)) None))
            results /\
    build_context results = Ok (context_parts, srcs) /\
    generate_answer requests_post self query results (3 # 10) = Ok response /\
    sources response = srcs /\
    context_used response = Z.of_nat (length results) /\
    ask requests_post self query top_k = Ok response.
Proof.
  intros Hlen Hprov Hdot.
  destruct (retrieve_positions self query top_k similarities Hlen Hdot)
    as (results & Hres & H2).
  destruct (build_context_ok results (selected_have_provenance _ _ _ _ Hprov H2))
    as (parts & srcs & Hctx).
  exists results, parts, srcs. eexists.
  split; [exact Hres|]. split; [exact H2|]. split; [exact Hctx|].
  unfold ask, generate_answer. rewrite Hres. simpl. rewrite Hctx. simpl.
  repeat split.
Qed.

(** X16: [ask] composes retrieval and synthesis.  On a loaded index of N
    chunks that all carry [type] and [source], with a matrix of shape
    (N, D), D being the length of the query vector, and for [top_k >= 1], it
    returns the response [generate_answer] builds at temperature 0.3 from
    the chunks [retrieve] returns: [context_used] is [min(top_k, N)], there
    is one source per retrieved chunk, and the relevance scores of the
    sources are in descending order. *)
Theorem ask_answers_from_retrieved_chunks
    (requests_post : string -> Payload -> Z -> http_outcome)
    (self : RAGEngine) (query : string) (top_k : Z) (similarities : list Q) :
  length (chunks self) = array_len (embeddings self) ->
  Forall (fun c => is_Some (chunk_metadata c !! "type") /\
                   is_Some (chunk_metadata c !! "source")) (chunks self) ->
  np_dot (embeddings self) (embedding_model self query) = Ok (Vector similarities) ->
  1 <= top_k ->
  exists results response,
    retrieve self query top_k = Ok results /\
    generate_answer requests_post self query results (3 # 10) = Ok response /\
    ask requests_post self query top_k = Ok response /\
    context_used response = Z.min top_k (Z.of_nat (length (chunks self))) /\
    length (sources response) = length results /\
    descending (map relevance_score (sources response)).
Proof.
  intros Hlen Hprov Hdot Hk.
  destruct (ask_ok requests_post self query top_k similarities
              ltac:(lia) Hprov Hdot)
    as (results & parts & srcs & response & Hres & H2 & Hctx & Hgen & Hsrc & Hused
        & Hask).
  exists results, response.
  split; [exact Hres|]. split; [exact Hgen|]. split; [exact Hask|].
  pose proof (np_dot_length _ _ _ Hdot) as Hn.
  split; [|split].
  - rewrite Hused, <- (Forall2_length _ _ _ H2), length_rev.
    rewrite py_slice_last_length by exact Hk.
    rewrite argsort_length, Hn, Hlen. lia.
  - rewrite Hsrc. apply (build_context_sources _ _ _ Hctx).
  - rewrite Hsrc, (sources_relevance _ _ _ Hctx).
    rewrite <- (map_map snd py_round3). apply descending_round.
    destruct (retrieve_descending self query top_k similarities results H2)
      as [Hdesc _].
    exact Hdesc.
Qed.

Lemma ask_answers_from_retrieved_chunks_witness :
  exists results response,
    retrieve five_engine "q" 3 = Ok results /\
    ask post_reply five_engine "q" 3 = Ok response /\
    context_used response = 3.
Proof.
  destruct (ask_answers_from_retrieved_chunks post_reply five_engine "q" 3
              [9 # 10; 1 # 10; 5 # 10; 7 # 10; 2 # 10]%Q)
    as (results & response & Hres & _ & Hask & Hused & _).
  - reflexivity.
  - repeat constructor; eexists; reflexivity.
  - reflexivity.
  - lia.
  - exists results, response. split; [exact Hres|]. split; [exact Hask|exact Hused].
Defined.

(** * The corpus build and the engine it feeds *)

Lemma chunk_spell_srd {token : Type} (encoding_encode : string -> list token)
    (spell_data : Spell) :
  srd_chunk (chunk_spell encoding_encode spell_data).
Proof.
  split; [left; reflexivity|]. split; [reflexivity|].
  exists (get (spell_url spell_data) ""). reflexivity.
Qed.

Lemma chunk_monster_srd {token : Type} (encoding_encode : string -> list token)
    (repr_other : json -> string) (monster_data : Monster) (c : Chunk) :
  chunk_monster encoding_encode repr_other monster_data = Ok c -> srd_chunk c.
Proof.
  unfold chunk_monster.
  destruct (monster_desc_parts repr_other monster_data) as [parts|e]; simpl;
    [|discriminate].
  intros [= <-]. split; [right; left; reflexivity|]. split; [reflexivity|].
  exists (get (monster_url monster_data) ""). reflexivity.
Qed.

Lemma chunk_rule_section_srd {token : Type}
    (encoding_encode : string -> list token) (encoding_decode : list token -> string)
    (rule_data : Rule) (max_tokens overlap : Z) (cs : list Chunk) :
  chunk_rule_section encoding_encode encoding_decode rule_data max_tokens overlap
    = Ok cs ->
  Forall srd_chunk cs.
Proof.
  intros Hcs. eapply Forall_impl; [eapply chunk_rule_section_metadata, Hcs|].
  simpl. intros c (Hty & Hso & _ & Hurl & _).
  split; [right; right; exact Hty|]. split; [exact Hso|]. eexists. exact Hurl.
Qed.

Lemma chunk_monster_ok_iff {token : Type} (encoding_encode : string -> list token)
    (repr_other : json -> string) (monster_data : Monster) :
  is_ok (chunk_monster encoding_encode repr_other monster_data) <->
  monster_armor_class monster_data <> Some [].
Proof.
  split.
  - intros Hok E. unfold chunk_monster, monster_desc_parts in Hok.
    rewrite E in Hok. exact Hok.
  - intros Hne.
    destruct (monster_desc_parts_ok repr_other monster_data Hne) as (parts & Hp & _).
    unfold chunk_monster. rewrite Hp. exact I.
Qed.

Lemma mapM_is_ok {A B} (f : A -> result B) (l : list A) :
  is_ok (mapM f l) <-> Forall (fun x => is_ok (f x)) l.
Proof.
  split.
  - intros Hok. destruct (mapM f l) as [r|e] eqn:E; [|destruct Hok].
    apply mapM_inv in E. clear Hok.
    induction E as [|x y l r Hx _ IH]; constructor; [rewrite Hx; exact I|exact IH].
  - intros H. destruct (mapM_Forall2 f l H) as (r & -> & _). exact I.
Qed.

(** What [step_2_process_and_chunk] returns, file by file. *)
Lemma step_2_inv {token : Type}
    (encoding_encode : string -> list token) (encoding_decode : list token -> string)
    (repr_other : json -> string)
    (spells_file : option (list Spell)) (monsters_file : option (list Monster))
    (rules_file : option (list Rule)) :
  step_2_process_and_chunk encoding_encode encoding_decode repr_other
    spells_file monsters_file rules_file =
  do monster_chunks <- mapM (chunk_monster encoding_encode repr_other)
                            (default [] monsters_file);
  do rule_chunks <- mapM (fun rule => chunk_rule_section encoding_encode
                                        encoding_decode rule 512 50)
                         (default [] rules_file);
  Ok (map (chunk_spell encoding_encode) (default [] spells_file)
        ++ monster_chunks ++ concat rule_chunks).
Proof.
  unfold step_2_process_and_chunk.
  destruct spells_file as [spells|], monsters_file as [monsters|],
           rules_file as [rules|]; simpl;
    repeat match goal with
           | |- context [mapM ?f ?l] => destruct (mapM f l); simpl
           end;
    rewrite ?app_nil_r, <- ?app_assoc; reflexivity.
Qed.

(** X17: [step_2_process_and_chunk] treats a missing raw file like an empty
    one, and fails exactly when some monster record has an empty
    [armor_class] list.  When it succeeds, the corpus is the spell chunks,
    then the monster chunks, then the rule chunks, each group in file order,
    with one chunk per spell and per monster and at least one per rule. *)
Theorem step_2_corpus_layout {token : Type}
    (encoding_encode : string -> list token) (encoding_decode : list token -> string)
    (repr_other : json -> string)
    (spells_file : option (list Spell)) (monsters_file : option (list Monster))
    (rules_file : option (list Rule)) :
  step_2_process_and_chunk encoding_encode encoding_decode repr_other
    spells_file monsters_file rules_file =
  step_2_process_and_chunk encoding_encode encoding_decode repr_other
    (Some (default [] spells_file)) (Some (default [] monsters_file))
    (Some (default [] rules_file)) /\
  (is_ok (step_2_process_and_chunk encoding_encode encoding_decode repr_other
            spells_file monsters_file rules_file) <->
   Forall (fun m => monster_armor_class m <> Some []) (default [] monsters_file)) /\
  (forall all_chunks,
     step_2_process_and_chunk encoding_encode encoding_decode repr_other
       spells_file monsters_file rules_file = Ok all_chunks ->
     exists monster_chunks rule_chunks,
       all_chunks = map (chunk_spell encoding_encode) (default [] spells_file)
                      ++ monster_chunks ++ concat rule_chunks /\
       Forall2 (fun m c => chunk_monster encoding_encode repr_other m = Ok c)
               (default [] monsters_file) monster_chunks /\
       Forall2 (fun rule cs =>
                  chunk_rule_section encoding_encode encoding_decode rule 512 50
                    = Ok cs /\ cs <> [])
               (default [] rules_file) rule_chunks).
Proof.
  assert (Forall (fun rule => is_ok (chunk_rule_section encoding_encode
                                       encoding_decode rule 512 50))
                 (default [] rules_file)) as Hrules.
  { apply Forall_forall. intros rule _.
    destruct (chunk_rule_section_ok encoding_encode encoding_decode rule 512 50)
      as (cs & -> & _); [lia|lia|exact I]. }
  split; [|split].
  - rewrite !step_2_inv. reflexivity.
  - rewrite step_2_inv.
    destruct (mapM_Forall2 _ _ Hrules) as (rcs & Hrcs & _).
    rewrite Hrcs.
    rewrite <- (Forall_iff (fun m => is_ok (chunk_monster encoding_encode
                                              repr_other m)))
      by (intros m; apply chunk_monster_ok_iff).
    rewrite <- mapM_is_ok.
    destruct (mapM (chunk_monster encoding_encode repr_other) _); simpl; tauto.
  - intros all_chunks. rewrite step_2_inv.
    destruct (mapM (chunk_monster encoding_encode repr_other) _) as [mcs|e] eqn:Em;
      simpl; [|discriminate].
    destruct (mapM _ (default [] rules_file)) as [rcs|e] eqn:Er; simpl;
      [|discriminate].
    intros [= <-]. exists mcs, rcs. split; [reflexivity|].
    split; [apply mapM_inv, Em|].
    apply mapM_inv in Er. eapply Forall2_impl; [exact Er|].
    simpl. intros rule cs Hcs. split; [exact Hcs|].
    destruct (chunk_rule_section_ok encoding_encode encoding_decode rule 512 50)
      as (cs' & Hcs' & Hne); [lia|lia|]. congruence.
Qed.

Lemma step_2_corpus_layout_witness :
  step_2_process_and_chunk char_encode char_decode repr_placeholder
    None (Some [unarmored_monster]) None = Err IndexError /\
  exists all_chunks,
    step_2_process_and_chunk char_encode char_decode repr_placeholder
      (Some [test_spell]) None (Some [test_rule 3]) = Ok all_chunks /\
    length all_chunks = 2%nat.
Proof.
  split; [vm_compute; reflexivity|].
  destruct (step_2_corpus_layout char_encode char_decode repr_placeholder
              (Some [test_spell]) None (Some [test_rule 3]))
    as (_ & Hok & Hlayout).
  destruct (step_2_process_and_chunk char_encode char_decode repr_placeholder
              (Some [test_spell]) None (Some [test_rule 3]))
    as [all_chunks|e] eqn:E.
  - exists all_chunks. split; [reflexivity|].
    vm_compute in E. injection E as <-. reflexivity.
  - exfalso. apply Hok. constructor.
Defined.

Lemma step_2_srd {token : Type}
    (encoding_encode : string -> list token) (encoding_decode : list token -> string)
    (repr_other : json -> string)
    (spells_file : option (list Spell)) (monsters_file : option (list Monster))
    (rules_file : option (list Rule)) (all_chunks : list Chunk) :
  step_2_process_and_chunk encoding_encode encoding_decode repr_other
    spells_file monsters_file rules_file = Ok all_chunks ->
  Forall srd_chunk all_chunks.
Proof.
  rewrite step_2_inv.
  destruct (mapM (chunk_monster encoding_encode repr_other) _) as [mcs|e] eqn:Em;
    simpl; [|discriminate].
  destruct (mapM _ (default [] rules_file)) as [rcs|e] eqn:Er; simpl;
    [|discriminate].
  intros [= <-].
  apply Forall_app. split; [|apply Forall_app; split].
  - apply Forall_map, Forall_forall. intros s _. apply chunk_spell_srd.
  - apply mapM_inv in Em.
    induction Em as [|m c ms cs Hc _ IH]; constructor; [|exact IH].
    eapply chunk_monster_srd, Hc.
  - apply mapM_inv in Er.
    induction Er as [|r cs rs css Hcs _ IH]; simpl; [constructor|].
    apply Forall_app. split; [eapply chunk_rule_section_srd, Hcs|exact IH].
Qed.

Lemma srd_chunk_provenance (c : Chunk) :
  srd_chunk c ->
  is_Some (chunk_metadata c !! "type") /\ is_Some (chunk_metadata c !! "source").
Proof.
  intros ([Hty|[Hty|Hty]] & Hso & _);
    (split; [rewrite Hty|rewrite Hso]; eexists; reflexivity).
Qed.

(** X18: every chunk of a corpus built by [step_2_process_and_chunk] is
    tagged [spell], [monster] or [rule], comes from ["SRD 5e"] and has a URL
    under the API's address; so [generate_answer] never fails with a
    [KeyError] on chunks of such a corpus. *)
Theorem step_2_chunks_are_tagged {token : Type}
    (encoding_encode : string -> list token) (encoding_decode : list token -> string)
    (repr_other : json -> string)
    (requests_post : string -> Payload -> Z -> http_outcome)
    (spells_file : option (list Spell)) (monsters_file : option (list Monster))
    (rules_file : option (list Rule)) (all_chunks : list Chunk) :
  step_2_process_and_chunk encoding_encode encoding_decode repr_other
    spells_file monsters_file rules_file = Ok all_chunks ->
  Forall srd_chunk all_chunks /\
  forall (self : RAGEngine) (query : string) (context_chunks : list (Chunk * Q))
         (temperature : Q),
    Forall (fun entry => fst entry ∈ all_chunks) context_chunks ->
    is_ok (generate_answer requests_post self query context_chunks temperature).
Proof.
  intros Hstep. pose proof (step_2_srd _ _ _ _ _ _ _ Hstep) as Hsrd.
  split; [exact Hsrd|].
  intros self query context_chunks temperature Hin.
  destruct (build_context_ok context_chunks) as (parts & srcs & Hctx).
  - rewrite Forall_forall in Hin. rewrite Forall_forall in Hsrd.
    apply Forall_forall. intros entry He.
    apply srd_chunk_provenance, Hsrd, Hin, He.
  - unfold generate_answer. rewrite Hctx. exact I.
Qed.

Lemma step_2_chunks_are_tagged_witness :
  exists all_chunks,
    step_2_process_and_chunk char_encode char_decode repr_placeholder
      (Some [test_spell]) (Some [test_monster]) (Some [test_rule 3]) = Ok all_chunks /\
    Forall srd_chunk all_chunks.
Proof.
  destruct (step_2_process_and_chunk char_encode char_decode repr_placeholder
              (Some [test_spell]) (Some [test_monster]) (Some [test_rule 3]))
    as [all_chunks|e] eqn:E; [|vm_compute in E; discriminate E].
  exists all_chunks. split; [reflexivity|].
  apply (step_2_chunks_are_tagged char_encode char_decode repr_placeholder
           post_timeout _ _ _ all_chunks E).
Defined.

Lemma run_full_pipeline_inv {token : Type}
    (encoding_encode : string -> list token) (encoding_decode : list token -> string)
    (repr_other : json -> string) (model_encode : list string -> list (list Q))
    (spells_file : option (list Spell)) (monsters_file : option (list Monster))
    (rules_file : option (list Rule)) (artifacts : Artifacts) :
  run_full_pipeline encoding_encode encoding_decode repr_other model_encode
    spells_file monsters_file rules_file = Ok artifacts ->
  step_2_process_and_chunk encoding_encode encoding_decode repr_other
    spells_file monsters_file rules_file = Ok (all_chunks_json artifacts) /\
  embeddings_npy artifacts =
    np_asarray (model_encode (map chunk_text (all_chunks_json artifacts))) /\
  metadata_json artifacts =
    map (fun '(i, chunk) =>
           {| meta_id := Z.of_nat i;
              meta_metadata := chunk_metadata chunk;
              meta_token_count := chunk_token_count chunk |})
        (enumerate (all_chunks_json artifacts)).
Proof.
  unfold run_full_pipeline.
  destruct (step_2_process_and_chunk _ _ _ _ _ _) as [chunks|e]; simpl;
    [|discriminate].
  intros [= <-]. simpl. repeat split.
Qed.

Lemma np_asarray_len (rows : list (list Q)) :
  array_len (np_asarray rows) = length rows.
Proof. destruct rows; reflexivity. Qed.

Lemma np_asarray_rows (rows : list (list Q)) :
  array_rows (np_asarray rows) = rows.
Proof. destruct rows; reflexivity. Qed.

(** X19: an engine started from the artifacts of one pipeline run is
    aligned, provided the embedding model returns one row per text, in
    order: it has as many rows and metadata entries as chunks, row [i] is
    the embedding of the text of chunk [i], and metadata entry [i] is
    numbered [i] and repeats the metadata and the token count of chunk
    [i]. *)
Theorem pipeline_engine_is_aligned {token : Type}
    (encoding_encode : string -> list token) (encoding_decode : list token -> string)
    (repr_other : json -> string) (model_encode : list string -> list (list Q))
    (embed : string -> list Q)
    (spells_file : option (list Spell)) (monsters_file : option (list Monster))
    (rules_file : option (list Rule)) (artifacts : Artifacts)
    (encoder : string -> list Q) (url model : string) :
  (forall texts, model_encode texts = map embed texts) ->
  run_full_pipeline encoding_encode encoding_decode repr_other model_encode
    spells_file monsters_file rules_file = Ok artifacts ->
  exists engine,
    load_engine artifacts (Ok encoder) url model = Ok engine /\
    step_2_process_and_chunk encoding_encode encoding_decode repr_other
      spells_file monsters_file rules_file = Ok (chunks engine) /\
    array_len (embeddings engine) = length (chunks engine) /\
    length (metadata engine) = length (chunks engine) /\
    forall (i : nat) (c : Chunk),
      chunks engine !! i = Some c ->
      array_rows (embeddings engine) !! i = Some (embed (chunk_text c)) /\
      metadata engine !! i =
        Some {| meta_id := Z.of_nat i;
                meta_metadata := chunk_metadata c;
                meta_token_count := chunk_token_count c |}.
Proof.
  intros Hmodel Hrun.
  destruct (run_full_pipeline_inv _ _ _ _ _ _ _ _ Hrun) as (Hstep & Hemb & Hmeta).
  eexists. split; [reflexivity|]. simpl.
  split; [exact Hstep|]. rewrite Hemb, Hmeta, Hmodel.
  split; [|split].
  - rewrite np_asarray_len, !length_map. reflexivity.
  - rewrite length_map. unfold enumerate. rewrite length_zip, length_seq. lia.
  - intros i c Hc. split.
    + rewrite np_asarray_rows, !list_lookup_fmap, Hc. reflexivity.
    + rewrite list_lookup_fmap, (enumerate_lookup _ _ _ Hc). reflexivity.
Qed.

Lemma pipeline_engine_is_aligned_witness :
  exists artifacts engine,
    small_run = Ok artifacts /\
    load_engine artifacts (Ok unit_query) "" "" = Ok engine /\
    array_len (embeddings engine) = length (chunks engine) /\
    length (chunks engine) = 3%nat.
Proof.
  destruct small_run as [artifacts|e] eqn:E; [|vm_compute in E; discriminate E].
  destruct (pipeline_engine_is_aligned char_encode char_decode repr_placeholder
              length_embed (fun t => [inject_Z (Z.of_nat (String.length t))])
              (Some [test_spell]) (Some [test_monster]) (Some [test_rule 3])
              artifacts unit_query "" "")
    as (engine & Hload & Hstep & Hrows & _); [reflexivity|exact E|].
  exists artifacts, engine. split; [reflexivity|]. split; [exact Hload|].
  split; [exact Hrows|].
  pose proof (f_equal (fun r => match r with Ok l => length l | Err _ => O end)
                Hstep) as Hl.
  cbv beta iota in Hl. rewrite <- Hl. vm_compute. reflexivity.
Defined.

(** X20: an engine started from the artifacts of a pipeline run that made
    at least one chunk answers every question: if the query is embedded by
    the model that embedded the chunks (one row per text, rows of the query
    vector's length), [ask] raises nothing, whatever [top_k], and
    [context_used] is the number of chunks [retrieve] returns. *)
Theorem pipeline_engine_answers {token : Type}
    (encoding_encode : string -> list token) (encoding_decode : list token -> string)
    (repr_other : json -> string) (model_encode : list string -> list (list Q))
    (embed : string -> list Q) (encoder : string -> list Q)
    (requests_post : string -> Payload -> Z -> http_outcome)
    (spells_file : option (list Spell)) (monsters_file : option (list Monster))
    (rules_file : option (list Rule)) (artifacts : Artifacts) (url model : string)
    (engine : RAGEngine) (query : string) (top_k : Z) :
  (forall texts, model_encode texts = map embed texts) ->
  (forall text, length (embed text) = length (encoder query)) ->
  run_full_pipeline encoding_encode encoding_decode repr_other model_encode
    spells_file monsters_file rules_file = Ok artifacts ->
  all_chunks_json artifacts <> [] ->
  load_engine artifacts (Ok encoder) url model = Ok engine ->
  exists results response,
    retrieve engine query top_k = Ok results /\
    ask requests_post engine query top_k = Ok response /\
    context_used response = Z.of_nat (length results) /\
    length (sources response) = length results.
Proof.
  intros Hmodel Hdim Hrun Hne Hload.
  destruct (run_full_pipeline_inv _ _ _ _ _ _ _ _ Hrun) as (Hstep & Hemb & _).
  unfold load_engine in Hload. simpl in Hload. injection Hload as <-.
  destruct (ask_ok requests_post
              {| chunks := all_chunks_json artifacts;
                 embeddings := embeddings_npy artifacts;
                 metadata := metadata_json artifacts;
                 embedding_model := encoder;
                 llm_url := url; llm_model := model |} query top_k
              (map (fun row => dot row (encoder query))
                   (map embed (map chunk_text (all_chunks_json artifacts)))))
    as (results & parts & srcs & response & Hres & _ & Hctx & _ & Hsrc & Hused & Hask).
  - simpl. rewrite Hemb, np_asarray_len, Hmodel, !length_map. lia.
  - simpl. eapply Forall_impl; [eapply step_2_srd, Hstep|].
    apply srd_chunk_provenance.
  - simpl. rewrite Hemb, Hmodel.
    destruct (all_chunks_json artifacts) as [|c cs]; [contradiction|].
    simpl. apply np_dot_ok, Hdim.
  - exists results, response. split; [exact Hres|]. split; [exact Hask|].
    split; [exact Hused|]. rewrite Hsrc. apply (build_context_sources _ _ _ Hctx).
Qed.

Lemma pipeline_engine_answers_witness :
  exists artifacts engine response,
    small_run = Ok artifacts /\
    load_engine artifacts (Ok unit_query) "" "" = Ok engine /\
    ask post_reply engine "What is the spell Fireball?" 2 = Ok response /\
    length (sources response) = 2%nat.
Proof.
  destruct small_run as [artifacts|e] eqn:E; [|vm_compute in E; discriminate E].
  destruct (load_engine artifacts (Ok unit_query) "" "") as [engine|e] eqn:L;
    [|discriminate L].
  destruct (pipeline_engine_answers char_encode char_decode repr_placeholder
              length_embed (fun t => [inject_Z (Z.of_nat (String.length t))])
              unit_query post_reply
              (Some [test_spell]) (Some [test_monster]) (Some [test_rule 3])
              artifacts "" "" engine "What is the spell Fireball?" 2)
    as (results & response & Hres & Hask & _ & Hlen);
    [reflexivity|reflexivity|exact E| |exact L|].
  { vm_compute in E. injection E as <-. discriminate. }
  exists artifacts, engine, response.
  split; [reflexivity|]. split; [exact L|]. split; [exact Hask|].
  rewrite Hlen. clear Hask Hlen.
  vm_compute in E. injection E as <-.
  injection L as <-.
  pose proof (f_equal (fun r => match r with Ok l => length l | Err _ => O end)
                Hres) as Hl.
  cbv beta iota in Hl. rewrite <- Hl. vm_compute. reflexivity.
Defined.

(** * Listing the sources of one type *)

Lemma json_eq_str_true (value : json) (s : string) :
  json_eq_str value s = true <-> value = JStr s.
Proof.
  destruct value; simpl; try (split; [discriminate|intros H; discriminate H]).
  rewrite String.eqb_eq. split; [intros ->; reflexivity|intros [= ->]; reflexivity].
Qed.

(** The comprehension of [list_sources] on chunks that all have a [type]. *)
Lemma list_sources_kept (doc_type : string) (cs : list Chunk) :
  Forall (fun c => is_Some (chunk_metadata c !! "type")) cs ->
  exists kept,
    mapM (fun chunk =>
            do type <- py_lookup (chunk_metadata chunk) "type";
            Ok (if json_eq_str type doc_type then [chunk_metadata chunk] else []))
         cs = Ok kept /\
    concat kept =
      map chunk_metadata
        (List.filter (fun c => match chunk_metadata c !! "type" with
                               | Some value => json_eq_str value doc_type
                               | None => false
                               end) cs).
Proof.
  induction 1 as [|c cs [ty Hty] _ (kept & Hk & Hc)]; simpl.
  - exists []. split; reflexivity.
  - unfold py_lookup at 1. rewrite Hty. simpl. rewrite Hk. simpl.
    eexists. split; [reflexivity|]. simpl. rewrite Hc.
    destruct (json_eq_str ty doc_type); reflexivity.
Qed.

Lemma filter_no_such_type (doc_type : string) (cs : list Chunk) :
  Forall (fun c => chunk_metadata c !! "type" <> Some (JStr doc_type)) cs ->
  List.filter (fun c => match chunk_metadata c !! "type" with
                        | Some value => json_eq_str value doc_type
                        | None => false
                        end) cs = [].
Proof.
  induction 1 as [|c cs Hc _ IH]; simpl; [reflexivity|].
  destruct (chunk_metadata c !! "type") as [value|]; [|exact IH].
  destruct (json_eq_str value doc_type) eqn:E; [|exact IH].
  apply json_eq_str_true in E. subst value. contradiction.
Qed.

(** X21: [list_sources] answers 503 while no engine is loaded.  With an
    engine whose chunks all have a [type], it answers 200 with the metadata
    of exactly the chunks whose [type] is the string asked for, in corpus
    order, and with their number as [count]; a type no chunk has gives an
    empty list with count 0, not an error.  A chunk without [type] makes
    the handler fail with an unhandled [KeyError]. *)
Theorem list_sources_by_type (rag_engine : option RAGEngine) (doc_type : string) :
  (rag_engine = None ->
   list_sources rag_engine doc_type
     = HTTPException 503 "RAG Engine not initialized") /\
  (forall engine,
     rag_engine = Some engine ->
     Forall (fun c => is_Some (chunk_metadata c !! "type")) (chunks engine) ->
     exists body,
       list_sources rag_engine doc_type = Http200 body /\
       listing_type body = doc_type /\
       listing_count body = Z.of_nat (length (listing_sources body)) /\
       listing_sources body =
         map chunk_metadata
           (List.filter (fun c => match chunk_metadata c !! "type" with
                                  | Some value => json_eq_str value doc_type
                                  | None => false
                                  end) (chunks engine)) /\
       Forall (fun md => md !! "type" = Some (JStr doc_type)) (listing_sources body) /\
       (Forall (fun c => chunk_metadata c !! "type" <> Some (JStr doc_type))
               (chunks engine) ->
        listing_sources body = [] /\ listing_count body = 0)) /\
  (forall engine,
     rag_engine = Some engine ->
     Exists (fun c => chunk_metadata c !! "type" = None) (chunks engine) ->
     list_sources rag_engine doc_type = Unhandled (KeyError "type")).
Proof.
  split; [intros ->; reflexivity|]. split.
  - intros engine -> Hall.
    destruct (list_sources_kept doc_type (chunks engine) Hall) as (kept & Hk & Hc).
    unfold list_sources. rewrite Hk. eexists. split; [reflexivity|]. simpl.
    split; [reflexivity|]. split; [reflexivity|]. split; [exact Hc|].
    rewrite Hc. split.
    + apply Forall_map, Forall_forall. intros c Hin.
      apply list_elem_of_In, filter_In in Hin as [_ Hin].
      destruct (chunk_metadata c !! "type") as [value|]; [|discriminate].
      apply json_eq_str_true in Hin. rewrite Hin. reflexivity.
    + intros Hnone.
      rewrite (filter_no_such_type doc_type _ Hnone). split; reflexivity.
  - intros engine -> Hex. unfold list_sources.
    match goal with |- context [mapM ?f ?l] =>
      destruct (mapM_err f l (fun e => e = KeyError "type")) as (e & -> & ->)
    end; [| |reflexivity].
    + intros c e. unfold py_lookup.
      destruct (chunk_metadata c !! "type"); simpl; [discriminate|congruence].
    + eapply Exists_impl; [exact Hex|]. simpl. intros c Hc.
      unfold py_lookup. rewrite Hc. simpl. tauto.
Qed.

Lemma list_sources_by_type_witness :
  exists body,
    list_sources (Some five_engine) "rule" = Http200 body /\
    listing_count body = 5 /\
    list_sources (Some five_engine) "spell"
      = Http200 {| listing_type := "spell"; listing_count := 0; listing_sources := [] |}.
Proof.
  destruct (list_sources_by_type (Some five_engine) "rule") as (_ & Hrule & _).
  destruct (Hrule five_engine eq_refl) as (body & Hbody & _ & Hcount & Hlist & _).
  { repeat constructor; eexists; reflexivity. }
  exists body. split; [exact Hbody|]. split.
  - rewrite Hcount, Hlist. reflexivity.
  - destruct (list_sources_by_type (Some five_engine) "spell") as (_ & Hspell & _).
    destruct (Hspell five_engine eq_refl) as (b & Hb & Hty & Hc & _ & _ & Hempty).
    { repeat constructor; eexists; reflexivity. }
    destruct Hempty as [Hl H0].
    { repeat constructor; discriminate. }
    rewrite Hb. destruct b as [ty n l]. simpl in *. subst. reflexivity.
Defined.

(** * The prompt sent to the generation service *)

Lemma contains_append (pre text post part : string) :
  contains text part -> contains (pre +:+ text +:+ post) part.
Proof.
  intros (a & b & ->). exists (pre +:+ a), (b +:+ post).
  rewrite !string_app_assoc. reflexivity.
Qed.

(** Two parts that follow each other are joined by one separator. *)
Lemma join_contains_adjacent (sep : string) (l1 l2 : list string) (p q r : string) :
  contains (join sep (l1 ++ p :: q :: r :: l2)) (p +:+ sep +:+ q +:+ sep).
Proof.
  induction l1 as [|x l1 IH].
  - exists "", (join sep (r :: l2)).
    change (join sep ([] ++ p :: q :: r :: l2))
      with (p +:+ sep +:+ q +:+ sep +:+ join sep (r :: l2)).
    rewrite !string_app_assoc. reflexivity.
  - destruct IH as (a & b & Heq).
    exists (x +:+ sep +:+ a), b.
    assert (join sep ((x :: l1) ++ p :: q :: r :: l2)
            = x +:+ sep +:+ join sep (l1 ++ p :: q :: r :: l2)) as ->
      by (destruct l1; reflexivity).
    rewrite Heq, !string_app_assoc. reflexivity.
Qed.

Lemma mapM_map_fst {A B C} (f : A -> result (B * C)) (g : A -> B)
    (l : list A) (r : list (B * C)) :
  (forall x y, f x = Ok y -> fst y = g x) ->
  mapM f l = Ok r -> map fst r = map g l.
Proof.
  intros Hg H. apply mapM_inv in H.
  induction H as [|x y l r Hx _ IH]; simpl; [reflexivity|].
  rewrite (Hg x y Hx), IH. reflexivity.
Qed.

(** The lines the loop leaves in [context_parts]: a label, the text and an
    empty line per ranked chunk. *)
Lemma build_context_parts (context_chunks : list (Chunk * Q))
    (context_parts : list string) (srcs : list Source) :
  build_context context_chunks = Ok (context_parts, srcs) ->
  context_parts =
    concat (map (fun entry : nat * (Chunk * Q) =>
                   ["[Documento " +:+ pretty (fst entry) +:+ "]";
                    chunk_text (fst (snd entry)); ""])
                (zip (seq 1 (length context_chunks)) context_chunks)).
Proof.
  unfold build_context.
  destruct (mapM context_entry _) as [entries|e] eqn:E; simpl; [|discriminate].
  intros [= <- _]. f_equal.
  apply (mapM_map_fst context_entry
           (fun entry : nat * (Chunk * Q) =>
              ["[Documento " +:+ pretty (fst entry) +:+ "]";
               chunk_text (fst (snd entry)); ""])); [|exact E].
  intros [i [chunk score]] [parts src] H.
  apply context_entry_inv in H as (-> & _). reflexivity.
Qed.

(** X22: the prompt [generate_answer] sends to the generation service
    contains the text of every ranked chunk, each right under its label
    ["[Documento i]"] numbered from 1, and the question after
    ["QUESTION: "]; the answer returned is what the service gave for that
    prompt. *)
Theorem generate_answer_prompt_has_every_chunk
    (requests_post : string -> Payload -> Z -> http_outcome)
    (self : RAGEngine) (query : string) (context_chunks : list (Chunk * Q))
    (temperature : Q) (response : AnswerResponse) :
  generate_answer requests_post self query context_chunks temperature = Ok response ->
  exists prompt,
    answer response = _call_llm requests_post self prompt temperature /\
    contains prompt ("QUESTION: " +:+ query) /\
    forall (i : nat) (chunk : Chunk) (score : Q),
      context_chunks !! i = Some (chunk, score) ->
      contains prompt
        ("[Documento " +:+ pretty (S i) +:+ "]" +:+ nl +:+ chunk_text chunk +:+ nl).
Proof.
  unfold generate_answer.
  destruct (build_context context_chunks) as [[parts srcs]|e] eqn:Hctx; simpl;
    [|discriminate].
  intros [= <-]. simpl.
  exists (_build_prompt query (join nl parts)). split; [reflexivity|]. split.
  - unfold _build_prompt. eexists. exists (nl +:+ nl +:+ "ANSWER:").
    rewrite <- !string_app_assoc. reflexivity.
  - intros i chunk score Hi.
    rewrite (build_context_parts _ _ _ Hctx).
    pose proof (numbered_lookup _ _ _ Hi) as Hz.
    rewrite <- (take_drop_middle _ _ _ Hz).
    rewrite map_app, concat_app. simpl.
    unfold _build_prompt.
    match goal with
    | |- contains (?a +:+ _) _ =>
        repeat match goal with
               | |- contains (?x +:+ join ?s ?l +:+ ?rest) _ =>
                   apply (contains_append x (join s l) rest)
               | |- contains (?x +:+ ?y +:+ ?rest) _ =>
                   rewrite <- (string_app_assoc x y rest)
               end
    end.
    replace ("[Documento " +:+ pretty (S i) +:+ "]" +:+ nl +:+ chunk_text chunk +:+ nl)
      with (("[Documento " +:+ pretty (S i) +:+ "]") +:+ nl +:+ chunk_text chunk +:+ nl)
      by (rewrite !string_app_assoc; reflexivity).
    apply (join_contains_adjacent nl _ _ _ _ "").
Qed.

Lemma generate_answer_prompt_has_every_chunk_witness :
  exists response prompt,
    generate_answer post_reply five_engine "Which one?"
      [(plain_chunk "first text", 9 # 10); (plain_chunk "second text", 7 # 10)]%Q
      (3 # 10)%Q = Ok response /\
    contains prompt ("[Documento 2]" +:+ nl +:+ "second text" +:+ nl) /\
    contains prompt "QUESTION: Which one?".
Proof.
  destruct (generate_answer post_reply five_engine "Which one?"
              [(plain_chunk "first text", 9 # 10); (plain_chunk "second text", 7 # 10)]%Q
              (3 # 10)%Q) as [response|e] eqn:Hres;
    [|vm_compute in Hres; discriminate Hres].
  destruct (generate_answer_prompt_has_every_chunk post_reply five_engine "Which one?"
              [(plain_chunk "first text", 9 # 10); (plain_chunk "second text", 7 # 10)]%Q
              (3 # 10)%Q response Hres) as (prompt & _ & Hq & Hdocs).
  exists response, prompt. split; [reflexivity|]. split; [|exact Hq].
  apply (Hdocs 1%nat (plain_chunk "second text") (7 # 10)%Q). reflexivity.
Defined.

(** * More on chunks *)

Lemma chunk_monster_text {token : Type}
    (encoding_encode : string -> list token) (repr_other : json -> string)
    (monster_data : Monster) (c : Chunk) :
  chunk_monster encoding_encode repr_other monster_data = Ok c ->
  exists parts,
    monster_desc_parts repr_other monster_data = Ok parts /\
    chunk_text c = join nl parts.
Proof.
  unfold chunk_monster.
  destruct (monster_desc_parts repr_other monster_data) as [parts|e]; simpl;
    [|discriminate].
  intros [= <-]. exists parts. split; reflexivity.
Qed.

(** X23: every special ability and every action of a monster is in the
    chunk text as a line ["- **name:** desc"], and a missing name or
    description is printed as the word [None], not as a placeholder. *)
Theorem chunk_monster_features {token : Type}
    (encoding_encode : string -> list token) (repr_other : json -> string)
    (monster_data : Monster) (c : Chunk) :
  chunk_monster encoding_encode repr_other monster_data = Ok c ->
  forall f : Feature,
    f ∈ default [] (monster_special_abilities monster_data) \/
    f ∈ default [] (monster_actions monster_data) ->
    contains (chunk_text c)
      ("- **" +:+ default "None" (feature_name f) +:+ ":** "
              +:+ default "None" (feature_desc f)).
Proof.
  intros Hc f Hf.
  assert (monster_armor_class monster_data <> Some []) as Hac.
  { intros E. unfold chunk_monster, monster_desc_parts in Hc.
    rewrite E in Hc. discriminate Hc. }
  assert (exists ac,
            py_getitem (get (monster_armor_class monster_data) [mkArmorClass None]) 0
              = Ok ac) as [ac Hget].
  { destruct (monster_armor_class monster_data) as [[|ac l]|]; [congruence| |];
      eexists; reflexivity. }
  destruct (chunk_monster_text _ _ _ _ Hc) as (parts & Hparts & ->).
  rewrite (monster_desc_parts_eq repr_other monster_data ac Hget) in Hparts.
  injection Hparts as <-.
  apply join_contains.
  assert ("- **" +:+ default "None" (feature_name f) +:+ ":** "
                 +:+ default "None" (feature_desc f)
          = feature_line repr_other f) as ->
    by (unfold feature_line, str_opt; destruct (feature_name f), (feature_desc f);
        reflexivity).
  do 13 apply list_elem_of_further.
  apply elem_of_app.
  destruct Hf as [Hf|Hf].
  - left. destruct (monster_special_abilities monster_data) as [[|f0 fs]|];
      try (apply elem_of_nil in Hf; destruct Hf).
    apply list_elem_of_further, (list_elem_of_fmap_2 (feature_line repr_other)), Hf.
  - right. destruct (monster_actions monster_data) as [[|f0 fs]|];
      try (apply elem_of_nil in Hf; destruct Hf).
    apply list_elem_of_further, (list_elem_of_fmap_2 (feature_line repr_other)), Hf.
Qed.

Lemma chunk_monster_features_witness :
  exists c,
    chunk_monster char_encode repr_placeholder biting_monster = Ok c /\
    contains (chunk_text c) "- **Bite:** None".
Proof.
  destruct (chunk_monster char_encode repr_placeholder biting_monster)
    as [c|e] eqn:E; [|vm_compute in E; discriminate E].
  exists c. split; [reflexivity|].
  apply (chunk_monster_features char_encode repr_placeholder biting_monster c E
           (mkFeature (Some "Bite") None)).
  right. apply list_elem_of_here.
Defined.

Lemma take_length_take {A} (l : list A) (m : nat) :
  take (length (take m l)) l = take m l.
Proof.
  rewrite length_take.
  destruct (Nat.le_ge_cases m (length l)) as [H|H].
  - rewrite Nat.min_l by exact H. reflexivity.
  - rewrite Nat.min_r by exact H. rewrite !take_ge by lia. reflexivity.
Qed.

(** X24: with [0 <= overlap < max_tokens], a window of at most [overlap]
    tokens adds nothing: when a chunk of a split section has
    [token_count <= overlap], all its tokens are already in the chunk just
    before it. *)
Theorem chunk_rule_section_short_window_redundant {token : Type}
    (encoding_encode : string -> list token) (encoding_decode : list token -> string)
    (rule_data : Rule) (max_tokens overlap : Z) :
  0 <= overlap < max_tokens ->
  max_tokens < count_tokens encoding_encode (rule_full_text rule_data) ->
  exists cs,
    chunk_rule_section encoding_encode encoding_decode rule_data max_tokens overlap
      = Ok cs /\
    forall (k : nat) (c c' : Chunk),
      cs !! k = Some c -> cs !! S k = Some c' ->
      chunk_token_count c' <= overlap ->
      chunk_text c =
        encoding_decode
          (take (Z.to_nat (chunk_token_count c))
             (drop (Z.to_nat (Z.of_nat k * (max_tokens - overlap)))
                (encoding_encode (rule_full_text rule_data)))) /\
      chunk_text c' =
        encoding_decode
          (take (Z.to_nat (chunk_token_count c'))
             (drop (Z.to_nat (Z.of_nat (S k) * (max_tokens - overlap)))
                (encoding_encode (rule_full_text rule_data)))) /\
      Z.of_nat k * (max_tokens - overlap) <= Z.of_nat (S k) * (max_tokens - overlap) /\
      Z.of_nat (S k) * (max_tokens - overlap) + chunk_token_count c'
        <= Z.of_nat k * (max_tokens - overlap) + chunk_token_count c.
Proof.
  intros Hov Hlong.
  destruct (chunk_rule_section_split encoding_encode encoding_decode rule_data
              max_tokens overlap Hlong) as (cs & Hcs & Hlen & Hwin); [lia|].
  exists cs. split; [exact Hcs|]. intros k c c' Hk Hk' Hshort.
  assert (S k < length cs)%nat as Hlt' by (eapply lookup_lt_Some, Hk').
  assert (k < length cs)%nat as Hlt by lia.
  rewrite Hlen in Hlt, Hlt'.
  rewrite (Hwin k Hlt) in Hk. rewrite (Hwin (S k) Hlt') in Hk'.
  injection Hk as <-. injection Hk' as <-.
  assert (0 < max_tokens - overlap) as Hstride by lia.
  pose proof (range_len_bound _ _ k Hstride Hlt) as Hin.
  pose proof (range_len_bound _ _ (S k) Hstride Hlt') as Hin'.
  unfold count_tokens in *.
  set (tokens := encoding_encode (rule_full_text rule_data)) in *.
  set (stride := max_tokens - overlap) in *.
  unfold window in *. simpl in *.
  assert (forall j : Z, 0 <= j <= Z.of_nat (length tokens) ->
            py_slice tokens (Some j) (Some (j + max_tokens))
            = take (Z.to_nat (Z.of_nat (length
                      (py_slice tokens (Some j) (Some (j + max_tokens))))))
                   (drop (Z.to_nat j) tokens)) as Hslice.
  { intros j Hj. rewrite Nat2Z.id. rewrite py_slice_window by lia.
    symmetry. apply take_length_take. }
  rewrite py_slice_window_length in Hshort by lia.
  rewrite (py_slice_window_length tokens (Z.of_nat k * stride)) by lia.
  rewrite (py_slice_window_length tokens (Z.pos (Pos.of_succ_nat k) * stride)) by lia.
  split; [|split; [|split]].
  - rewrite <- (py_slice_window_length tokens (Z.of_nat k * stride) max_tokens) by lia.
    f_equal. apply Hslice. lia.
  - rewrite <- (py_slice_window_length tokens (Z.pos (Pos.of_succ_nat k) * stride)
                  max_tokens) by lia.
    f_equal. apply Hslice. lia.
  - lia.
  - lia.
Qed.

Lemma chunk_rule_section_short_window_redundant_witness :
  exists cs c c',
    chunk_rule_section char_encode char_decode (test_rule 925) 512 50 = Ok cs /\
    cs !! 1%nat = Some c /\ cs !! 2%nat = Some c' /\
    chunk_token_count c' = 6 /\
    Z.of_nat 2 * (512 - 50) + chunk_token_count c'
      <= Z.of_nat 1 * (512 - 50) + chunk_token_count c.
Proof.
  destruct (chunk_rule_section_short_window_redundant char_encode char_decode
              (test_rule 925) 512 50) as (cs & Hcs & Hred);
    [lia|vm_compute; reflexivity|].
  destruct (cs !! 1%nat) as [c|] eqn:E1;
    [|vm_compute in Hcs; injection Hcs as <-; discriminate E1].
  destruct (cs !! 2%nat) as [c'|] eqn:E2;
    [|vm_compute in Hcs; injection Hcs as <-; discriminate E2].
  assert (chunk_token_count c' = 6) as H6.
  { vm_compute in Hcs. injection Hcs as <-. vm_compute in E2.
    injection E2 as <-. reflexivity. }
  exists cs, c, c'. split; [exact Hcs|]. split; [exact E1|]. split; [exact E2|].
  split; [exact H6|].
  destruct (Hred 1%nat c c' E1 E2) as (_ & _ & _ & Hin); [lia|exact Hin].
Defined.

(** X25: an engine started from the artifacts of a pipeline run that made
    no chunk cannot answer.  [embeddings.npy] then holds the array of shape
    [(0,)], and for every query whose vector is not empty [retrieve] and
    [ask] raise [ValueError], whatever [top_k] and whatever the generation
    service would reply. *)
Theorem ask_on_empty_index {token : Type}
    (encoding_encode : string -> list token) (encoding_decode : list token -> string)
    (repr_other : json -> string) (model_encode : list string -> list (list Q))
    (encoder : string -> list Q)
    (requests_post : string -> Payload -> Z -> http_outcome)
    (spells_file : option (list Spell)) (monsters_file : option (list Monster))
    (rules_file : option (list Rule)) (artifacts : Artifacts) (url model : string)
    (engine : RAGEngine) (query : string) (top_k : Z) :
  (forall texts, length (model_encode texts) = length texts) ->
  run_full_pipeline encoding_encode encoding_decode repr_other model_encode
    spells_file monsters_file rules_file = Ok artifacts ->
  all_chunks_json artifacts = [] ->
  load_engine artifacts (Ok encoder) url model = Ok engine ->
  encoder query <> [] ->
  embeddings engine = Array1 [] /\
  exists msg,
    retrieve engine query top_k = Err (ValueError msg) /\
    ask requests_post engine query top_k = Err (ValueError msg).
Proof.
  intros Hmodel Hrun Hempty Hload Hquery.
  destruct (run_full_pipeline_inv _ _ _ _ _ _ _ _ Hrun) as (_ & Hemb & _).
  rewrite Hempty in Hemb. simpl in Hemb.
  pose proof (Hmodel []) as Hrows.
  destruct (model_encode []) as [|row rows]; [|discriminate Hrows].
  unfold load_engine in Hload. simpl in Hload. injection Hload as <-.
  simpl. split; [exact Hemb|].
  assert (exists msg,
            retrieve {| chunks := all_chunks_json artifacts;
                        embeddings := embeddings_npy artifacts;
                        metadata := metadata_json artifacts;
                        embedding_model := encoder;
                        llm_url := url; llm_model := model |} query top_k
            = Err (ValueError msg)) as [msg Hres].
  { unfold retrieve, np_dot. simpl. rewrite Hemb. simpl.
    destruct (encoder query) as [|x v]; [contradiction|].
    simpl. eexists. reflexivity. }
  exists msg. split; [exact Hres|].
  unfold ask. rewrite Hres. reflexivity.
Qed.

Lemma ask_on_empty_index_witness :
  exists artifacts engine msg,
    empty_run = Ok artifacts /\
    load_engine artifacts (Ok unit_query) "" "" = Ok engine /\
    ask post_reply engine "q" 5 = Err (ValueError msg).
Proof.
  destruct empty_run as [artifacts|e] eqn:E; [|vm_compute in E; discriminate E].
  destruct (load_engine artifacts (Ok unit_query) "" "") as [engine|e] eqn:L;
    [|discriminate L].
  destruct (ask_on_empty_index char_encode char_decode repr_placeholder
              length_embed unit_query post_reply None None None
              artifacts "" "" engine "q" 5)
    as (_ & msg & _ & Hask).
  - intros texts. apply length_map.
  - exact E.
  - vm_compute in E. injection E as <-. reflexivity.
  - exact L.
  - discriminate.
  - exists artifacts, engine, msg.
    split; [reflexivity|]. split; [exact L|exact Hask].
Defined.
